(** * Lean Inventory Tracker: the title-reconciliation pipeline of newnewapp.py

    A shallow embedding of [fuzzy_match_titles], [resolve_conflicts],
    [match_handles] and of the "Proceed with Matching" block of
    src/newnewapp.py, together with the part of pandas and rapidfuzz that
    these functions call, and the properties of the pipeline.

    Conventions.
    - A Python exception is a value [Raise e] of the error monad [result].
    - A pandas DataFrame is a list of column labels and a list of rows; its
      index is left out (the pipeline concatenates with [ignore_index=True]
      and writes with [index=False]).  Cells are missing ([NaN]), text or
      integers; floating-point cells are outside the model.
    - [st.selectbox] is the only interaction of the pipeline; it is a
      function from the widget key and the offered options to the position
      the user picks.
    - Messages are given without the emoji they start with. *)

From Stdlib Require Import List String Ascii Bool Arith ZArith QArith Lia Lqa.
From Stdlib Require Import Permutation Sorted DecimalString.
Import ListNotations.

Local Open Scope string_scope.
Local Open Scope list_scope.
Local Open Scope nat_scope.

(** ** Exceptions *)

Inductive exn : Type :=
| KeyError (key : string)
| ValueError (msg : string)
| TypeError.

Inductive result (A : Type) : Type :=
| Ok (a : A)
| Raise (e : exn).

Arguments Ok {A} a.
Arguments Raise {A} e.

Definition bind {A B : Type} (c : result A) (k : A -> result B) : result B :=
  match c with
  | Ok a => k a
  | Raise e => Raise e
  end.

Notation "x <- c ;; k" := (bind c (fun x => k))
  (at level 61, c at next level, right associativity).
Notation "' pat <- c ;; k" := (bind c (fun x => match x with pat => k end))
  (at level 61, pat pattern, c at next level, right associativity).

(** A [for] loop whose body may raise: the state is threaded from left to
    right and the first exception ends the loop. *)
Fixpoint for_each {A S : Type} (body : S -> A -> result S) (xs : list A) (s : S)
  : result S :=
  match xs with
  | [] => Ok s
  | x :: xs' => s' <- body s x ;; for_each body xs' s'
  end.

(** ** Cells, rows and data frames *)

Inductive cell : Type :=
| NaN
| Str (s : string)
| Num (z : Z).

Definition cell_eqb (a b : cell) : bool :=
  match a, b with
  | NaN, NaN => true
  | Str s, Str t => String.eqb s t
  | Num x, Num y => Z.eqb x y
  | _, _ => false
  end.

Definition row : Type := list cell.

Fixpoint row_eqb (r1 r2 : row) : bool :=
  match r1, r2 with
  | [], [] => true
  | a :: r1', b :: r2' => cell_eqb a b && row_eqb r1' r2'
  | _, _ => false
  end.

Record DataFrame : Type := mkDataFrame {
  columns : list string;
  rows : list row
}.

(** [Series.astype(str)] on one cell. *)
Definition astype_str (c : cell) : string :=
  match c with
  | NaN => "nan"
  | Str s => s
  | Num z => NilZero.string_of_int (Z.to_int z)
  end.

(** [label in df.columns] *)
Definition has_column (label : string) (df : DataFrame) : bool :=
  existsb (String.eqb label) (columns df).

(** Position of a label among the columns. *)
Fixpoint get_loc (label : string) (cols : list string) : option nat :=
  match cols with
  | [] => None
  | c :: cols' =>
      if String.eqb label c then Some 0
      else option_map S (get_loc label cols')
  end.

(** [df[label]]: the column as a list of cells, or [KeyError]. *)
Definition getitem (df : DataFrame) (label : string) : result (list cell) :=
  match get_loc label (columns df) with
  | Some i => Ok (map (fun r => nth i r NaN) (rows df))
  | None => Raise (KeyError label)
  end.

(** [series == s] for a string [s]: elementwise, a missing or numeric cell
    never equals a string. *)
Definition series_eq (col : list cell) (s : string) : list bool :=
  map (fun c => cell_eqb c (Str s)) col.

(** [series.isin(values)] *)
Definition isin (col values : list cell) : list bool :=
  map (fun c => existsb (cell_eqb c) values) col.

(** Rows kept by a boolean mask. *)
Fixpoint take_mask {A : Type} (xs : list A) (mask : list bool) : list A :=
  match xs, mask with
  | x :: xs', b :: mask' =>
      if b then x :: take_mask xs' mask' else take_mask xs' mask'
  | _, _ => []
  end.

(** [df[mask]] *)
Definition getitem_mask (df : DataFrame) (mask : list bool) : DataFrame :=
  {| columns := columns df; rows := take_mask (rows df) mask |}.

(** [df.duplicated()] with [keep='first']: a row is flagged when an equal
    row occurs earlier. *)
Fixpoint duplicated_from (seen rs : list row) : list bool :=
  match rs with
  | [] => []
  | r :: rs' => existsb (row_eqb r) seen :: duplicated_from (r :: seen) rs'
  end.

Definition duplicated (df : DataFrame) : list bool :=
  duplicated_from [] (rows df).

(** [df.drop_duplicates()] is [df[~df.duplicated()]]. *)
Definition drop_duplicates (df : DataFrame) : DataFrame :=
  getitem_mask df (map negb (duplicated df)).

(** [pd.concat(dfs, ignore_index=True)]: an outer join on the columns.  The
    result has the labels of the frames in order of first appearance; a
    frame that lacks a label contributes missing cells for it.  An empty
    list of frames raises [ValueError]. *)
Definition add_columns (acc new : list string) : list string :=
  fold_left
    (fun acc c => if existsb (String.eqb c) acc then acc else acc ++ [c])
    new acc.

Definition union_columns (dfs : list DataFrame) : list string :=
  fold_left (fun acc df => add_columns acc (columns df)) dfs [].

Definition reindex_row (cols from : list string) (r : row) : row :=
  map (fun c => match get_loc c from with
                | Some i => nth i r NaN
                | None => NaN
                end) cols.

Definition reindex (cols : list string) (df : DataFrame) : list row :=
  map (reindex_row cols (columns df)) (rows df).

Definition concat (dfs : list DataFrame) : result DataFrame :=
  match dfs with
  | [] => Raise (ValueError "No objects to concatenate")
  | _ :: _ =>
      let cols := union_columns dfs in
      Ok {| columns := cols; rows := flat_map (reindex cols) dfs |}
  end.

(** A frame as pandas builds it: distinct labels, one cell per label in
    every row. *)
Definition well_formed (df : DataFrame) : Prop :=
  NoDup (columns df) /\
  Forall (fun r => List.length r = List.length (columns df)) (rows df).

(** ** rapidfuzz *)

Module fuzz.

(** Length of a longest common subsequence. *)
Fixpoint lcs (a b : list ascii) : nat :=
  match a with
  | [] => 0
  | x :: a' =>
      (fix along (b : list ascii) : nat :=
         match b with
         | [] => 0
         | y :: b' =>
             if Ascii.eqb x y then S (lcs a' b')
             else Nat.max (lcs a' b) (along b')
         end) b
  end.

(** [fuzz.ratio]: the normalised Indel similarity on the scale 0 to 100,
    that is 100 * 2 * lcs / (len1 + len2), and 100 for two empty strings.
    The score is kept as an exact fraction; rapidfuzz computes it in
    double precision, whose rounding can move a score across a threshold
    that the exact score equals. *)
Definition ratio (s1 s2 : string) : Q :=
  let n := String.length s1 + String.length s2 in
  match n with
  | 0 => 100%Q
  | S _ =>
      Qmake (Z.of_nat (200 * lcs (list_ascii_of_string s1)
                                 (list_ascii_of_string s2)))
            (Pos.of_nat n)
  end.

End fuzz.

(** [process.extract] is called with [scorer=fuzz.ratio] and
    [score_cutoff=threshold]; the other arguments keep their defaults: no
    processor (query and choices are compared as they are) and a limit of
    five results.  This module gives what the call returns for a text
    query and a cutoff from 0 to 100; the arguments that rapidfuzz rejects
    are those of [extract_call] below. *)
Module process.

(** One result of [process.extract]: the choice, its score and its
    position among the choices. *)
Definition hit : Type := (string * Q * nat)%type.

Definition choice (m : hit) : string := fst (fst m).
Definition score (m : hit) : Q := snd (fst m).
Definition index (m : hit) : nat := snd m.

Definition default_limit : nat := 5.

Section Extract.

Variable scorer : string -> string -> Q.

(** Every choice with its score and position, from position [i] on. *)
Fixpoint scored_from (i : nat) (query : string) (choices : list string)
  : list hit :=
  match choices with
  | [] => []
  | c :: choices' =>
      (c, scorer query c, i) :: scored_from (S i) query choices'
  end.

(** [process.extract_iter]: the choices whose score reaches the cutoff,
    in the order of the choices. *)
Definition extract_iter (query : string) (choices : list string)
           (score_cutoff : Q) : list hit :=
  filter (fun m => Qle_bool score_cutoff (score m))
         (scored_from 0 query choices).

(** Best score first; a hit goes in front of the first hit that does not
    score more than it does, so hits of equal score keep the order in
    which they are inserted. *)
Fixpoint insert (m : hit) (sorted : list hit) : list hit :=
  match sorted with
  | [] => [m]
  | h :: sorted' =>
      if Qle_bool (score h) (score m) then m :: h :: sorted'
      else h :: insert m sorted'
  end.

Fixpoint sort (ms : list hit) : list hit :=
  match ms with
  | [] => []
  | m :: ms' => insert m (sort ms')
  end.

(** [process.extract(query, choices, scorer=..., score_cutoff=...,
    limit=...)]: the [limit] best hits, best first. *)
Definition extract (query : string) (choices : list string)
           (score_cutoff : Q) (limit : nat) : list hit :=
  firstn limit (sort (extract_iter query choices score_cutoff)).

End Extract.

End process.

(** ** The functions of newnewapp.py *)

(** A Python [dict] from titles to candidate lists: keys keep the order of
    their first insertion and an assignment to a key already present
    replaces its value in place. *)
Definition dict : Type := list (string * list string).

Fixpoint dict_set (key : string) (value : list string) (d : dict) : dict :=
  match d with
  | [] => [(key, value)]
  | (k, v) :: d' =>
      if String.eqb key k then (k, value) :: d'
      else (k, v) :: dict_set key value d'
  end.

(** [matched_rows], [unmatched_titles] and [conflict_choices]. *)
Definition match_state : Type := (list DataFrame * list string * dict)%type.

(** The body of the loop of [fuzzy_match_titles]. *)
Definition fuzzy_match_title (inventory_df : DataFrame) (inventory_titles : list string)
           (threshold : Z) (st : match_state) (title : string)
  : result match_state :=
  let '(matched_rows, unmatched_titles, conflict_choices) := st in
  let matches :=
    process.extract fuzz.ratio title inventory_titles (inject_Z threshold)
                    process.default_limit in
  match matches with
  | [] => Ok (matched_rows, unmatched_titles ++ [title], conflict_choices)
  | [m] =>
      let match_title := process.choice m in
      title_col <- getitem inventory_df "Title" ;;
      let match_rows :=
        getitem_mask inventory_df (series_eq title_col match_title) in
      Ok (matched_rows ++ [match_rows], unmatched_titles, conflict_choices)
  | _ :: _ :: _ =>
      Ok (matched_rows, unmatched_titles,
          dict_set title (map process.choice matches) conflict_choices)
  end.

Definition fuzzy_match_titles (selected_titles : list string)
           (inventory_df : DataFrame) (threshold : Z) : result match_state :=
  title_col <- getitem inventory_df "Title" ;;
  let inventory_titles := map astype_str title_col in
  for_each (fuzzy_match_title inventory_df inventory_titles threshold)
           selected_titles ([], [], []).

Definition default_threshold : Z := 95.

(** [st.selectbox(label, options, key=key)] returns the option at the
    position the user picks; [pick] gives that position from the key and
    the options. *)
Definition selectbox (pick : string -> list string -> nat)
           (options : list string) (key : string) : string :=
  nth (pick key options) options "Skip".

(** The body of the loop of [resolve_conflicts]. *)
Definition resolve_conflict (pick : string -> list string -> nat)
           (inventory_df : DataFrame) (selected_rows : list DataFrame)
           (item : string * list string) : result (list DataFrame) :=
  let '(title, options) := item in
  let choice := selectbox pick (options ++ ["Skip"]) title in
  if negb (String.eqb choice "Skip") then
    title_col <- getitem inventory_df "Title" ;;
    Ok (selected_rows ++ [getitem_mask inventory_df (series_eq title_col choice)])
  else Ok selected_rows.

Definition resolve_conflicts (pick : string -> list string -> nat)
           (conflict_choices : dict) (inventory_df : DataFrame)
  : result (list DataFrame) :=
  for_each (resolve_conflict pick inventory_df) conflict_choices [].

Definition match_handles (product_df inventory_df : DataFrame)
  : result DataFrame :=
  product_handles <- getitem product_df "Handle" ;;
  inventory_handles <- getitem inventory_df "Handle" ;;
  Ok (getitem_mask product_df (isin product_handles inventory_handles)).

(** [pd.concat(matched + conflict_rows, ignore_index=True)] followed by
    [drop_duplicates(inplace=True)]. *)
Definition build_filtered_inventory (matched conflict_rows : list DataFrame)
  : result DataFrame :=
  concatenated <- concat (matched ++ conflict_rows) ;;
  Ok (drop_duplicates concatenated).

(** Step 2 of the "Proceed with Matching" block: the filtered inventory
    from the selected titles (the list read from the selected products
    file). *)
Definition filtered_inventory (pick : string -> list string -> nat)
           (selected_titles : list string) (inventory_df : DataFrame)
  : result DataFrame :=
  '(matched, unmatched, conflicts) <-
     fuzzy_match_titles selected_titles inventory_df default_threshold ;;
  conflict_rows <- resolve_conflicts pick conflicts inventory_df ;;
  build_filtered_inventory matched conflict_rows.

(** Step 3: either the filtered product file or the warning shown when the
    step is skipped. *)
Inductive step3 : Type :=
| Created (filtered_product : DataFrame)
| Skipped (warning : string).

Definition filtered_product (product_df filtered_inventory : DataFrame)
  : result step3 :=
  if has_column "Handle" product_df && has_column "Handle" filtered_inventory
  then
    matched <- match_handles product_df filtered_inventory ;;
    Ok (Created (drop_duplicates matched))
  else
    Ok (Skipped
          "Handle column missing in one of the datasets. Skipping product filtering.").

(** ** Notions used to state the properties *)

(** The rows kept by [drop_duplicates], computed directly: a row is kept
    when no equal row was seen before it. *)
Fixpoint dedup_from (seen rs : list row) : list row :=
  match rs with
  | [] => []
  | r :: rs' =>
      if existsb (row_eqb r) seen then dedup_from (r :: seen) rs'
      else r :: dedup_from (r :: seen) rs'
  end.

(** A frame made of rows of [df], under the columns of [df]. *)
Definition selection_of (df sub : DataFrame) : Prop :=
  columns sub = columns df /\ incl (rows sub) (rows df).

(** [inventory_df[inventory_df['Title'] == title]], when the column exists
    at position [i]. *)
Definition rows_titled (i : nat) (inventory_df : DataFrame) (title : string)
  : DataFrame :=
  {| columns := columns inventory_df;
     rows := filter (fun r => cell_eqb (nth i r NaN) (Str title))
                    (rows inventory_df) |}.

(** The score of an inventory title reaches the threshold. *)
Definition reaches (threshold : Z) (title candidate : string) : bool :=
  Qle_bool (inject_Z threshold) (fuzz.ratio title candidate).

(** The inventory titles, one per row, that reach the threshold. *)
Definition scoring (threshold : Z) (title : string) (inventory_titles : list string)
  : list string :=
  filter (reaches threshold title) inventory_titles.

(** The same titles with repetitions removed. *)
Definition distinct_scoring (threshold : Z) (title : string)
           (inventory_titles : list string) : list string :=
  nodup string_dec (scoring threshold title inventory_titles).

(** The order of the hits of [process.extract]: a higher score first and,
    at equal scores, the earlier choice first. *)
Definition ranks_before (a b : process.hit) : Prop :=
  (process.score b < process.score a)%Q \/
  (process.score a == process.score b)%Q /\ process.index a < process.index b.

(** The classification of a selected title, as the data model of the
    specification names it. *)
Inductive MatchResult : Type :=
| Unmatched
| UniqueMatch (inventory_title : string)
| Ambiguous (candidates : list string).

(** The branch that the loop of [fuzzy_match_titles] takes on the hits of
    [process.extract]. *)
Definition classify (matches : list process.hit) : MatchResult :=
  match matches with
  | [] => Unmatched
  | [m] => UniqueMatch (process.choice m)
  | _ :: _ :: _ => Ambiguous (map process.choice matches)
  end.

Definition matches_of (threshold : Z) (title : string)
           (inventory_titles : list string) : list process.hit :=
  process.extract fuzz.ratio title inventory_titles (inject_Z threshold)
                  process.default_limit.

(** The titles that [fuzzy_match_titles] hands to [process.extract] when
    the Title column is at position [i]. *)
Definition inventory_titles_at (i : nat) (inventory_df : DataFrame)
  : list string :=
  map astype_str (map (fun r => nth i r NaN) (rows inventory_df)).

(** [d.get(key)] *)
Fixpoint dict_get (key : string) (d : dict) : option (list string) :=
  match d with
  | [] => None
  | (k, v) :: d' => if String.eqb key k then Some v else dict_get key d'
  end.

(** ** The properties as the specification words them *)

(** The classification follows the number of distinct inventory titles that
    reach the threshold. *)
Definition classified_by_distinct_titles : Prop :=
  forall (threshold : Z) (title : string) (inventory_titles : list string),
    let d := List.length (distinct_scoring threshold title inventory_titles) in
    let outcome := classify (matches_of threshold title inventory_titles) in
    (d = 0 -> outcome = Unmatched) /\
    (d = 1 -> exists c, outcome = UniqueMatch c) /\
    (2 <= d -> exists cs, outcome = Ambiguous cs).

(** The candidate list of an ambiguous title holds every inventory title
    that reaches the threshold. *)
Definition conflict_lists_every_scoring_title : Prop :=
  forall (threshold : Z) (title : string) (inventory_titles cands : list string),
    classify (matches_of threshold title inventory_titles) = Ambiguous cands ->
    forall t, In t (scoring threshold title inventory_titles) -> In t cands.

(** Picking a candidate of a conflict contributes the inventory rows that
    carry the candidate as their title. *)
Definition chosen_candidate_contributes_its_rows : Prop :=
  forall (pick : string -> list string -> nat) (inventory_df : DataFrame)
         (i : nat) (title : string) (options : list string) (k : nat)
         (candidate : string),
    get_loc "Title" (columns inventory_df) = Some i ->
    pick title (options ++ ["Skip"]) = k ->
    nth_error options k = Some candidate ->
    resolve_conflicts pick [(title, options)] inventory_df =
    Ok [rows_titled i inventory_df candidate].

(** ** Sample tables *)

(** Two variants of one product, and another product. *)
Definition red_shirts : DataFrame :=
  {| columns := ["Handle"; "Title"; "SKU"];
     rows := [[Str "red-shirt"; Str "Red Shirt"; Str "RS-S"];
              [Str "red-shirt"; Str "Red Shirt"; Str "RS-M"];
              [Str "red-shirt-small"; Str "Red Shirt - Small"; Str "RSS"]] |}.

(** Six products whose titles differ from "Canvas Tote" by one character. *)
Definition canvas_totes : DataFrame :=
  {| columns := ["Handle"; "Title"];
     rows := [[Str "tote-1"; Str "Canvas Tote1"];
              [Str "tote-2"; Str "Canvas Tote2"];
              [Str "tote-3"; Str "Canvas Tote3"];
              [Str "tote-4"; Str "Canvas Tote4"];
              [Str "tote-5"; Str "Canvas Tote5"];
              [Str "tote-6"; Str "Canvas Tote6"]] |}.

(** Two variants of a product whose title is "Skip". *)
Definition skip_variants : DataFrame :=
  {| columns := ["Handle"; "Title"; "SKU"];
     rows := [[Str "skip"; Str "Skip"; Str "SK-1"];
              [Str "skip"; Str "Skip"; Str "SK-2"]] |}.

(** A table without a Title column and one without a Handle column. *)
Definition handles_only : DataFrame :=
  {| columns := ["Handle"]; rows := [[Str "red-shirt"]] |}.

Definition titles_only : DataFrame :=
  {| columns := ["Title"]; rows := [[Str "Red Shirt"]] |}.

(** A product file with a repeated row. *)
Definition products : DataFrame :=
  {| columns := ["Handle"; "Title"; "Vendor"];
     rows := [[Str "red-shirt"; Str "Red Shirt"; Str "Acme"];
              [Str "blue-hat"; Str "Blue Hat"; Str "Acme"];
              [Str "red-shirt"; Str "Red Shirt"; Str "Acme"]] |}.

(** The inventories of the two scenarios of the specification. *)
Definition shirt_and_small : DataFrame :=
  {| columns := ["Handle"; "Title"];
     rows := [[Str "red-shirt"; Str "Red Shirt"];
              [Str "red-shirt-small"; Str "Red Shirt - Small"]] |}.

Definition blue_hats : DataFrame :=
  {| columns := ["Handle"; "Title"];
     rows := [[Str "blue-hat"; Str "Blue Hat"];
              [Str "blue-hatt"; Str "Blue Hatt"]] |}.

(** The user always takes the first option, or always the last one. *)
Definition pick_first (key : string) (options : list string) : nat := 0.

Definition pick_last (key : string) (options : list string) : nat :=
  List.length options - 1.

(** ** Whole runs of the matcher *)

(** The number of inventory rows whose title reaches the threshold for a
    selected title. *)
Definition hit_count (threshold : Z) (inventory_titles : list string)
           (title : string) : nat :=
  List.length (scoring threshold title inventory_titles).

(** The selected titles by their number of hits, in the order and with the
    repetitions of the selection. *)
Definition without_hit (threshold : Z) (inventory_titles selected : list string)
  : list string :=
  filter (fun t => hit_count threshold inventory_titles t =? 0) selected.

Definition with_one_hit (threshold : Z) (inventory_titles selected : list string)
  : list string :=
  filter (fun t => hit_count threshold inventory_titles t =? 1) selected.

Definition with_several_hits (threshold : Z)
           (inventory_titles selected : list string) : list string :=
  filter (fun t => 2 <=? hit_count threshold inventory_titles t) selected.

(** The candidate list entered for an ambiguous title. *)
Definition candidates_of (threshold : Z) (inventory_titles : list string)
           (title : string) : list string :=
  map process.choice (matches_of threshold title inventory_titles).

(** The single inventory title reaching the threshold, for a title with one
    hit. *)
Definition only_hit (threshold : Z) (inventory_titles : list string)
           (title : string) : string :=
  hd "" (scoring threshold title inventory_titles).

(** The keys of a [dict], in order. *)
Definition keys (d : dict) : list string := map fst d.

(** ** Whole runs of the conflict resolution *)

(** The option returned by the select box of one conflict. *)
Definition decision (pick : string -> list string -> nat)
           (item : string * list string) : string :=
  selectbox pick (snd item ++ ["Skip"]) (fst item).

(** The decisions other than "Skip", in the order of the conflict map. *)
Definition chosen (pick : string -> list string -> nat) (conflicts : dict)
  : list string :=
  filter (fun c => negb (String.eqb c "Skip")) (map (decision pick) conflicts).

(** An inventory whose Title column holds numbers. *)
Definition numbered_parts : DataFrame :=
  {| columns := ["Handle"; "Title"];
     rows := [[Str "part-12"; Num 12]; [Str "part-470"; Num 470]] |}.

(** ** The "Proceed with Matching" block *)

(** Steps 2 and 3 together: the filtered inventory and the outcome of the
    product step. *)
Definition proceed (pick : string -> list string -> nat)
           (selected_titles : list string) (product_df inventory_df : DataFrame)
  : result (DataFrame * step3) :=
  filtered <- filtered_inventory pick selected_titles inventory_df ;;
  outcome <- filtered_product product_df filtered ;;
  Ok (filtered, outcome).

(** ** Title values and special characters *)

(** [Series.dropna()] *)
Definition isna (c : cell) : bool :=
  match c with
  | NaN => true
  | _ => false
  end.

Definition dropna (col : list cell) : list cell :=
  filter (fun c => negb (isna c)) col.

(** [Series.unique()]: the values in the order of their first occurrence. *)
Fixpoint unique_from (seen values : list cell) : list cell :=
  match values with
  | [] => []
  | v :: values' =>
      if existsb (cell_eqb v) seen then unique_from seen values'
      else v :: unique_from (v :: seen) values'
  end.

Definition unique (values : list cell) : list cell := unique_from [] values.

(** [selected_df['Title'].dropna().unique().tolist()], the selected titles
    of the "Proceed with Matching" block. *)
Definition selected_titles_of (selected_df : DataFrame) : result (list cell) :=
  title_col <- getitem selected_df "Title" ;;
  Ok (unique (dropna title_col)).

(** The ASCII characters of the classes [\w] and [\s] of Python's [re] on
    text: letters, digits and the underscore; the characters 9 to 13, 28 to
    31 and the blank. *)
Definition ascii_word (n : nat) : bool :=
  ((48 <=? n) && (n <=? 57)) || ((65 <=? n) && (n <=? 90)) ||
  ((97 <=? n) && (n <=? 122)) || (n =? 95).

Definition ascii_space (n : nat) : bool :=
  ((9 <=? n) && (n <=? 13)) || ((28 <=? n) && (n <=? 32)).

Section SpecialCharacters.

(** Beyond ASCII the two classes are the Unicode tables of Python, which
    are taken as given: whether a character of code 128 or more is a word
    character or white space. *)
Variable unicode_word_or_space : ascii -> bool.

(** A character matched by the class [[^\w\s\-]]. *)
Definition special_character (c : ascii) : bool :=
  let n := nat_of_ascii c in
  if n <? 128 then negb (ascii_word n || ascii_space n || (n =? 45))
  else negb (unicode_word_or_space c).

(** [bool(re.search(r'[^\w\s\-]', str(text)))] *)
Definition contains_special_characters (text : cell) : bool :=
  existsb special_character (list_ascii_of_string (astype_str text)).

Definition find_titles_with_special_chars (df : DataFrame) (column : string)
  : result (list cell) :=
  if negb (has_column column df) then Ok []
  else
    col <- getitem df column ;;
    Ok (filter contains_special_characters (unique (dropna col))).

(** The titles reported before the summaries: those of the product file,
    then those of the inventory file. *)
Definition special_titles (product_df inventory_df : DataFrame)
  : result (list cell) :=
  from_product <- find_titles_with_special_chars product_df "Title" ;;
  from_inventory <- find_titles_with_special_chars inventory_df "Title" ;;
  Ok (from_product ++ from_inventory).

End SpecialCharacters.

(** ** Reading the uploaded files *)

Record UploadedFile : Type := mkUploadedFile {
  name : string;
  content : string
}.

Definition encodings : list string :=
  ["utf-8-sig"; "ISO-8859-1"; "windows-1252"].

(** What the file upload section ends with: the three tables, the error
    shown when a file cannot be read, or the request to upload files. *)
Inductive upload_outcome : Type :=
| Loaded (product_df inventory_df selected_df : DataFrame)
| ReadError (message : string)
| Waiting (message : string).

(** The tables of a list of reads, when none of them is [None]. *)
Fixpoint all_read (reads : list (option DataFrame)) : option (list DataFrame) :=
  match reads with
  | [] => Some []
  | Some df :: reads' => option_map (cons df) (all_read reads')
  | None :: _ => None
  end.

(** [pd.concat(dfs, ignore_index=True) if len(dfs) > 1 else dfs[0]] for the
    list [first :: others]. *)
Definition merge_tables (first : DataFrame) (others : list DataFrame)
  : result DataFrame :=
  match others with
  | [] => Ok first
  | _ :: _ => concat (first :: others)
  end.

Section Loader.

(** [pd.read_csv(BytesIO(content), encoding=enc)]: the table, or [None]
    when the call raises. *)
Variable read_csv : string -> string -> option DataFrame.

(** The loop over the encodings: the first successful read is returned. *)
Fixpoint first_read (file_content : string) (encs : list string)
  : option DataFrame :=
  match encs with
  | [] => None
  | enc :: encs' =>
      match read_csv file_content enc with
      | Some df => Some df
      | None => first_read file_content encs'
      end
  end.

(** The table or [None], with the warnings shown. *)
Definition read_csv_with_fallback (uploaded_file : UploadedFile)
  : option DataFrame * list string :=
  match first_read (content uploaded_file) encodings with
  | Some df => (Some df, [])
  | None =>
      (None,
       [("Could not read " ++ name uploaded_file
           ++ " with common encodings.")%string])
  end.

(** The file upload section up to the merged tables. *)
Definition load_tables (product_files inventory_files : list UploadedFile)
           (selected_file : option UploadedFile) : result upload_outcome :=
  match product_files, inventory_files, selected_file with
  | _ :: _, _ :: _, Some selected =>
      let product_dfs :=
        map (fun f => fst (read_csv_with_fallback f)) product_files in
      let inventory_dfs :=
        map (fun f => fst (read_csv_with_fallback f)) inventory_files in
      let selected_df := fst (read_csv_with_fallback selected) in
      match all_read product_dfs, all_read inventory_dfs, selected_df with
      | Some (p :: ps), Some (i :: others), Some selected_df =>
          product_df <- merge_tables p ps ;;
          inventory_df <- merge_tables i others ;;
          Ok (Loaded product_df inventory_df selected_df)
      | _, _, _ => Ok (ReadError "Error reading files. Please check formatting.")
      end
  | _, _, _ => Ok (Waiting "Please upload all required files to begin.")
  end.

End Loader.

(** A reader that fails under utf-8-sig and on empty files, and two
    uploaded files. *)
Definition sample_reader (file_content enc : string) : option DataFrame :=
  if String.eqb enc "utf-8-sig" then None
  else if String.eqb file_content "" then None
  else Some titles_only.

Definition titles_file : UploadedFile :=
  {| name := "titles.csv"; content := "Title,Red Shirt" |}.

Definition empty_file : UploadedFile :=
  {| name := "empty.csv"; content := "" |}.

(** ** Calls with any selected value and any threshold *)

(** A value of the list of selected titles: a text, or a number when the
    Title column of the selected products file holds numbers. *)
Inductive title_value : Type :=
| Text (s : string)
| Number (z : Z).

(** [tolist()] on the selected titles: [dropna] has left no missing
    value. *)
Definition title_values (values : list cell) : list title_value :=
  flat_map (fun c => match c with
                     | Str s => [Text s]
                     | Num z => [Number z]
                     | NaN => []
                     end) values.

(** rapidfuzz accepts a cutoff of [fuzz.ratio] from 0 to 100. *)
Definition cutoff_in_range (score_cutoff : Q) : bool :=
  Qle_bool 0 score_cutoff && Qle_bool score_cutoff 100.

(** [process.extract] as it is called: a query that is not text and a
    cutoff out of range raise [TypeError] before anything is scored. *)
Definition extract_call (scorer : string -> string -> Q) (query : title_value)
           (choices : list string) (score_cutoff : Q) (limit : nat)
  : result (list process.hit) :=
  match query with
  | Number _ => Raise TypeError
  | Text s =>
      if cutoff_in_range score_cutoff
      then Ok (process.extract scorer s choices score_cutoff limit)
      else Raise TypeError
  end.

(** The body of the loop of [fuzzy_match_titles] for any selected value and
    any threshold: the call of [process.extract] is its first statement,
    and the rest of the body runs on the hits of a call that returned. *)
Definition fuzzy_match_title_call (inventory_df : DataFrame)
           (inventory_titles : list string) (threshold : Z)
           (st : match_state) (title : title_value) : result match_state :=
  _ <- extract_call fuzz.ratio title inventory_titles (inject_Z threshold)
                    process.default_limit ;;
  match title with
  | Text s => fuzzy_match_title inventory_df inventory_titles threshold st s
  | Number _ => Raise TypeError
  end.

Definition fuzzy_match_titles_call (selected_titles : list title_value)
           (inventory_df : DataFrame) (threshold : Z) : result match_state :=
  title_col <- getitem inventory_df "Title" ;;
  let inventory_titles := map astype_str title_col in
  for_each (fuzzy_match_title_call inventory_df inventory_titles threshold)
           selected_titles ([], [], []).

(** The selected values that are texts. *)
Definition texts_of (selected_titles : list title_value) : list string :=
  flat_map (fun v => match v with
                     | Text s => [s]
                     | Number _ => []
                     end) selected_titles.

Definition is_number (v : title_value) : bool :=
  match v with
  | Number _ => true
  | Text _ => false
  end.

(** Step 2 from the selected products file: the selected titles are read
    from the file, matched with the default threshold, the conflicts are
    resolved and the filtered inventory is built. *)
Definition filtered_inventory_from_file
           (pick : string -> list string -> nat)
           (selected_df inventory_df : DataFrame) : result DataFrame :=
  values <- selected_titles_of selected_df ;;
  '(matched, unmatched, conflicts) <-
     fuzzy_match_titles_call (title_values values) inventory_df
                             default_threshold ;;
  conflict_rows <- resolve_conflicts pick conflicts inventory_df ;;
  build_filtered_inventory matched conflict_rows.

(** ** The lists and the dict of a run as objects *)

(** [fuzzy_match_titles] creates two lists and a dict, changes them in the
    loop and returns them.  Here they are objects of a heap, addressed by
    their position; a run starts from the heap that earlier runs left. *)
Inductive object : Type :=
| FrameList (frames : list DataFrame)
| TitleList (titles : list string)
| ChoiceDict (choices : dict).

Definition heap : Type := list object.

(** A new object, after the objects there are. *)
Definition alloc (o : object) (h : heap) : nat * heap :=
  (List.length h, h ++ [o]).

Fixpoint store (address : nat) (o : object) (h : heap) : heap :=
  match h, address with
  | [], _ => []
  | _ :: h', 0 => o :: h'
  | x :: h', S address' => x :: store address' o h'
  end.

(** [frames.append(df)], [titles.append(title)] and [d[key] = value] on the
    object at an address. *)
Definition append_frame (address : nat) (df : DataFrame) (h : heap) : heap :=
  match nth_error h address with
  | Some (FrameList frames) => store address (FrameList (frames ++ [df])) h
  | _ => h
  end.

Definition append_title (address : nat) (title : string) (h : heap) : heap :=
  match nth_error h address with
  | Some (TitleList titles) => store address (TitleList (titles ++ [title])) h
  | _ => h
  end.

Definition set_item (address : nat) (key : string) (value : list string)
           (h : heap) : heap :=
  match nth_error h address with
  | Some (ChoiceDict d) => store address (ChoiceDict (dict_set key value d)) h
  | _ => h
  end.

(** The three objects a run returns. *)
Definition references : Type := (nat * nat * nat)%type.

(** The loop body on the heap. *)
Definition fuzzy_match_title_in (inventory_df : DataFrame)
           (inventory_titles : list string) (threshold : Z)
           (refs : references) (h : heap) (title : title_value)
  : result heap :=
  let '(matched_rows, unmatched_titles, conflict_choices) := refs in
  matches <- extract_call fuzz.ratio title inventory_titles
                          (inject_Z threshold) process.default_limit ;;
  match title with
  | Number _ => Raise TypeError
  | Text s =>
      match matches with
      | [] => Ok (append_title unmatched_titles s h)
      | [m] =>
          let match_title := process.choice m in
          title_col <- getitem inventory_df "Title" ;;
          let match_rows :=
            getitem_mask inventory_df (series_eq title_col match_title) in
          Ok (append_frame matched_rows match_rows h)
      | _ :: _ :: _ =>
          Ok (set_item conflict_choices s (map process.choice matches) h)
      end
  end.

(** A run of [fuzzy_match_titles] from a heap: the references it returns
    and the heap it leaves. *)
Definition fuzzy_match_titles_in (selected_titles : list title_value)
           (inventory_df : DataFrame) (threshold : Z) (h : heap)
  : result (references * heap) :=
  let '(matched_rows, h) := alloc (FrameList []) h in
  let '(unmatched_titles, h) := alloc (TitleList []) h in
  let '(conflict_choices, h) := alloc (ChoiceDict []) h in
  title_col <- getitem inventory_df "Title" ;;
  let inventory_titles := map astype_str title_col in
  h <- for_each (fuzzy_match_title_in inventory_df inventory_titles threshold
                   (matched_rows, unmatched_titles, conflict_choices))
                selected_titles h ;;
  Ok ((matched_rows, unmatched_titles, conflict_choices), h).

(** The values of the three objects of a run, read from a heap. *)
Definition outputs (h : heap) (refs : references) : option match_state :=
  let '(matched_rows, unmatched_titles, conflict_choices) := refs in
  match nth_error h matched_rows, nth_error h unmatched_titles,
        nth_error h conflict_choices with
  | Some (FrameList m), Some (TitleList u), Some (ChoiceDict c) =>
      Some (m, u, c)
  | _, _, _ => None
  end.

(** A heap whose last three objects are the lists and the dict of a run
    with the given values. *)
Definition with_outputs (h : heap) (st : match_state) : heap :=
  let '(matched_rows, unmatched_titles, conflict_choices) := st in
  h ++ [FrameList matched_rows; TitleList unmatched_titles;
        ChoiceDict conflict_choices].

(** A selected products file whose titles are numbers. *)
Definition numbered_selection : DataFrame :=
  {| columns := ["Title"]; rows := [[Num 12]; [Num 470]] |}.

(** ** The error monad and loops *)

Lemma bind_Ok_inv {A B : Type} (c : result A) (k : A -> result B) (b : B) :
  bind c k = Ok b -> exists a, c = Ok a /\ k a = Ok b.
Proof.
  destruct c as [a | e]; simpl; intros H.
  - exists a. split; [reflexivity | exact H].
  - discriminate H.
Qed.

Lemma for_each_invariant {A S : Type} (P : S -> Prop)
      (body : S -> A -> result S) :
  (forall s x s', P s -> body s x = Ok s' -> P s') ->
  forall xs s s', P s -> for_each body xs s = Ok s' -> P s'.
Proof.
  intros Hbody xs.
  induction xs as [| x xs IH]; simpl; intros s s' Hs Hrun.
  - injection Hrun as <-. exact Hs.
  - apply bind_Ok_inv in Hrun as (s1 & H1 & H2).
    eapply IH; [| exact H2].
    eapply Hbody; eassumption.
Qed.

Lemma for_each_total {A S : Type} (body : S -> A -> result S) :
  (forall s x, exists s', body s x = Ok s') ->
  forall xs s, exists s', for_each body xs s = Ok s'.
Proof.
  intros Hbody xs.
  induction xs as [| x xs IH]; simpl; intros s.
  - exists s. reflexivity.
  - destruct (Hbody s x) as (s1 & ->). simpl. apply IH.
Qed.

Lemma for_each_app {A S : Type} (body : S -> A -> result S) xs ys s :
  for_each body (xs ++ ys) s = (s' <- for_each body xs s ;; for_each body ys s').
Proof.
  revert s.
  induction xs as [| x xs IH]; simpl; intros s.
  - reflexivity.
  - destruct (body s x) as [s1 | e]; simpl; [apply IH | reflexivity].
Qed.

(** ** Cells, masks and duplicates *)

Lemma cell_eqb_eq (a b : cell) : cell_eqb a b = true <-> a = b.
Proof.
  destruct a, b; simpl; split; intros H;
    try reflexivity; try discriminate H.
  - apply String.eqb_eq in H. now subst.
  - injection H as ->. apply String.eqb_refl.
  - apply Z.eqb_eq in H. now subst.
  - injection H as ->. apply Z.eqb_refl.
Qed.

Lemma row_eqb_eq (r1 r2 : row) : row_eqb r1 r2 = true <-> r1 = r2.
Proof.
  revert r2.
  induction r1 as [| a r1 IH]; intros [| b r2]; simpl; split; intros H;
    try reflexivity; try discriminate H.
  - apply andb_true_iff in H as [Hab Hr].
    apply cell_eqb_eq in Hab. apply IH in Hr. now subst.
  - injection H as -> ->.
    apply andb_true_iff. split; [now apply cell_eqb_eq | now apply IH].
Qed.

Lemma seen_In (r : row) (seen : list row) :
  existsb (row_eqb r) seen = true <-> In r seen.
Proof.
  rewrite existsb_exists. split.
  - intros (x & Hx & Heq). apply row_eqb_eq in Heq. now subst.
  - intros H. exists r. split; [exact H | now apply row_eqb_eq].
Qed.

Lemma seen_ext (r : row) (l1 l2 : list row) :
  (forall x, In x l1 <-> In x l2) ->
  existsb (row_eqb r) l1 = existsb (row_eqb r) l2.
Proof.
  intros H. apply eq_true_iff_eq. rewrite !seen_In. apply H.
Qed.

Lemma take_mask_map {A : Type} (p : A -> bool) (xs : list A) :
  take_mask xs (map p xs) = filter p xs.
Proof.
  induction xs as [| x xs IH]; simpl.
  - reflexivity.
  - rewrite IH. reflexivity.
Qed.

Lemma take_mask_In {A : Type} (x : A) (xs : list A) (mask : list bool) :
  In x (take_mask xs mask) -> In x xs.
Proof.
  revert mask.
  induction xs as [| y xs IH]; intros [| b mask]; simpl; try tauto.
  destruct b; simpl; intros H.
  - destruct H as [H | H]; [now left | right; eapply IH; exact H].
  - right. eapply IH; exact H.
Qed.

Lemma take_mask_dedup (seen rs : list row) :
  take_mask rs (map negb (duplicated_from seen rs)) = dedup_from seen rs.
Proof.
  revert seen.
  induction rs as [| r rs IH]; simpl; intros seen.
  - reflexivity.
  - destruct (existsb (row_eqb r) seen); simpl; rewrite IH; reflexivity.
Qed.

Lemma drop_duplicates_rows (df : DataFrame) :
  rows (drop_duplicates df) = dedup_from [] (rows df).
Proof.
  unfold drop_duplicates, duplicated. simpl. apply take_mask_dedup.
Qed.

Lemma drop_duplicates_columns (df : DataFrame) :
  columns (drop_duplicates df) = columns df.
Proof. reflexivity. Qed.

Lemma dedup_from_In (r : row) (seen rs : list row) :
  In r (dedup_from seen rs) <-> In r rs /\ ~ In r seen.
Proof.
  revert seen.
  induction rs as [| x rs IH]; simpl; intros seen.
  - tauto.
  - assert (Hdec : x = r \/ x <> r).
    { destruct (row_eqb x r) eqn:E.
      - left. now apply row_eqb_eq.
      - right. intros H. apply row_eqb_eq in H. congruence. }
    destruct (existsb (row_eqb x) seen) eqn:E.
    + apply seen_In in E. rewrite IH. simpl. split.
      * intros [H1 H2]. tauto.
      * intros [[-> | H1] H2]; [contradiction |].
        split; [exact H1 |]. intros [-> | H]; tauto.
    + simpl. rewrite IH. simpl. split.
      * intros [-> | [H1 H2]].
        -- split; [now left |]. intros H. apply seen_In in H. congruence.
        -- tauto.
      * intros [[-> | H1] H2]; [now left |].
        destruct Hdec as [-> | Hne]; [now left |].
        right. split; [exact H1 |]. intros [Heq | Hin]; tauto.
Qed.

Lemma dedup_from_NoDup (seen rs : list row) : NoDup (dedup_from seen rs).
Proof.
  revert seen.
  induction rs as [| x rs IH]; simpl; intros seen.
  - constructor.
  - destruct (existsb (row_eqb x) seen); [apply IH |].
    constructor; [| apply IH].
    rewrite dedup_from_In. simpl. tauto.
Qed.

Lemma dedup_from_snoc (seen rs : list row) (r : row) :
  dedup_from seen (rs ++ [r]) =
  dedup_from seen rs ++ (if existsb (row_eqb r) (seen ++ rs) then [] else [r]).
Proof.
  revert seen.
  induction rs as [| x rs IH]; simpl; intros seen.
  - rewrite app_nil_r. destruct (existsb (row_eqb r) seen); reflexivity.
  - assert (Hext : existsb (row_eqb r) ((x :: seen) ++ rs) =
                   existsb (row_eqb r) (seen ++ x :: rs)).
    { apply seen_ext. intros y. simpl. rewrite !in_app_iff. simpl. tauto. }
    rewrite IH, Hext.
    destruct (existsb (row_eqb x) seen); reflexivity.
Qed.

(** ** Column access *)

Lemma get_loc_Some (label : string) (cols : list string) :
  existsb (String.eqb label) cols = true ->
  exists i, get_loc label cols = Some i.
Proof.
  induction cols as [| c cols IH]; simpl; intros H.
  - discriminate H.
  - destruct (String.eqb label c).
    + exists 0. reflexivity.
    + destruct (IH H) as (i & ->). exists (S i). reflexivity.
Qed.

Lemma get_loc_None (label : string) (cols : list string) :
  existsb (String.eqb label) cols = false -> get_loc label cols = None.
Proof.
  induction cols as [| c cols IH]; simpl; intros H.
  - reflexivity.
  - destruct (String.eqb label c); [discriminate H |].
    rewrite (IH H). reflexivity.
Qed.

Lemma get_loc_In (label : string) (cols : list string) (i : nat) :
  get_loc label cols = Some i -> In label cols.
Proof.
  revert i.
  induction cols as [| c cols IH]; simpl; intros i H.
  - discriminate H.
  - destruct (String.eqb label c) eqn:E.
    + left. symmetry. now apply String.eqb_eq.
    + destruct (get_loc label cols) as [j |]; [| discriminate H].
      right. now apply (IH j).
Qed.

Lemma getitem_present (df : DataFrame) (label : string) :
  has_column label df = true ->
  exists i, get_loc label (columns df) = Some i /\
            getitem df label = Ok (map (fun r => nth i r NaN) (rows df)).
Proof.
  intros H. apply get_loc_Some in H as (i & Hi).
  exists i. split; [exact Hi |].
  unfold getitem. rewrite Hi. reflexivity.
Qed.

Lemma getitem_absent (df : DataFrame) (label : string) :
  has_column label df = false -> getitem df label = Raise (KeyError label).
Proof.
  intros H. apply get_loc_None in H.
  unfold getitem. rewrite H. reflexivity.
Qed.

Lemma getitem_mask_titled (df : DataFrame) (i : nat) (s : string) :
  getitem_mask df (series_eq (map (fun r => nth i r NaN) (rows df)) s) =
  rows_titled i df s.
Proof.
  unfold getitem_mask, series_eq, rows_titled. f_equal.
  rewrite map_map. apply take_mask_map.
Qed.

Lemma rows_titled_selection (i : nat) (df : DataFrame) (s : string) :
  selection_of df (rows_titled i df s).
Proof.
  split; [reflexivity |].
  intros r Hr. simpl in Hr. apply filter_In in Hr. tauto.
Qed.

(** ** Concatenation *)

Lemma add_columns_known (acc new : list string) :
  incl new acc -> add_columns acc new = acc.
Proof.
  unfold add_columns.
  induction new as [| c new IH]; simpl; intros H.
  - reflexivity.
  - assert (Hc : existsb (String.eqb c) acc = true).
    { apply existsb_exists. exists c. split.
      - apply H. now left.
      - apply String.eqb_refl. }
    rewrite Hc. apply IH. intros x Hx. apply H. now right.
Qed.

Lemma add_columns_fresh (acc new : list string) :
  NoDup (acc ++ new) -> add_columns acc new = acc ++ new.
Proof.
  unfold add_columns. revert acc.
  induction new as [| c new IH]; simpl; intros acc H.
  - now rewrite app_nil_r.
  - assert (Hc : existsb (String.eqb c) acc = false).
    { apply not_true_is_false. intros E.
      apply existsb_exists in E as (x & Hx & Heq).
      apply String.eqb_eq in Heq. subst x.
      apply NoDup_remove_2 in H. apply H. apply in_or_app. now left. }
    rewrite Hc.
    replace (acc ++ c :: new) with ((acc ++ [c]) ++ new)
      by (rewrite <- app_assoc; reflexivity).
    apply IH. rewrite <- app_assoc. exact H.
Qed.

Lemma union_columns_from (cols : list string) (dfs : list DataFrame) :
  Forall (fun df => columns df = cols) dfs ->
  fold_left (fun acc df => add_columns acc (columns df)) dfs cols = cols.
Proof.
  induction dfs as [| df dfs IH]; simpl; intros H.
  - reflexivity.
  - inversion H as [| ? ? Hdf Hdfs]; subst.
    rewrite add_columns_known by apply incl_refl.
    now apply IH.
Qed.

Lemma union_columns_same (cols : list string) (dfs : list DataFrame) :
  NoDup cols -> dfs <> [] ->
  Forall (fun df => columns df = cols) dfs ->
  union_columns dfs = cols.
Proof.
  intros Hnd Hne H. unfold union_columns.
  destruct dfs as [| df dfs]; [congruence |].
  simpl. inversion H as [| ? ? Hdf Hdfs]; subst.
  rewrite (add_columns_fresh [] (columns df)) by exact Hnd.
  simpl. now apply union_columns_from.
Qed.

Lemma reindex_row_same (cols : list string) (r : row) :
  NoDup cols -> List.length r = List.length cols -> reindex_row cols cols r = r.
Proof.
  unfold reindex_row. revert r.
  induction cols as [| c cols IH]; intros [| a r] Hnd Hlen;
    simpl in *; try discriminate Hlen; try reflexivity.
  rewrite String.eqb_refl. f_equal.
  inversion Hnd as [| ? ? Hc Hnd']; subst.
  transitivity
    (map (fun x => match get_loc x cols with
                   | Some i => nth i r NaN
                   | None => NaN
                   end) cols); [| apply IH; [exact Hnd' | lia]].
  apply map_ext_in. intros x Hx.
  destruct (String.eqb x c) eqn:E.
  - apply String.eqb_eq in E. subst x. contradiction.
  - destruct (get_loc x cols); reflexivity.
Qed.

Lemma reindex_same (df : DataFrame) :
  well_formed df -> reindex (columns df) df = rows df.
Proof.
  intros [Hnd Hlen]. unfold reindex.
  rewrite <- (map_id (rows df)) at 2.
  apply map_ext_in. intros r Hr.
  apply reindex_row_same; [exact Hnd |].
  rewrite Forall_forall in Hlen. now apply Hlen.
Qed.

Lemma concat_same_columns (cols : list string) (dfs : list DataFrame) :
  dfs <> [] ->
  Forall (fun df => columns df = cols /\ well_formed df) dfs ->
  concat dfs = Ok {| columns := cols; rows := flat_map rows dfs |}.
Proof.
  intros Hne H.
  assert (Hcols : union_columns dfs = cols).
  { destruct dfs as [| df dfs]; [congruence |].
    apply union_columns_same.
    - inversion H as [| ? ? [Hc [Hnd _]] _]; subst. exact Hnd.
    - discriminate.
    - eapply Forall_impl; [| exact H]. simpl. tauto. }
  unfold concat. destruct dfs as [| df dfs]; [congruence |].
  rewrite Hcols. do 2 f_equal.
  clear Hne Hcols.
  induction H as [| d ds [Hc Hwf] _ IH]; [reflexivity |].
  cbn [flat_map]. rewrite IH. f_equal.
  rewrite <- Hc. now apply reindex_same.
Qed.

Lemma concat_nonempty (dfs : list DataFrame) :
  dfs <> [] -> exists df, concat dfs = Ok df.
Proof.
  destruct dfs as [| d ds]; [congruence |].
  intros _. eexists. reflexivity.
Qed.

(** ** [process.extract] *)

Section ExtractFacts.

Variable scorer : string -> string -> Q.

Import process.

Lemma scored_from_choices (i : nat) (q : string) (cs : list string) :
  map choice (scored_from scorer i q cs) = cs.
Proof.
  revert i.
  induction cs as [| c cs IH]; simpl; intros i.
  - reflexivity.
  - rewrite IH. reflexivity.
Qed.

Lemma scored_from_In (i : nat) (q : string) (cs : list string) (m : hit) :
  In m (scored_from scorer i q cs) ->
  score m = scorer q (choice m) /\
  i <= index m /\ nth_error cs (index m - i) = Some (choice m).
Proof.
  revert i.
  induction cs as [| c cs IH]; simpl; intros i H.
  - contradiction.
  - destruct H as [<- | H].
    + unfold score, index, choice. simpl.
      rewrite Nat.sub_diag. auto.
    + apply IH in H as (Hs & Hi & Hn).
      split; [exact Hs |]. split; [lia |].
      replace (index m - i) with (S (index m - S i)) by lia.
      exact Hn.
Qed.

Lemma scored_from_ordered (i : nat) (q : string) (cs : list string) :
  StronglySorted (fun a b => index a < index b) (scored_from scorer i q cs).
Proof.
  revert i.
  induction cs as [| c cs IH]; simpl; intros i.
  - constructor.
  - constructor; [apply IH |].
    apply Forall_forall. intros m Hm.
    apply scored_from_In in Hm as (_ & Hi & _).
    unfold index at 1. simpl. lia.
Qed.

Lemma StronglySorted_filter {A : Type} (R : A -> A -> Prop) (p : A -> bool)
      (l : list A) :
  StronglySorted R l -> StronglySorted R (filter p l).
Proof.
  induction 1 as [| a l Hl IH Ha]; simpl.
  - constructor.
  - destruct (p a); [| exact IH].
    constructor; [exact IH |].
    rewrite Forall_forall in *. intros x Hx.
    apply filter_In in Hx as [Hx _]. now apply Ha.
Qed.

Lemma extract_iter_choices (q : string) (cs : list string) (cut : Q) :
  map choice (extract_iter scorer q cs cut) =
  filter (fun c => Qle_bool cut (scorer q c)) cs.
Proof.
  unfold extract_iter. generalize 0.
  induction cs as [| c cs IH]; simpl; intros i.
  - reflexivity.
  - unfold score at 1. simpl.
    destruct (Qle_bool cut (scorer q c)); simpl; rewrite IH; reflexivity.
Qed.

Lemma extract_iter_In (q : string) (cs : list string) (cut : Q) (m : hit) :
  In m (extract_iter scorer q cs cut) ->
  score m = scorer q (choice m) /\ (cut <= score m)%Q /\
  nth_error cs (index m) = Some (choice m).
Proof.
  unfold extract_iter. intros H.
  apply filter_In in H as [H Hcut].
  apply scored_from_In in H as (Hs & _ & Hn).
  rewrite Nat.sub_0_r in Hn.
  apply Qle_bool_iff in Hcut. auto.
Qed.

Lemma extract_iter_ordered (q : string) (cs : list string) (cut : Q) :
  StronglySorted (fun a b => index a < index b)
                 (extract_iter scorer q cs cut).
Proof. apply StronglySorted_filter, scored_from_ordered. Qed.

Lemma insert_perm (m : hit) (s : list hit) : Permutation (m :: s) (insert m s).
Proof.
  induction s as [| h s IH]; simpl.
  - apply Permutation_refl.
  - destruct (Qle_bool (score h) (score m)).
    + apply Permutation_refl.
    + eapply perm_trans; [apply perm_swap |].
      now apply perm_skip.
Qed.

Lemma sort_perm (ms : list hit) : Permutation ms (sort ms).
Proof.
  induction ms as [| m ms IH]; simpl.
  - constructor.
  - eapply perm_trans; [| apply insert_perm].
    now apply perm_skip.
Qed.

Lemma insert_ranked (m : hit) (s : list hit) :
  StronglySorted ranks_before s ->
  Forall (fun h => index m < index h) s ->
  StronglySorted ranks_before (insert m s).
Proof.
  induction 1 as [| h s Hs IH Hh]; simpl; intros Hidx.
  - repeat constructor.
  - inversion Hidx as [| ? ? Hmh Hms]; subst.
    destruct (Qle_bool (score h) (score m)) eqn:E.
    + apply Qle_bool_iff in E.
      constructor; [now constructor |].
      assert (Hfront : forall z, (score z <= score m)%Q ->
                                 index m < index z -> ranks_before m z).
      { intros z Hz Hi. unfold ranks_before.
        destruct (Qle_lt_or_eq _ _ Hz) as [Hlt | Heq].
        - now left.
        - right. split; [now symmetry | exact Hi]. }
      constructor.
      * now apply Hfront.
      * rewrite Forall_forall in *. intros z Hz.
        apply Hfront; [| now apply Hms].
        destruct (Hh z Hz) as [Hlt | [Heq _]]; lra.
    + assert (Hlt : (score m < score h)%Q).
      { apply Qnot_le_lt. intros Hle.
        apply Qle_bool_iff in Hle. congruence. }
      constructor; [now apply IH |].
      rewrite Forall_forall in *. intros z Hz.
      apply (Permutation_in _ (Permutation_sym (insert_perm m s))) in Hz.
      destruct Hz as [<- | Hz].
      * now left.
      * now apply Hh.
Qed.

Lemma sort_ranked (ms : list hit) :
  StronglySorted (fun a b => index a < index b) ms ->
  StronglySorted ranks_before (sort ms).
Proof.
  induction 1 as [| m ms Hms IH Hm]; simpl.
  - constructor.
  - apply insert_ranked; [exact IH |].
    rewrite Forall_forall in *. intros h Hh.
    apply Hm. eapply Permutation_in; [| exact Hh].
    apply Permutation_sym, sort_perm.
Qed.

Lemma StronglySorted_app_inv {A : Type} (R : A -> A -> Prop) (l1 l2 : list A) :
  StronglySorted R (l1 ++ l2) ->
  forall a b, In a l1 -> In b l2 -> R a b.
Proof.
  induction l1 as [| x l1 IH]; simpl; intros H a b Ha Hb.
  - contradiction.
  - inversion H as [| ? ? Hs Hx]; subst.
    destruct Ha as [<- | Ha].
    + rewrite Forall_forall in Hx. apply Hx. apply in_or_app. now right.
    + now apply IH.
Qed.

Lemma firstn_In_full {A : Type} (x : A) (n : nat) (l : list A) :
  In x (firstn n l) -> In x l.
Proof.
  intros H. rewrite <- (firstn_skipn n l). apply in_or_app. now left.
Qed.

Lemma StronglySorted_firstn {A : Type} (R : A -> A -> Prop) (n : nat)
      (l : list A) :
  StronglySorted R l -> StronglySorted R (firstn n l).
Proof.
  revert l.
  induction n as [| n IH]; intros l H; simpl.
  - constructor.
  - destruct H as [| a l Hl Ha]; [constructor |].
    constructor; [now apply IH |].
    rewrite Forall_forall in *. intros x Hx.
    apply Ha. eapply firstn_In_full. exact Hx.
Qed.

(** The hits of [extract] are the best hits of [extract_iter], in rank
    order; every hit left out ranks after every hit returned. *)
Lemma extract_ranked (q : string) (cs : list string) (cut : Q) (limit : nat) :
  StronglySorted ranks_before (extract scorer q cs cut limit).
Proof.
  apply StronglySorted_firstn, sort_ranked, extract_iter_ordered.
Qed.

Lemma extract_In (q : string) (cs : list string) (cut : Q) (limit : nat)
      (m : hit) :
  In m (extract scorer q cs cut limit) -> In m (extract_iter scorer q cs cut).
Proof.
  unfold extract. intros H. apply firstn_In_full in H.
  eapply Permutation_in; [| exact H].
  apply Permutation_sym, sort_perm.
Qed.

Lemma extract_length (q : string) (cs : list string) (cut : Q) (limit : nat) :
  List.length (extract scorer q cs cut limit) =
  Nat.min limit (List.length (extract_iter scorer q cs cut)).
Proof.
  unfold extract. rewrite length_firstn.
  now rewrite <- (Permutation_length (sort_perm _)).
Qed.

Lemma extract_all (q : string) (cs : list string) (cut : Q) (limit : nat) :
  List.length (extract_iter scorer q cs cut) <= limit ->
  Permutation (extract_iter scorer q cs cut) (extract scorer q cs cut limit).
Proof.
  intros H. unfold extract.
  rewrite firstn_all2; [apply sort_perm |].
  now rewrite <- (Permutation_length (sort_perm _)).
Qed.

Lemma extract_left_out (q : string) (cs : list string) (cut : Q) (limit : nat)
      (m h : hit) :
  In m (extract_iter scorer q cs cut) ->
  ~ In m (extract scorer q cs cut limit) ->
  In h (extract scorer q cs cut limit) ->
  ranks_before h m.
Proof.
  unfold extract. intros Hm Hout Hh.
  set (s := sort (extract_iter scorer q cs cut)) in *.
  assert (Hs : StronglySorted ranks_before (firstn limit s ++ skipn limit s)).
  { rewrite firstn_skipn. apply sort_ranked, extract_iter_ordered. }
  apply (StronglySorted_app_inv _ _ _ Hs); [exact Hh |].
  assert (Hin : In m (firstn limit s ++ skipn limit s)).
  { rewrite firstn_skipn. eapply Permutation_in; [apply sort_perm | exact Hm]. }
  apply in_app_or in Hin. tauto.
Qed.

End ExtractFacts.

(** ** The loop of [fuzzy_match_titles] *)

Lemma scoring_hits (threshold : Z) (title : string) (titles : list string) :
  map process.choice
      (process.extract_iter fuzz.ratio title titles (inject_Z threshold)) =
  scoring threshold title titles.
Proof. apply extract_iter_choices. Qed.

Lemma scoring_hits_length (threshold : Z) (title : string)
      (titles : list string) :
  List.length (process.extract_iter fuzz.ratio title titles (inject_Z threshold))
  = List.length (scoring threshold title titles).
Proof. rewrite <- scoring_hits. now rewrite length_map. Qed.

Lemma matches_of_length (threshold : Z) (title : string) (titles : list string) :
  List.length (matches_of threshold title titles) =
  Nat.min 5 (List.length (scoring threshold title titles)).
Proof.
  unfold matches_of. rewrite extract_length, scoring_hits_length. reflexivity.
Qed.

Lemma matches_of_all (threshold : Z) (title : string) (titles : list string) :
  List.length (scoring threshold title titles) <= 5 ->
  Permutation (scoring threshold title titles)
              (map process.choice (matches_of threshold title titles)).
Proof.
  intros H. rewrite <- scoring_hits. apply Permutation_map.
  apply extract_all. now rewrite scoring_hits_length.
Qed.

Lemma dict_get_set (key : string) (value : list string) (d : dict) :
  dict_get key (dict_set key value d) = Some value.
Proof.
  induction d as [| [k v] d IH]; simpl.
  - now rewrite String.eqb_refl.
  - destruct (String.eqb key k) eqn:E; simpl; rewrite E; [reflexivity | exact IH].
Qed.

Lemma dict_get_set_other (key other : string) (value : list string) (d : dict) :
  other <> key -> dict_get other (dict_set key value d) = dict_get other d.
Proof.
  intros Hne.
  induction d as [| [k v] d IH]; simpl.
  - destruct (String.eqb other key) eqn:E; [| reflexivity].
    apply String.eqb_eq in E. contradiction.
  - destruct (String.eqb key k) eqn:E; simpl.
    + apply String.eqb_eq in E. subst k.
      destruct (String.eqb other key) eqn:E'; [| reflexivity].
      apply String.eqb_eq in E'. contradiction.
    + destruct (String.eqb other k); [reflexivity | exact IH].
Qed.

(** The three branches of the loop body, by the number of hits. *)
Lemma fuzzy_match_title_unmatched inventory_df titles threshold
      matched unmatched conflicts title :
  matches_of threshold title titles = [] ->
  fuzzy_match_title inventory_df titles threshold (matched, unmatched, conflicts) title
  = Ok (matched, unmatched ++ [title], conflicts).
Proof.
  unfold fuzzy_match_title, matches_of. intros ->. reflexivity.
Qed.

Lemma fuzzy_match_title_unique inventory_df i titles threshold
      matched unmatched conflicts title m :
  get_loc "Title" (columns inventory_df) = Some i ->
  matches_of threshold title titles = [m] ->
  fuzzy_match_title inventory_df titles threshold (matched, unmatched, conflicts) title
  = Ok (matched ++ [rows_titled i inventory_df (process.choice m)],
        unmatched, conflicts).
Proof.
  unfold fuzzy_match_title, matches_of. intros Hi ->.
  unfold getitem. rewrite Hi. simpl.
  rewrite getitem_mask_titled. reflexivity.
Qed.

Lemma fuzzy_match_title_conflict inventory_df titles threshold
      matched unmatched conflicts title :
  2 <= List.length (matches_of threshold title titles) ->
  fuzzy_match_title inventory_df titles threshold (matched, unmatched, conflicts) title
  = Ok (matched, unmatched,
        dict_set title (map process.choice (matches_of threshold title titles))
                 conflicts).
Proof.
  unfold fuzzy_match_title, matches_of. intros H.
  destruct (process.extract fuzz.ratio title titles (inject_Z threshold)
                            process.default_limit) as [| m1 [| m2 ms]];
    simpl in H; try lia.
  reflexivity.
Qed.

Lemma fuzzy_match_title_total inventory_df titles threshold st title :
  has_column "Title" inventory_df = true ->
  exists st', fuzzy_match_title inventory_df titles threshold st title = Ok st'.
Proof.
  intros H. apply getitem_present in H as (i & Hi & _).
  destruct st as [[matched unmatched] conflicts].
  destruct (matches_of threshold title titles) as [| m1 [| m2 ms]] eqn:E.
  - eexists. now apply fuzzy_match_title_unmatched.
  - eexists. eapply fuzzy_match_title_unique; eassumption.
  - eexists. apply fuzzy_match_title_conflict. rewrite E. simpl. lia.
Qed.

(** [fuzzy_match_titles] on one more selected title. *)
Lemma fuzzy_match_titles_snoc selected title inventory_df threshold :
  fuzzy_match_titles (selected ++ [title]) inventory_df threshold =
  (st <- fuzzy_match_titles selected inventory_df threshold ;;
   title_col <- getitem inventory_df "Title" ;;
   fuzzy_match_title inventory_df (map astype_str title_col) threshold st title).
Proof.
  unfold fuzzy_match_titles.
  destruct (getitem inventory_df "Title") as [col | e]; simpl; [| reflexivity].
  rewrite for_each_app. simpl.
  destruct (for_each _ selected _) as [st | e]; simpl; [| reflexivity].
  destruct (fuzzy_match_title _ _ _ st title); reflexivity.
Qed.

Lemma fuzzy_match_titles_Ok_column selected inventory_df threshold st :
  fuzzy_match_titles selected inventory_df threshold = Ok st ->
  exists i, get_loc "Title" (columns inventory_df) = Some i.
Proof.
  unfold fuzzy_match_titles, getitem.
  destruct (get_loc "Title" (columns inventory_df)) as [i |]; simpl.
  - intros _. now exists i.
  - discriminate.
Qed.

Lemma fuzzy_match_titles_step selected title inventory_df threshold st i :
  fuzzy_match_titles selected inventory_df threshold = Ok st ->
  get_loc "Title" (columns inventory_df) = Some i ->
  fuzzy_match_titles (selected ++ [title]) inventory_df threshold =
  fuzzy_match_title inventory_df (inventory_titles_at i inventory_df) threshold
              st title.
Proof.
  intros Hrun Hi. rewrite fuzzy_match_titles_snoc, Hrun. simpl.
  unfold getitem. rewrite Hi. reflexivity.
Qed.

(** ** The scenarios of the specification *)

Example red_shirt_scores :
  (fuzz.ratio "Red Shirt" "Red Shirt" == 100)%Q /\
  (fuzz.ratio "Red Shirt" "Red Shirt - Small" < inject_Z 95)%Q.
Proof. split; vm_compute; reflexivity. Qed.

Example red_shirt_is_unique :
  fuzzy_match_titles ["Red Shirt"] shirt_and_small 95 =
  Ok ([{| columns := ["Handle"; "Title"];
          rows := [[Str "red-shirt"; Str "Red Shirt"]] |}], [], []).
Proof. vm_compute. reflexivity. Qed.

Example blue_hat_is_ambiguous :
  fuzzy_match_titles ["Blue Hat"] blue_hats 80 =
  Ok ([], [], [("Blue Hat", ["Blue Hat"; "Blue Hatt"])]).
Proof. vm_compute. reflexivity. Qed.

Example green_scarf_is_unmatched :
  fuzzy_match_titles ["Green Scarf"] blue_hats 95 =
  Ok ([], ["Green Scarf"], []).
Proof. vm_compute. reflexivity. Qed.

(** ** Classification of a selected title *)

Lemma distinct_scoring_bounds (threshold : Z) (title : string)
      (titles : list string) :
  List.length (distinct_scoring threshold title titles) <=
  List.length (scoring threshold title titles) /\
  (List.length (distinct_scoring threshold title titles) = 0 ->
   List.length (scoring threshold title titles) = 0).
Proof.
  unfold distinct_scoring.
  set (l := scoring threshold title titles).
  split.
  - apply NoDup_incl_length; [apply NoDup_nodup |].
    intros x Hx. now apply nodup_In in Hx.
  - intros H. destruct l as [| x l]; [reflexivity |].
    apply length_zero_iff_nil in H.
    assert (Hx : In x (nodup string_dec (x :: l))).
    { apply nodup_In. now left. }
    rewrite H in Hx. contradiction.
Qed.

(** C1 (as amended): the classification of a selected title follows the
    number of inventory rows whose title reaches the threshold, a title
    carried by several rows counting once per row.  Running the matcher on
    one more selected title changes exactly one output: with no such row
    the title is appended to the unmatched titles, with exactly one the
    rows carrying that title are appended to the matched rows, with two or
    more the title is entered in the conflict map.  Zero distinct titles
    is the first case, and two or more distinct titles are in the last. *)
Theorem classification_by_scoring_rows :
  forall (selected : list string) (inventory_df : DataFrame) (threshold : Z)
         (matched : list DataFrame) (unmatched : list string) (conflicts : dict)
         (title : string),
    fuzzy_match_titles selected inventory_df threshold =
    Ok (matched, unmatched, conflicts) ->
    exists i,
      get_loc "Title" (columns inventory_df) = Some i /\
      let titles := inventory_titles_at i inventory_df in
      let n := List.length (scoring threshold title titles) in
      let d := List.length (distinct_scoring threshold title titles) in
      let matches := matches_of threshold title titles in
      let run := fuzzy_match_titles (selected ++ [title]) inventory_df threshold in
      (n = 0 ->
       classify matches = Unmatched /\
       run = Ok (matched, unmatched ++ [title], conflicts)) /\
      (n = 1 ->
       exists c,
         scoring threshold title titles = [c] /\
         classify matches = UniqueMatch c /\
         run = Ok (matched ++ [rows_titled i inventory_df c],
                   unmatched, conflicts)) /\
      (2 <= n ->
       classify matches = Ambiguous (map process.choice matches) /\
       2 <= List.length (map process.choice matches) /\
       run = Ok (matched, unmatched,
                 dict_set title (map process.choice matches) conflicts)) /\
      (d = 0 -> n = 0) /\ (2 <= d -> 2 <= n).
Proof.
  intros selected inventory_df threshold matched unmatched conflicts title Hrun.
  destruct (fuzzy_match_titles_Ok_column _ _ _ _ Hrun) as (i & Hi).
  exists i. split; [exact Hi |]. cbv zeta.
  rewrite (fuzzy_match_titles_step _ title _ _ _ i Hrun Hi).
  set (titles := inventory_titles_at i inventory_df).
  pose proof (matches_of_length threshold title titles) as Hlen.
  pose proof (distinct_scoring_bounds threshold title titles) as [Hle Hzero].
  split; [| split; [| split; [| split]]].
  - intros Hn. rewrite Hn in Hlen. simpl in Hlen.
    apply length_zero_iff_nil in Hlen.
    split; [now rewrite Hlen | now apply fuzzy_match_title_unmatched].
  - intros Hn.
    pose proof (matches_of_all threshold title titles) as Hperm.
    rewrite Hn in Hlen, Hperm. simpl in Hlen.
    specialize (Hperm ltac:(lia)).
    destruct (scoring threshold title titles) as [| c [| c' l]] eqn:Es;
      simpl in Hn; try lia.
    exists c. split; [reflexivity |].
    destruct (matches_of threshold title titles) as [| m [| m' ms]] eqn:Em;
      simpl in Hlen; try lia.
    simpl in Hperm. apply Permutation_length_1 in Hperm. subst c.
    split; [reflexivity |].
    now apply fuzzy_match_title_unique.
  - intros Hn.
    assert (Hm : 2 <= List.length (matches_of threshold title titles)) by lia.
    split; [| split].
    + destruct (matches_of threshold title titles) as [| m [| m' ms]];
        simpl in Hm; try lia.
      reflexivity.
    + rewrite length_map. exact Hm.
    + now apply fuzzy_match_title_conflict.
  - exact Hzero.
  - lia.
Qed.

Lemma classification_by_scoring_rows_witness :
  fuzzy_match_titles ([] ++ ["Red Shirt"]) red_shirts 95 =
  Ok ([], [], [("Red Shirt", ["Red Shirt"; "Red Shirt"])]).
Proof.
  destruct (classification_by_scoring_rows
              [] red_shirts 95 [] [] [] "Red Shirt" eq_refl)
    as (i & Hi & _ & _ & Hconflict & _).
  injection Hi as <-.
  apply Hconflict. vm_compute. lia.
Defined.

(** C1 (as stated) fails: the two rows of [red_shirts] titled "Red Shirt"
    are one distinct title reaching the threshold, and the selected title
    "Red Shirt" is entered in the conflict map. *)
Lemma one_distinct_title_in_conflict :
  distinct_scoring 95 "Red Shirt" (inventory_titles_at 1 red_shirts) =
  ["Red Shirt"] /\
  fuzzy_match_titles ["Red Shirt"] red_shirts 95 =
  Ok ([], [], [("Red Shirt", ["Red Shirt"; "Red Shirt"])]) /\
  ~ classified_by_distinct_titles.
Proof.
  split; [vm_compute; reflexivity |].
  split; [vm_compute; reflexivity |].
  intros H.
  destruct (H 95%Z "Red Shirt" (inventory_titles_at 1 red_shirts))
    as (_ & Hone & _).
  destruct (Hone eq_refl) as (c & Hc).
  vm_compute in Hc. discriminate Hc.
Qed.

(** ** The candidate list of a conflict *)

(** C2 (as amended): for a selected title with two or more inventory rows
    reaching the threshold, the candidate list entered in the conflict map
    holds the five best of these rows' titles, and all of them when there
    are five or fewer; every candidate is an inventory title reaching the
    threshold; the candidates are in order of descending score, rows of
    equal score in inventory order; and a row left out ranks after every
    row kept. *)
Theorem conflict_candidates_best_five :
  forall (selected : list string) (inventory_df : DataFrame) (threshold : Z)
         (matched : list DataFrame) (unmatched : list string) (conflicts : dict)
         (title : string),
    fuzzy_match_titles selected inventory_df threshold =
    Ok (matched, unmatched, conflicts) ->
    exists i,
      get_loc "Title" (columns inventory_df) = Some i /\
      let titles := inventory_titles_at i inventory_df in
      let hits :=
        process.extract_iter fuzz.ratio title titles (inject_Z threshold) in
      let matches := matches_of threshold title titles in
      let candidates := map process.choice matches in
      2 <= List.length (scoring threshold title titles) ->
      fuzzy_match_titles (selected ++ [title]) inventory_df threshold =
      Ok (matched, unmatched, dict_set title candidates conflicts) /\
      dict_get title (dict_set title candidates conflicts) = Some candidates /\
      List.length candidates =
      Nat.min 5 (List.length (scoring threshold title titles)) /\
      (forall m, In m matches ->
                 nth_error titles (process.index m) = Some (process.choice m) /\
                 process.score m = fuzz.ratio title (process.choice m) /\
                 (inject_Z threshold <= process.score m)%Q) /\
      (List.length (scoring threshold title titles) <= 5 ->
       Permutation (scoring threshold title titles) candidates) /\
      StronglySorted ranks_before matches /\
      (forall m h, In m hits -> ~ In m matches -> In h matches ->
                   ranks_before h m).
Proof.
  intros selected inventory_df threshold matched unmatched conflicts title Hrun.
  destruct (fuzzy_match_titles_Ok_column _ _ _ _ Hrun) as (i & Hi).
  exists i. split; [exact Hi |]. cbv zeta. intros Hn.
  rewrite (fuzzy_match_titles_step _ title _ _ _ i Hrun Hi).
  set (titles := inventory_titles_at i inventory_df) in *.
  pose proof (matches_of_length threshold title titles) as Hlen.
  split; [apply fuzzy_match_title_conflict; lia |].
  split; [apply dict_get_set |].
  split; [now rewrite length_map |].
  split.
  { intros m Hm. unfold matches_of in Hm.
    apply extract_In, extract_iter_In in Hm as (Hs & Hcut & Hnth). auto. }
  split; [apply matches_of_all |].
  split; [apply extract_ranked |].
  intros m h Hm Hout Hh. eapply extract_left_out; eassumption.
Qed.

Lemma conflict_candidates_best_five_witness :
  fuzzy_match_titles ([] ++ ["Canvas Tote"]) canvas_totes 95 =
  Ok ([], [],
      [("Canvas Tote",
        map process.choice
            (matches_of 95 "Canvas Tote" (inventory_titles_at 1 canvas_totes)))]).
Proof.
  destruct (conflict_candidates_best_five
              [] canvas_totes 95 [] [] [] "Canvas Tote" eq_refl)
    as (i & Hi & Hconflict).
  injection Hi as <-.
  apply Hconflict. vm_compute. lia.
Defined.

(** C2 (as stated) fails: six rows of [canvas_totes] reach the threshold for
    the selected title "Canvas Tote", which is ambiguous, and the candidate
    list holds five of their titles; "Canvas Tote6" is left out. *)
Lemma sixth_candidate_is_left_out :
  scoring 95 "Canvas Tote" (inventory_titles_at 1 canvas_totes) =
  ["Canvas Tote1"; "Canvas Tote2"; "Canvas Tote3"; "Canvas Tote4";
   "Canvas Tote5"; "Canvas Tote6"] /\
  fuzzy_match_titles ["Canvas Tote"] canvas_totes 95 =
  Ok ([], [],
      [("Canvas Tote",
        ["Canvas Tote1"; "Canvas Tote2"; "Canvas Tote3"; "Canvas Tote4";
         "Canvas Tote5"])]) /\
  ~ conflict_lists_every_scoring_title.
Proof.
  split; [vm_compute; reflexivity |].
  split; [vm_compute; reflexivity |].
  intros H.
  specialize (H 95%Z "Canvas Tote" (inventory_titles_at 1 canvas_totes)
                ["Canvas Tote1"; "Canvas Tote2"; "Canvas Tote3";
                 "Canvas Tote4"; "Canvas Tote5"]
                ltac:(vm_compute; reflexivity) "Canvas Tote6").
  assert (Hin : In "Canvas Tote6"
                   (scoring 95 "Canvas Tote"
                            (inventory_titles_at 1 canvas_totes))).
  { vm_compute. tauto. }
  apply H in Hin. simpl in Hin.
  repeat (destruct Hin as [Hin | Hin]; [discriminate Hin |]).
  exact Hin.
Qed.

(** ** The empty selection *)

(** C9: with no selected title the matcher returns three empty outputs,
    no matched rows, no unmatched titles and an empty conflict map, on
    every inventory with a Title column and for every threshold (the loop
    is not entered).  An inventory without a Title column is outside the
    contract of the matcher: there the column access before the loop
    raises [KeyError] for "Title". *)
Theorem empty_selection_with_title_column :
  forall (inventory_df : DataFrame) (threshold : Z),
    (has_column "Title" inventory_df = true ->
     fuzzy_match_titles [] inventory_df threshold = Ok ([], [], [])) /\
    (has_column "Title" inventory_df = false ->
     fuzzy_match_titles [] inventory_df threshold = Raise (KeyError "Title")).
Proof.
  intros inventory_df threshold. split; intros H.
  - destruct (getitem_present _ _ H) as (i & _ & Hcol).
    unfold fuzzy_match_titles. rewrite Hcol. reflexivity.
  - unfold fuzzy_match_titles. rewrite (getitem_absent _ _ H). reflexivity.
Qed.

Lemma empty_selection_with_title_column_witness :
  fuzzy_match_titles [] red_shirts 95 = Ok ([], [], []) /\
  fuzzy_match_titles [] handles_only 95 = Raise (KeyError "Title").
Proof.
  split.
  - apply (empty_selection_with_title_column red_shirts 95). reflexivity.
  - apply (empty_selection_with_title_column handles_only 95). reflexivity.
Defined.

(** ** Nothing to concatenate *)

(** C10: when the matcher returns no matched row set and the conflict
    resolution returns none either, building the filtered inventory raises
    [ValueError] (there is nothing to concatenate); no empty table is
    returned. *)
Theorem nothing_to_concatenate :
  forall (pick : string -> list string -> nat) (selected : list string)
         (inventory_df : DataFrame) (unmatched : list string) (conflicts : dict),
    fuzzy_match_titles selected inventory_df default_threshold =
    Ok ([], unmatched, conflicts) ->
    resolve_conflicts pick conflicts inventory_df = Ok [] ->
    filtered_inventory pick selected inventory_df =
    Raise (ValueError "No objects to concatenate").
Proof.
  intros pick selected inventory_df unmatched conflicts Hmatch Hresolve.
  unfold filtered_inventory. rewrite Hmatch. simpl.
  rewrite Hresolve. reflexivity.
Qed.

Lemma nothing_to_concatenate_witness :
  filtered_inventory pick_last ["Green Scarf"; "Red Shirt"] red_shirts =
  Raise (ValueError "No objects to concatenate").
Proof.
  apply (nothing_to_concatenate
           pick_last ["Green Scarf"; "Red Shirt"] red_shirts
           ["Green Scarf"] [("Red Shirt", ["Red Shirt"; "Red Shirt"])]).
  - vm_compute. reflexivity.
  - vm_compute. reflexivity.
Defined.

(** ** Building the filtered inventory *)



Lemma getitem_mask_selection (df : DataFrame) (mask : list bool) :
  selection_of df (getitem_mask df mask).
Proof.
  split; [reflexivity |].
  intros r Hr. simpl in Hr. eapply take_mask_In. exact Hr.
Qed.

Lemma selection_well_formed (df sub : DataFrame) :
  well_formed df -> selection_of df sub ->
  columns sub = columns df /\ well_formed sub.
Proof.
  intros [Hnd Hlen] [Hcols Hrows].
  split; [exact Hcols |].
  split; rewrite Hcols; [exact Hnd |].
  rewrite Forall_forall in *. intros r Hr. apply Hlen, Hrows, Hr.
Qed.

Lemma fuzzy_match_title_selections inventory_df titles threshold st title st' :
  Forall (selection_of inventory_df) (fst (fst st)) ->
  fuzzy_match_title inventory_df titles threshold st title = Ok st' ->
  Forall (selection_of inventory_df) (fst (fst st')).
Proof.
  destruct st as [[matched unmatched] conflicts]. simpl.
  unfold fuzzy_match_title. intros Hst.
  destruct (process.extract fuzz.ratio title titles (inject_Z threshold)
                            process.default_limit) as [| m1 [| m2 ms]].
  - intros H. injection H as <-. exact Hst.
  - intros H. apply bind_Ok_inv in H as (col & _ & H).
    injection H as <-. simpl.
    apply Forall_app. split; [exact Hst |].
    constructor; [apply getitem_mask_selection | constructor].
  - intros H. injection H as <-. exact Hst.
Qed.

Lemma fuzzy_match_titles_selections selected inventory_df threshold
      matched unmatched conflicts :
  fuzzy_match_titles selected inventory_df threshold =
  Ok (matched, unmatched, conflicts) ->
  Forall (selection_of inventory_df) matched.
Proof.
  unfold fuzzy_match_titles. intros H.
  apply bind_Ok_inv in H as (col & _ & H).
  refine (for_each_invariant
            (fun st => Forall (selection_of inventory_df) (fst (fst st)))
            _ _ selected ([], [], []) (matched, unmatched, conflicts) _ H).
  - intros s x s'. apply fuzzy_match_title_selections.
  - constructor.
Qed.

Lemma resolve_conflict_selections pick inventory_df selected_rows item out :
  Forall (selection_of inventory_df) selected_rows ->
  resolve_conflict pick inventory_df selected_rows item = Ok out ->
  Forall (selection_of inventory_df) out.
Proof.
  destruct item as [title options]. unfold resolve_conflict. intros Hin.
  destruct (negb _).
  - intros H. apply bind_Ok_inv in H as (col & _ & H).
    injection H as <-.
    apply Forall_app. split; [exact Hin |].
    constructor; [apply getitem_mask_selection | constructor].
  - intros H. injection H as <-. exact Hin.
Qed.

Lemma resolve_conflicts_selections pick conflicts inventory_df out :
  resolve_conflicts pick conflicts inventory_df = Ok out ->
  Forall (selection_of inventory_df) out.
Proof.
  unfold resolve_conflicts. intros H.
  refine (for_each_invariant
            (Forall (selection_of inventory_df)) _ _ conflicts [] out _ H).
  - intros s x s'. apply resolve_conflict_selections.
  - constructor.
Qed.

Lemma build_same_columns (cols : list string) (matched conflict_rows : list DataFrame) :
  matched ++ conflict_rows <> [] ->
  Forall (fun df => columns df = cols /\ well_formed df)
         (matched ++ conflict_rows) ->
  build_filtered_inventory matched conflict_rows =
  Ok {| columns := cols;
        rows := dedup_from [] (flat_map rows (matched ++ conflict_rows)) |}.
Proof.
  intros Hne Hall. unfold build_filtered_inventory.
  rewrite (concat_same_columns cols _ Hne Hall). simpl.
  unfold drop_duplicates, getitem_mask, duplicated. simpl.
  now rewrite take_mask_dedup.
Qed.

(** ** The filtered inventory *)

(** C5: the filtered inventory of a run of the pipeline has no two equal
    rows, and each of its rows is a row of the inventory table; it has the
    inventory's columns. *)
Theorem filtered_inventory_rows :
  forall (pick : string -> list string -> nat) (selected : list string)
         (inventory_df result_df : DataFrame),
    well_formed inventory_df ->
    filtered_inventory pick selected inventory_df = Ok result_df ->
    NoDup (rows result_df) /\
    (forall r, In r (rows result_df) -> In r (rows inventory_df)) /\
    columns result_df = columns inventory_df.
Proof.
  intros pick selected inventory_df result_df Hwf Hrun.
  unfold filtered_inventory in Hrun.
  apply bind_Ok_inv in Hrun as ([[matched unmatched] conflicts] & Hmatch & Hrun).
  apply bind_Ok_inv in Hrun as (conflict_rows & Hresolve & Hbuild).
  apply fuzzy_match_titles_selections in Hmatch.
  apply resolve_conflicts_selections in Hresolve.
  assert (Hsel : Forall (selection_of inventory_df) (matched ++ conflict_rows)).
  { apply Forall_app. now split. }
  assert (Hall : Forall (fun df => columns df = columns inventory_df /\
                                   well_formed df)
                        (matched ++ conflict_rows)).
  { eapply Forall_impl; [| exact Hsel].
    intros sub Hsub. now apply selection_well_formed. }
  assert (Hne : matched ++ conflict_rows <> []).
  { intros E. unfold build_filtered_inventory in Hbuild.
    rewrite E in Hbuild. discriminate Hbuild. }
  rewrite (build_same_columns _ _ _ Hne Hall) in Hbuild.
  injection Hbuild as <-. simpl.
  split; [apply dedup_from_NoDup |].
  split; [| reflexivity].
  intros r Hr. apply dedup_from_In in Hr as [Hr _].
  apply in_flat_map in Hr as (sub & Hsub & Hr).
  rewrite Forall_forall in Hsel.
  destruct (Hsel sub Hsub) as [_ Hincl]. now apply Hincl.
Qed.

Lemma filtered_inventory_rows_witness :
  NoDup (rows {| columns := ["Handle"; "Title"; "SKU"];
                 rows := [[Str "red-shirt-small"; Str "Red Shirt - Small";
                           Str "RSS"];
                          [Str "red-shirt"; Str "Red Shirt"; Str "RS-S"];
                          [Str "red-shirt"; Str "Red Shirt"; Str "RS-M"]] |}).
Proof.
  refine (proj1 (filtered_inventory_rows
                   pick_first ["Red Shirt"; "Red Shirt - Small"; "Green Scarf"]
                   red_shirts _ _ _)).
  - split; repeat constructor; simpl; intuition discriminate.
  - vm_compute. reflexivity.
Defined.

(** ** The filtered product file *)

Lemma isin_In (c : cell) (values : list cell) :
  existsb (cell_eqb c) values = true <-> In c values.
Proof.
  rewrite existsb_exists. split.
  - intros (x & Hx & Heq). apply cell_eqb_eq in Heq. now subst.
  - intros H. exists c. split; [exact H | now apply cell_eqb_eq].
Qed.

Lemma match_handles_rows (product_df inventory_df : DataFrame) (i j : nat) :
  get_loc "Handle" (columns product_df) = Some i ->
  get_loc "Handle" (columns inventory_df) = Some j ->
  match_handles product_df inventory_df =
  Ok {| columns := columns product_df;
        rows := filter
                  (fun r => existsb (cell_eqb (nth i r NaN))
                                    (map (fun x => nth j x NaN)
                                         (rows inventory_df)))
                  (rows product_df) |}.
Proof.
  intros Hi Hj. unfold match_handles, getitem. rewrite Hi, Hj. simpl.
  unfold getitem_mask, isin. rewrite map_map, take_mask_map. reflexivity.
Qed.

(** C6: when the product table and the filtered inventory both have a
    Handle column, the filtered product file has the product table's
    columns and its rows are the product rows whose Handle cell occurs in
    the Handle column of the filtered inventory, each once and in the
    order of the product table; when either table has no Handle column the
    step returns the warning that product filtering is skipped, and no
    table. *)
Theorem filtered_product_by_handle :
  forall (product_df inventory : DataFrame),
    (forall i j,
        get_loc "Handle" (columns product_df) = Some i ->
        get_loc "Handle" (columns inventory) = Some j ->
        let handles := map (fun r => nth j r NaN) (rows inventory) in
        exists result_df,
          filtered_product product_df inventory = Ok (Created result_df) /\
          columns result_df = columns product_df /\
          rows result_df =
          dedup_from []
            (filter (fun r => existsb (cell_eqb (nth i r NaN)) handles)
                    (rows product_df)) /\
          NoDup (rows result_df) /\
          forall r, In r (rows result_df) <->
                    In r (rows product_df) /\ In (nth i r NaN) handles) /\
    (has_column "Handle" product_df = false \/
     has_column "Handle" inventory = false ->
     filtered_product product_df inventory =
     Ok (Skipped
           "Handle column missing in one of the datasets. Skipping product filtering.")).
Proof.
  intros product_df inventory. split.
  - intros i j Hi Hj handles.
    assert (Hp : has_column "Handle" product_df = true).
    { unfold has_column. apply existsb_exists. exists "Handle".
      split; [eapply get_loc_In; exact Hi | reflexivity]. }
    assert (Hf : has_column "Handle" inventory = true).
    { unfold has_column. apply existsb_exists. exists "Handle".
      split; [eapply get_loc_In; exact Hj | reflexivity]. }
    unfold filtered_product. rewrite Hp, Hf. simpl.
    rewrite (match_handles_rows _ _ i j Hi Hj). simpl.
    eexists. split; [reflexivity |].
    split; [reflexivity |].
    rewrite drop_duplicates_rows. simpl.
    split; [reflexivity |].
    split; [apply dedup_from_NoDup |].
    intros r. rewrite dedup_from_In, filter_In, isin_In. simpl. tauto.
  - intros [H | H]; unfold filtered_product; rewrite H.
    + reflexivity.
    + rewrite andb_false_r. reflexivity.
Qed.

Lemma filtered_product_by_handle_witness :
  (exists result_df,
      filtered_product products (rows_titled 1 red_shirts "Red Shirt") =
      Ok (Created result_df) /\
      rows result_df = [[Str "red-shirt"; Str "Red Shirt"; Str "Acme"]]) /\
  filtered_product products titles_only =
  Ok (Skipped
        "Handle column missing in one of the datasets. Skipping product filtering.").
Proof.
  split.
  - destruct (proj1 (filtered_product_by_handle
                       products (rows_titled 1 red_shirts "Red Shirt"))
                    0 0 eq_refl eq_refl)
      as (result_df & Hrun & _ & Hrows & _).
    exists result_df. split; [exact Hrun |].
    rewrite Hrows. vm_compute. reflexivity.
  - apply (filtered_product_by_handle products titles_only).
    right. reflexivity.
Defined.

(** ** Resolving conflicts *)

Lemma selectbox_last (pick : string -> list string -> nat)
      (options : list string) (title : string) :
  pick title (options ++ ["Skip"]) = List.length options ->
  selectbox pick (options ++ ["Skip"]) title = "Skip".
Proof.
  unfold selectbox. intros ->.
  rewrite app_nth2 by lia. now rewrite Nat.sub_diag.
Qed.

Lemma selectbox_candidate (pick : string -> list string -> nat)
      (options : list string) (title : string) (k : nat) (candidate : string) :
  pick title (options ++ ["Skip"]) = k ->
  nth_error options k = Some candidate ->
  selectbox pick (options ++ ["Skip"]) title = candidate.
Proof.
  unfold selectbox. intros Hp Hk. rewrite Hp.
  assert (Hlt : k < List.length options).
  { apply nth_error_Some. rewrite Hk. discriminate. }
  rewrite app_nth1 by exact Hlt.
  now apply nth_error_nth.
Qed.

(** Taking the last option, the skip entry, adds no row set. *)
Lemma resolve_conflict_skip (pick : string -> list string -> nat)
      (inventory_df : DataFrame) (selected_rows : list DataFrame)
      (title : string) (options : list string) :
  pick title (options ++ ["Skip"]) = List.length options ->
  resolve_conflict pick inventory_df selected_rows (title, options) =
  Ok selected_rows.
Proof.
  intros H. unfold resolve_conflict.
  rewrite (selectbox_last _ _ _ H). reflexivity.
Qed.

(** Taking a candidate other than the text "Skip" adds the inventory rows
    that carry it as their title. *)
Lemma resolve_conflict_candidate (pick : string -> list string -> nat)
      (inventory_df : DataFrame) (i : nat) (selected_rows : list DataFrame)
      (title : string) (options : list string) (k : nat) (candidate : string) :
  get_loc "Title" (columns inventory_df) = Some i ->
  pick title (options ++ ["Skip"]) = k ->
  nth_error options k = Some candidate ->
  candidate <> "Skip" ->
  resolve_conflict pick inventory_df selected_rows (title, options) =
  Ok (selected_rows ++ [rows_titled i inventory_df candidate]).
Proof.
  intros Hi Hk Hnth Hne. unfold resolve_conflict.
  rewrite (selectbox_candidate _ _ _ _ _ Hk Hnth).
  destruct (String.eqb candidate "Skip") eqn:E.
  - apply String.eqb_eq in E. contradiction.
  - simpl. unfold getitem. rewrite Hi. simpl.
    rewrite getitem_mask_titled. reflexivity.
Qed.

(** C7 fails on the code for a candidate whose text is "Skip": the two rows
    of [skip_variants] put the selected title "Skip" in the conflict map
    with the candidates "Skip" and "Skip"; the user takes the first
    candidate; the choice is read as the skip entry and no row is
    contributed, although two inventory rows carry the chosen title. *)
Theorem candidate_named_skip_is_dropped :
  fuzzy_match_titles ["Skip"] skip_variants default_threshold =
  Ok ([], [], [("Skip", ["Skip"; "Skip"])]) /\
  nth_error ["Skip"; "Skip"] (pick_first "Skip" (["Skip"; "Skip"] ++ ["Skip"])) =
  Some "Skip" /\
  resolve_conflicts pick_first [("Skip", ["Skip"; "Skip"])] skip_variants =
  Ok [] /\
  rows (rows_titled 1 skip_variants "Skip") = rows skip_variants /\
  filtered_inventory pick_first ["Skip"] skip_variants =
  Raise (ValueError "No objects to concatenate") /\
  ~ chosen_candidate_contributes_its_rows.
Proof.
  split; [vm_compute; reflexivity |].
  split; [reflexivity |].
  split; [reflexivity |].
  split; [reflexivity |].
  split; [vm_compute; reflexivity |].
  intros H.
  specialize (H pick_first skip_variants 1 "Skip" ["Skip"; "Skip"] 0 "Skip"
                eq_refl eq_refl eq_refl).
  discriminate H.
Qed.

(** * Further properties of newnewapp.py *)

(** ** Scores *)

Lemma lcs_cons (x y : ascii) (a b : list ascii) :
  fuzz.lcs (x :: a) (y :: b) =
  if Ascii.eqb x y then S (fuzz.lcs a b)
  else Nat.max (fuzz.lcs a (y :: b)) (fuzz.lcs (x :: a) b).
Proof. reflexivity. Qed.

Lemma lcs_nil_r (a : list ascii) : fuzz.lcs a [] = 0.
Proof. destruct a; reflexivity. Qed.

Lemma lcs_same (a : list ascii) : fuzz.lcs a a = List.length a.
Proof.
  induction a as [| x a IH]; [reflexivity |].
  rewrite lcs_cons, Ascii.eqb_refl, IH. reflexivity.
Qed.

Lemma lcs_bounded (a b : list ascii) :
  fuzz.lcs a b <= List.length a /\ fuzz.lcs a b <= List.length b.
Proof.
  revert b.
  induction a as [| x a IHa]; intros b.
  - simpl. lia.
  - induction b as [| y b IHb].
    + rewrite lcs_nil_r. simpl. lia.
    + rewrite lcs_cons.
      destruct (Ascii.eqb x y).
      * specialize (IHa b). simpl. lia.
      * specialize (IHa (y :: b)). simpl in *. lia.
Qed.

Lemma length_list_ascii (s : string) :
  List.length (list_ascii_of_string s) = String.length s.
Proof. induction s as [| c s IH]; simpl; congruence. Qed.

Lemma Zpos_of_nat_succ (k : nat) : Z.pos (Pos.of_nat (S k)) = Z.of_nat (S k).
Proof. rewrite <- Pos.of_nat_succ, Zpos_P_of_succ_nat. lia. Qed.

Lemma ratio_same (s : string) : (fuzz.ratio s s == 100)%Q.
Proof.
  unfold fuzz.ratio. rewrite lcs_same, length_list_ascii.
  destruct (String.length s + String.length s) as [| k] eqn:E.
  - reflexivity.
  - unfold Qeq. cbn [Qnum Qden]. rewrite Zpos_of_nat_succ, <- E. lia.
Qed.

Lemma ratio_at_most_100 (s1 s2 : string) : (fuzz.ratio s1 s2 <= 100)%Q.
Proof.
  unfold fuzz.ratio.
  pose proof (lcs_bounded (list_ascii_of_string s1) (list_ascii_of_string s2))
    as [H1 H2].
  rewrite !length_list_ascii in *.
  destruct (String.length s1 + String.length s2) as [| k] eqn:E.
  - apply Qle_refl.
  - unfold Qle. cbn [Qnum Qden]. rewrite Zpos_of_nat_succ, <- E. lia.
Qed.

Lemma ratio_nonnegative (s1 s2 : string) : (0 <= fuzz.ratio s1 s2)%Q.
Proof.
  unfold fuzz.ratio.
  destruct (String.length s1 + String.length s2) as [| k].
  - discriminate.
  - unfold Qle. cbn [Qnum Qden]. lia.
Qed.

Lemma reaches_same (threshold : Z) (title : string) :
  (threshold <= 100)%Z -> reaches threshold title title = true.
Proof.
  intros H. unfold reaches. apply Qle_bool_iff.
  rewrite ratio_same. unfold Qle. simpl. lia.
Qed.

Lemma reaches_above_100 (threshold : Z) (title candidate : string) :
  (100 < threshold)%Z -> reaches threshold title candidate = false.
Proof.
  intros H. unfold reaches. apply not_true_is_false. intros E.
  apply Qle_bool_iff in E.
  pose proof (ratio_at_most_100 title candidate) as Hle.
  assert (Hth : (inject_Z threshold <= 100)%Q) by (eapply Qle_trans; eassumption).
  unfold Qle in Hth. simpl in Hth. lia.
Qed.

Lemma reaches_below_0 (threshold : Z) (title candidate : string) :
  (threshold <= 0)%Z -> reaches threshold title candidate = true.
Proof.
  intros H. unfold reaches. apply Qle_bool_iff.
  apply Qle_trans with (y := 0%Q); [| apply ratio_nonnegative].
  unfold Qle. simpl. lia.
Qed.

(** ** Whole runs of the matcher *)

(** The loop body, by the number of hits of the title. *)
Lemma fuzzy_match_title_by_count inventory_df i titles threshold
      matched unmatched conflicts title :
  get_loc "Title" (columns inventory_df) = Some i ->
  fuzzy_match_title inventory_df titles threshold
                    (matched, unmatched, conflicts) title =
  Ok (match hit_count threshold titles title with
      | 0 => (matched, unmatched ++ [title], conflicts)
      | 1 => (matched ++ [rows_titled i inventory_df
                                       (only_hit threshold titles title)],
              unmatched, conflicts)
      | _ => (matched, unmatched,
              dict_set title (candidates_of threshold titles title) conflicts)
      end).
Proof.
  intros Hi. unfold hit_count, only_hit, candidates_of.
  pose proof (matches_of_length threshold title titles) as Hlen.
  destruct (scoring threshold title titles) as [| c [| c' l]] eqn:Es.
  - simpl in Hlen. apply length_zero_iff_nil in Hlen.
    now apply fuzzy_match_title_unmatched.
  - pose proof (matches_of_all threshold title titles) as Hperm.
    rewrite Es in Hperm. specialize (Hperm ltac:(simpl; lia)).
    destruct (matches_of threshold title titles) as [| m [| m' ms]] eqn:Em;
      simpl in Hlen; try lia.
    simpl in Hperm. apply Permutation_length_1 in Hperm. subst c.
    simpl. now apply fuzzy_match_title_unique.
  - cbn [List.length]. apply fuzzy_match_title_conflict.
    rewrite Hlen. simpl. lia.
Qed.

Lemma fuzzy_match_loop inventory_df i titles threshold selected
      matched unmatched conflicts :
  get_loc "Title" (columns inventory_df) = Some i ->
  for_each (fuzzy_match_title inventory_df titles threshold) selected
           (matched, unmatched, conflicts) =
  Ok (matched ++
        map (fun t => rows_titled i inventory_df (only_hit threshold titles t))
            (with_one_hit threshold titles selected),
      unmatched ++ without_hit threshold titles selected,
      fold_left (fun d t => dict_set t (candidates_of threshold titles t) d)
                (with_several_hits threshold titles selected) conflicts).
Proof.
  intros Hi. revert matched unmatched conflicts.
  induction selected as [| t selected IH]; intros matched unmatched conflicts.
  - simpl. now rewrite !app_nil_r.
  - cbn [for_each].
    rewrite (fuzzy_match_title_by_count _ i _ _ _ _ _ _ Hi).
    unfold with_one_hit, without_hit, with_several_hits. cbn [filter].
    destruct (hit_count threshold titles t) as [| [| n]]; cbn [bind];
      rewrite IH; unfold with_one_hit, without_hit, with_several_hits;
      simpl; rewrite <- ?app_assoc; reflexivity.
Qed.

Lemma fuzzy_match_titles_closed_form selected inventory_df threshold i :
  get_loc "Title" (columns inventory_df) = Some i ->
  let titles := inventory_titles_at i inventory_df in
  fuzzy_match_titles selected inventory_df threshold =
  Ok (map (fun t => rows_titled i inventory_df (only_hit threshold titles t))
          (with_one_hit threshold titles selected),
      without_hit threshold titles selected,
      fold_left (fun d t => dict_set t (candidates_of threshold titles t) d)
                (with_several_hits threshold titles selected) []).
Proof.
  intros Hi titles. unfold fuzzy_match_titles, getitem. rewrite Hi. simpl.
  now rewrite (fuzzy_match_loop _ i _ _ _ _ _ _ Hi).
Qed.

(** Entering values that depend on the key only. *)
Lemma dict_get_entered (value : string -> list string) (entered : list string)
      (d : dict) (key : string) :
  dict_get key (fold_left (fun d t => dict_set t (value t) d) entered d) =
  if existsb (String.eqb key) entered then Some (value key)
  else dict_get key d.
Proof.
  revert d.
  induction entered as [| t entered IH]; intros d; simpl.
  - reflexivity.
  - rewrite IH.
    destruct (existsb (String.eqb key) entered); [now rewrite orb_true_r |].
    rewrite orb_false_r.
    destruct (String.eqb key t) eqn:E.
    + apply String.eqb_eq in E. subst t. apply dict_get_set.
    + apply dict_get_set_other. intros ->.
      rewrite String.eqb_refl in E. discriminate E.
Qed.

Lemma keys_dict_set (key : string) (value : list string) (d : dict) :
  keys (dict_set key value d) =
  if existsb (String.eqb key) (keys d) then keys d else keys d ++ [key].
Proof.
  unfold keys.
  induction d as [| [k v] d IH]; simpl.
  - reflexivity.
  - destruct (String.eqb key k) eqn:E; simpl.
    + reflexivity.
    + rewrite IH.
      destruct (existsb (String.eqb key) (map fst d)); reflexivity.
Qed.

Lemma keys_entered (value : string -> list string) (entered : list string)
      (d : dict) :
  keys (fold_left (fun d t => dict_set t (value t) d) entered d) =
  add_columns (keys d) entered.
Proof.
  unfold add_columns. revert d.
  induction entered as [| t entered IH]; intros d; simpl.
  - reflexivity.
  - rewrite IH, keys_dict_set. reflexivity.
Qed.

Lemma add_columns_In (acc new : list string) (x : string) :
  In x (add_columns acc new) <-> In x acc \/ In x new.
Proof.
  unfold add_columns. revert acc.
  induction new as [| c new IH]; intros acc; simpl.
  - tauto.
  - rewrite IH.
    destruct (existsb (String.eqb c) acc) eqn:E.
    + apply existsb_exists in E as (y & Hy & Heq).
      apply String.eqb_eq in Heq. subst y.
      split; [tauto |]. intros [H | [<- | H]]; tauto.
    + rewrite in_app_iff. simpl. tauto.
Qed.

Lemma add_columns_NoDup (acc new : list string) :
  NoDup acc -> NoDup (add_columns acc new).
Proof.
  unfold add_columns. revert acc.
  induction new as [| c new IH]; intros acc Hacc; simpl.
  - exact Hacc.
  - apply IH.
    destruct (existsb (String.eqb c) acc) eqn:E; [exact Hacc |].
    apply NoDup_app; [exact Hacc | repeat constructor; simpl; tauto |].
    intros x Hx [Hc | []]. subst x.
    assert (Ht : existsb (String.eqb c) acc = true).
    { apply existsb_exists. exists c. split; [exact Hx | apply String.eqb_refl]. }
    congruence.
Qed.

Lemma fuzzy_match_titles_outputs selected inventory_df threshold
      matched unmatched conflicts :
  fuzzy_match_titles selected inventory_df threshold =
  Ok (matched, unmatched, conflicts) ->
  exists i,
    get_loc "Title" (columns inventory_df) = Some i /\
    let titles := inventory_titles_at i inventory_df in
    matched =
    map (fun t => rows_titled i inventory_df (only_hit threshold titles t))
        (with_one_hit threshold titles selected) /\
    unmatched = without_hit threshold titles selected /\
    conflicts =
    fold_left (fun d t => dict_set t (candidates_of threshold titles t) d)
              (with_several_hits threshold titles selected) [].
Proof.
  intros Hrun.
  destruct (fuzzy_match_titles_Ok_column _ _ _ _ Hrun) as (i & Hi).
  exists i. split; [exact Hi |]. cbv zeta.
  rewrite (fuzzy_match_titles_closed_form _ _ _ i Hi) in Hrun.
  cbv zeta in Hrun. injection Hrun as <- <- <-. auto.
Qed.

(** X1: the unmatched titles are the selected titles without an inventory
    row reaching the threshold, in the order of the selection and as often
    as they are selected. *)
Theorem unmatched_titles_in_selection_order :
  forall (selected : list string) (inventory_df : DataFrame) (threshold : Z)
         (matched : list DataFrame) (unmatched : list string) (conflicts : dict),
    fuzzy_match_titles selected inventory_df threshold =
    Ok (matched, unmatched, conflicts) ->
    exists i,
      get_loc "Title" (columns inventory_df) = Some i /\
      unmatched =
      filter (fun t =>
                List.length
                  (scoring threshold t (inventory_titles_at i inventory_df))
                =? 0)
             selected.
Proof.
  intros selected inventory_df threshold matched unmatched conflicts Hrun.
  destruct (fuzzy_match_titles_outputs _ _ _ _ _ _ Hrun)
    as (i & Hi & _ & Hu & _).
  exists i. split; [exact Hi | exact Hu].
Qed.

Lemma unmatched_titles_in_selection_order_witness :
  exists i,
    get_loc "Title" (columns blue_hats) = Some i /\
    ["Green Scarf"; "Grey Cap"; "Green Scarf"] =
    filter (fun t =>
              List.length (scoring 95 t (inventory_titles_at i blue_hats)) =? 0)
           ["Green Scarf"; "Blue Hat"; "Grey Cap"; "Green Scarf"].
Proof.
  apply (unmatched_titles_in_selection_order
           ["Green Scarf"; "Blue Hat"; "Grey Cap"; "Green Scarf"] blue_hats 95
           [rows_titled 1 blue_hats "Blue Hat"]
           ["Green Scarf"; "Grey Cap"; "Green Scarf"] []).
  vm_compute. reflexivity.
Defined.

(** X2: the matched row sets are, in the order of the selection, one row
    set for each selected title with exactly one inventory row reaching the
    threshold: the inventory rows whose Title cell is the text of that
    row's title.  A title selected twice contributes two row sets. *)
Theorem matched_rows_in_selection_order :
  forall (selected : list string) (inventory_df : DataFrame) (threshold : Z)
         (matched : list DataFrame) (unmatched : list string) (conflicts : dict),
    fuzzy_match_titles selected inventory_df threshold =
    Ok (matched, unmatched, conflicts) ->
    exists i,
      get_loc "Title" (columns inventory_df) = Some i /\
      let titles := inventory_titles_at i inventory_df in
      matched =
      map (fun t => rows_titled i inventory_df (hd "" (scoring threshold t titles)))
          (filter (fun t => List.length (scoring threshold t titles) =? 1)
                  selected).
Proof.
  intros selected inventory_df threshold matched unmatched conflicts Hrun.
  destruct (fuzzy_match_titles_outputs _ _ _ _ _ _ Hrun)
    as (i & Hi & Hm & _).
  exists i. split; [exact Hi | exact Hm].
Qed.

Lemma matched_rows_in_selection_order_witness :
  exists i,
    get_loc "Title" (columns blue_hats) = Some i /\
    [rows_titled 1 blue_hats "Blue Hat"; rows_titled 1 blue_hats "Blue Hat"] =
    map (fun t => rows_titled i blue_hats
                    (hd "" (scoring 95 t (inventory_titles_at i blue_hats))))
        (filter (fun t =>
                   List.length (scoring 95 t (inventory_titles_at i blue_hats))
                   =? 1)
                ["Blue Hat"; "Green Scarf"; "Blue Hat"]).
Proof.
  apply (matched_rows_in_selection_order
           ["Blue Hat"; "Green Scarf"; "Blue Hat"] blue_hats 95
           [rows_titled 1 blue_hats "Blue Hat"; rows_titled 1 blue_hats "Blue Hat"]
           ["Green Scarf"] []).
  vm_compute. reflexivity.
Defined.

(** X3: after a run, the conflict map has an entry for a title exactly when
    the title is selected and two or more inventory rows reach the
    threshold for it; the entry is the candidate list of that title, also
    when the title is selected several times; no key occurs twice. *)
Theorem conflict_map_entries :
  forall (selected : list string) (inventory_df : DataFrame) (threshold : Z)
         (matched : list DataFrame) (unmatched : list string) (conflicts : dict),
    fuzzy_match_titles selected inventory_df threshold =
    Ok (matched, unmatched, conflicts) ->
    exists i,
      get_loc "Title" (columns inventory_df) = Some i /\
      let titles := inventory_titles_at i inventory_df in
      NoDup (keys conflicts) /\
      (forall t, In t (keys conflicts) <->
                 In t selected /\
                 2 <= List.length (scoring threshold t titles)) /\
      (forall t, In t (keys conflicts) ->
                 dict_get t conflicts =
                 Some (map process.choice (matches_of threshold t titles))) /\
      (forall t, ~ In t (keys conflicts) -> dict_get t conflicts = None).
Proof.
  intros selected inventory_df threshold matched unmatched conflicts Hrun.
  destruct (fuzzy_match_titles_outputs _ _ _ _ _ _ Hrun)
    as (i & Hi & _ & _ & Hc).
  exists i. split; [exact Hi |]. cbv zeta in *.
  set (titles := inventory_titles_at i inventory_df) in *.
  assert (Hkeys : keys conflicts =
                  add_columns [] (with_several_hits threshold titles selected)).
  { rewrite Hc. apply keys_entered. }
  assert (Hin : forall t, In t (keys conflicts) <->
                          In t (with_several_hits threshold titles selected)).
  { intros t. rewrite Hkeys, add_columns_In. simpl. tauto. }
  assert (Hget : forall t,
             dict_get t conflicts =
             if existsb (String.eqb t)
                        (with_several_hits threshold titles selected)
             then Some (candidates_of threshold titles t) else None).
  { intros t. rewrite Hc. apply dict_get_entered. }
  assert (Hex : forall t,
             existsb (String.eqb t)
                     (with_several_hits threshold titles selected) = true <->
             In t (with_several_hits threshold titles selected)).
  { intros t. rewrite existsb_exists. split.
    - intros (x & Hx & Heq). apply String.eqb_eq in Heq. now subst.
    - intros H. exists t. split; [exact H | apply String.eqb_refl]. }
  split; [rewrite Hkeys; apply add_columns_NoDup; constructor |].
  split; [| split].
  - intros t. rewrite Hin. unfold with_several_hits, hit_count.
    rewrite filter_In, Nat.leb_le. tauto.
  - intros t Ht. rewrite Hget.
    apply Hin, Hex in Ht. rewrite Ht. reflexivity.
  - intros t Ht. rewrite Hget.
    destruct (existsb _ _) eqn:E; [| reflexivity].
    apply Hex, Hin in E. contradiction.
Qed.

Lemma conflict_map_entries_witness :
  dict_get "Red Shirt"
           [("Red Shirt", ["Red Shirt"; "Red Shirt"])] =
  Some (map process.choice
            (matches_of 95 "Red Shirt" (inventory_titles_at 1 red_shirts))).
Proof.
  destruct (conflict_map_entries
              ["Red Shirt"; "Green Scarf"; "Red Shirt"] red_shirts 95
              [] ["Green Scarf"] [("Red Shirt", ["Red Shirt"; "Red Shirt"])])
    as (i & Hi & _ & _ & Hget & _).
  - vm_compute. reflexivity.
  - injection Hi as <-. apply Hget. simpl. now left.
Defined.

(** X4: a run accounts for every selected title once: the number of matched
    row sets, the number of unmatched titles and the number of selected
    titles with two or more hits add up to the number of selected titles;
    the conflict map has at most one entry for each of the latter. *)
Theorem every_selected_title_accounted_for :
  forall (selected : list string) (inventory_df : DataFrame) (threshold : Z)
         (matched : list DataFrame) (unmatched : list string) (conflicts : dict),
    fuzzy_match_titles selected inventory_df threshold =
    Ok (matched, unmatched, conflicts) ->
    exists i,
      get_loc "Title" (columns inventory_df) = Some i /\
      let titles := inventory_titles_at i inventory_df in
      let ambiguous :=
        filter (fun t => 2 <=? List.length (scoring threshold t titles))
               selected in
      List.length matched + List.length unmatched + List.length ambiguous =
      List.length selected /\
      List.length conflicts <= List.length ambiguous.
Proof.
  intros selected inventory_df threshold matched unmatched conflicts Hrun.
  destruct (fuzzy_match_titles_outputs _ _ _ _ _ _ Hrun)
    as (i & Hi & Hm & Hu & Hc).
  exists i. split; [exact Hi |]. cbv zeta in *.
  set (titles := inventory_titles_at i inventory_df) in *.
  split.
  - rewrite Hm, Hu, length_map.
    unfold with_one_hit, without_hit, hit_count. clear.
    induction selected as [| t selected IH]; [reflexivity |].
    cbn [filter].
    destruct (List.length (scoring threshold t titles)) as [| [| n]];
      simpl in *; lia.
  - assert (Hk : List.length conflicts = List.length (keys conflicts))
      by (unfold keys; now rewrite length_map).
    rewrite Hk, Hc, keys_entered.
    apply NoDup_incl_length; [apply add_columns_NoDup; constructor |].
    intros t Ht. apply add_columns_In in Ht. simpl in Ht. tauto.
Qed.

Lemma every_selected_title_accounted_for_witness :
  exists i,
    get_loc "Title" (columns red_shirts) = Some i /\
    1 + 1 +
    List.length
      (filter (fun t =>
                 2 <=? List.length
                         (scoring 95 t (inventory_titles_at i red_shirts)))
              ["Red Shirt"; "Green Scarf"; "Red Shirt - Small"; "Red Shirt"]) =
    4.
Proof.
  destruct (every_selected_title_accounted_for
              ["Red Shirt"; "Green Scarf"; "Red Shirt - Small"; "Red Shirt"]
              red_shirts 95
              [rows_titled 1 red_shirts "Red Shirt - Small"]
              ["Green Scarf"] [("Red Shirt", ["Red Shirt"; "Red Shirt"])])
    as (i & Hi & Hsum & _).
  - vm_compute. reflexivity.
  - exists i. split; [exact Hi | exact Hsum].
Defined.

(** ** Thresholds and exact titles *)

(** X5: with a threshold of at most 100, a selected title that is the text
    of the Title cell of some inventory row is never reported unmatched: it
    scores 100 against that row. *)
Theorem exact_title_is_never_unmatched :
  forall (selected : list string) (inventory_df : DataFrame) (threshold : Z)
         (matched : list DataFrame) (unmatched : list string) (conflicts : dict)
         (title : string) (i : nat),
    fuzzy_match_titles selected inventory_df threshold =
    Ok (matched, unmatched, conflicts) ->
    get_loc "Title" (columns inventory_df) = Some i ->
    (threshold <= 100)%Z ->
    In title (inventory_titles_at i inventory_df) ->
    ~ In title unmatched.
Proof.
  intros selected inventory_df threshold matched unmatched conflicts title i
         Hrun Hi Hth Hin Hun.
  destruct (fuzzy_match_titles_outputs _ _ _ _ _ _ Hrun)
    as (j & Hj & _ & Hu & _).
  rewrite Hi in Hj. injection Hj as <-. cbv zeta in Hu.
  rewrite Hu in Hun. unfold without_hit, hit_count in Hun.
  apply filter_In in Hun as [_ Hzero].
  apply Nat.eqb_eq, length_zero_iff_nil in Hzero.
  assert (Hs : In title (scoring threshold title
                                 (inventory_titles_at i inventory_df))).
  { unfold scoring. apply filter_In. split; [exact Hin |].
    now apply reaches_same. }
  rewrite Hzero in Hs. contradiction.
Qed.

Lemma exact_title_is_never_unmatched_witness :
  ~ In "Red Shirt - Small" ["Green Scarf"].
Proof.
  apply (exact_title_is_never_unmatched
           ["Red Shirt - Small"; "Green Scarf"] red_shirts 95
           [rows_titled 1 red_shirts "Red Shirt - Small"] ["Green Scarf"] []
           "Red Shirt - Small" 1).
  - vm_compute. reflexivity.
  - reflexivity.
  - lia.
  - simpl. tauto.
Defined.

Lemma filter_all {A : Type} (f : A -> bool) (l : list A) :
  (forall x, f x = true) -> filter f l = l.
Proof.
  intros H. induction l as [| x l IH]; [reflexivity |].
  simpl. rewrite H. now f_equal.
Qed.

Lemma filter_none {A : Type} (f : A -> bool) (l : list A) :
  (forall x, f x = false) -> filter f l = [].
Proof.
  intros H. induction l as [| x l IH]; [reflexivity |].
  simpl. now rewrite H.
Qed.

Lemma ambiguous_title_lookup selected inventory_df threshold
      matched unmatched conflicts i title :
  fuzzy_match_titles selected inventory_df threshold =
  Ok (matched, unmatched, conflicts) ->
  get_loc "Title" (columns inventory_df) = Some i ->
  In title selected ->
  2 <= hit_count threshold (inventory_titles_at i inventory_df) title ->
  dict_get title conflicts =
  Some (candidates_of threshold (inventory_titles_at i inventory_df) title).
Proof.
  intros Hrun Hi Hsel Hhits.
  destruct (fuzzy_match_titles_outputs _ _ _ _ _ _ Hrun)
    as (j & Hj & _ & _ & Hc).
  rewrite Hi in Hj. injection Hj as <-. cbv zeta in Hc.
  rewrite Hc, dict_get_entered.
  assert (Hex : existsb (String.eqb title)
                        (with_several_hits
                           threshold (inventory_titles_at i inventory_df)
                           selected) = true).
  { apply existsb_exists. exists title. split; [| apply String.eqb_refl].
    unfold with_several_hits. apply filter_In.
    split; [exact Hsel | now apply Nat.leb_le]. }
  now rewrite Hex.
Qed.

(** ** The rows of a unique match *)

Lemma text_cell_eqb (c : cell) (s : string) :
  (exists u, c = Str u) ->
  cell_eqb c (Str s) = String.eqb (astype_str c) s.
Proof. intros (u & ->). reflexivity. Qed.

Lemma no_row_titled (i : nat) (c : string) (rs : list row) :
  (forall r, In r rs -> astype_str (nth i r NaN) <> c) ->
  filter (fun r => cell_eqb (nth i r NaN) (Str c)) rs = [].
Proof.
  induction rs as [| r rs IH]; intros H; [reflexivity |].
  simpl. destruct (cell_eqb (nth i r NaN) (Str c)) eqn:E.
  - apply cell_eqb_eq in E. exfalso. apply (H r); [now left |].
    now rewrite E.
  - apply IH. intros r' Hr'. apply H. now right.
Qed.

Lemma single_hit_single_row (threshold : Z) (title : string) (i : nat)
      (c : string) (rs : list row) :
  Forall (fun r => exists s, nth i r NaN = Str s) rs ->
  filter (reaches threshold title)
         (map (fun r => astype_str (nth i r NaN)) rs) = [c] ->
  exists r, filter (fun r => cell_eqb (nth i r NaN) (Str c)) rs = [r].
Proof.
  induction 1 as [| r rs Hr Hrs IH]; simpl; intros Hhit.
  - discriminate Hhit.
  - rewrite (text_cell_eqb _ c Hr).
    destruct (reaches threshold title (astype_str (nth i r NaN))) eqn:E.
    + injection Hhit as Hc Hrest. rewrite Hc, String.eqb_refl.
      exists r. f_equal. apply no_row_titled.
      intros r' Hr' Heq.
      assert (Hin : In c (filter (reaches threshold title)
                                 (map (fun r => astype_str (nth i r NaN)) rs))).
      { apply filter_In. split.
        - rewrite <- Heq. now apply (in_map (fun r => astype_str (nth i r NaN))).
        - now rewrite <- Hc. }
      rewrite Hrest in Hin. contradiction.
    + destruct (String.eqb (astype_str (nth i r NaN)) c) eqn:Ec.
      * apply String.eqb_eq in Ec. rewrite Ec in E.
        assert (Hin : In c [c]) by now left.
        rewrite <- Hhit in Hin. apply filter_In in Hin as [_ Hin].
        congruence.
      * now apply IH.
Qed.

(** X8: when every Title cell of the inventory is text, each matched row
    set holds exactly one inventory row (a title carried by two rows is a
    conflict, never a unique match); when no Title cell is text, for
    example in a column of numbers, every matched row set is empty, since
    a cell that is not text never equals the matched title. *)
Theorem matched_row_sets_by_cell_kind :
  forall (selected : list string) (inventory_df : DataFrame) (threshold : Z)
         (matched : list DataFrame) (unmatched : list string) (conflicts : dict)
         (i : nat),
    fuzzy_match_titles selected inventory_df threshold =
    Ok (matched, unmatched, conflicts) ->
    get_loc "Title" (columns inventory_df) = Some i ->
    (Forall (fun r => exists s, nth i r NaN = Str s) (rows inventory_df) ->
     Forall (fun sub => exists r, rows sub = [r] /\ In r (rows inventory_df))
            matched) /\
    (Forall (fun r => forall s, nth i r NaN <> Str s) (rows inventory_df) ->
     Forall (fun sub => rows sub = []) matched).
Proof.
  intros selected inventory_df threshold matched unmatched conflicts i
         Hrun Hi.
  destruct (fuzzy_match_titles_outputs _ _ _ _ _ _ Hrun)
    as (j & Hj & Hm & _).
  rewrite Hi in Hj. injection Hj as <-. cbv zeta in Hm.
  split; intros Hcells; rewrite Hm; apply Forall_forall; intros sub Hsub;
    apply in_map_iff in Hsub as (t & <- & Ht).
  - unfold with_one_hit in Ht. apply filter_In in Ht as [_ Ht].
    apply Nat.eqb_eq in Ht. unfold hit_count in Ht. unfold only_hit.
    destruct (scoring threshold t (inventory_titles_at i inventory_df))
      as [| c [| c' l]] eqn:Es; simpl in Ht; try lia.
    unfold scoring, inventory_titles_at in Es. rewrite map_map in Es.
    destruct (single_hit_single_row _ _ _ _ _ Hcells Es) as (r & Hr).
    exists r. simpl. split; [exact Hr |].
    assert (Hin : In r [r]) by now left.
    rewrite <- Hr in Hin. apply filter_In in Hin. tauto.
  - simpl.
    induction (rows inventory_df) as [| r rs IH]; [reflexivity |].
    inversion Hcells as [| ? ? Hr Hrs]; subst. simpl.
    destruct (cell_eqb (nth i r NaN) (Str _)) eqn:E.
    + apply cell_eqb_eq in E. now apply Hr in E.
    + now apply IH.
Qed.

Lemma matched_row_sets_by_cell_kind_witness :
  Forall (fun sub => exists r, rows sub = [r] /\ In r (rows red_shirts))
         [rows_titled 1 red_shirts "Red Shirt - Small"] /\
  Forall (fun sub => rows sub = []) [rows_titled 1 numbered_parts "470"].
Proof.
  split.
  - refine (proj1 (matched_row_sets_by_cell_kind
                     ["Red Shirt - Small"; "Red Shirt"] red_shirts 95
                     [rows_titled 1 red_shirts "Red Shirt - Small"] []
                     [("Red Shirt", ["Red Shirt"; "Red Shirt"])] 1 _ _) _).
    + vm_compute. reflexivity.
    + reflexivity.
    + repeat constructor; eexists; reflexivity.
  - refine (proj2 (matched_row_sets_by_cell_kind
                     ["470"] numbered_parts 95
                     [rows_titled 1 numbered_parts "470"] [] [] 1 _ _) _).
    + vm_compute. reflexivity.
    + reflexivity.
    + repeat constructor; discriminate.
Defined.

(** ** Whole runs of the conflict resolution *)

Lemma resolve_conflict_by_decision pick inventory_df selected_rows item :
  resolve_conflict pick inventory_df selected_rows item =
  if negb (String.eqb (decision pick item) "Skip") then
    title_col <- getitem inventory_df "Title" ;;
    Ok (selected_rows ++
          [getitem_mask inventory_df
                        (series_eq title_col (decision pick item))])
  else Ok selected_rows.
Proof. destruct item as [title options]. reflexivity. Qed.

Lemma resolve_loop pick inventory_df i conflicts selected_rows :
  get_loc "Title" (columns inventory_df) = Some i ->
  for_each (resolve_conflict pick inventory_df) conflicts selected_rows =
  Ok (selected_rows ++ map (rows_titled i inventory_df) (chosen pick conflicts)).
Proof.
  intros Hi. revert selected_rows.
  induction conflicts as [| item conflicts IH]; intros selected_rows.
  - simpl. now rewrite app_nil_r.
  - cbn [for_each]. rewrite resolve_conflict_by_decision.
    unfold chosen. cbn [map filter]. fold (chosen pick conflicts).
    destruct (negb (String.eqb (decision pick item) "Skip")).
    + unfold getitem. rewrite Hi. cbn [bind].
      rewrite getitem_mask_titled, IH, <- app_assoc. reflexivity.
    + cbn [bind]. apply IH.
Qed.

Lemma decision_offered pick (item : string * list string) :
  decision pick item <> "Skip" -> In (decision pick item) (snd item).
Proof.
  unfold decision, selectbox. intros Hne.
  destruct (nth_in_or_default (pick (fst item) (snd item ++ ["Skip"]))
                              (snd item ++ ["Skip"]) "Skip") as [Hin | Hd].
  - apply in_app_or in Hin as [Hin | [Hs | []]]; [exact Hin |].
    symmetry in Hs. contradiction.
  - contradiction.
Qed.

(** X9: on an inventory with a Title column the conflict resolution
    returns, in the order of the conflict map, one row set for each
    decision other than "Skip": the inventory rows whose Title cell is the
    chosen text.  Each chosen text was offered as a candidate of its
    conflict, and there are at most as many row sets as conflicts. *)
Theorem resolved_rows_follow_the_decisions :
  forall (pick : string -> list string -> nat) (conflicts : dict)
         (inventory_df : DataFrame) (i : nat),
    get_loc "Title" (columns inventory_df) = Some i ->
    resolve_conflicts pick conflicts inventory_df =
    Ok (map (rows_titled i inventory_df)
            (filter (fun c => negb (String.eqb c "Skip"))
                    (map (fun item =>
                            selectbox pick (snd item ++ ["Skip"]) (fst item))
                         conflicts))) /\
    (forall c, In c (chosen pick conflicts) ->
               exists title options,
                 In (title, options) conflicts /\ In c options /\
                 selectbox pick (options ++ ["Skip"]) title = c) /\
    List.length (chosen pick conflicts) <= List.length conflicts.
Proof.
  intros pick conflicts inventory_df i Hi.
  split; [| split].
  - unfold resolve_conflicts. rewrite (resolve_loop _ _ i _ _ Hi). reflexivity.
  - intros c Hc. unfold chosen in Hc.
    apply filter_In in Hc as [Hc Hne].
    apply in_map_iff in Hc as ([title options] & Hd & Hitem).
    exists title, options. split; [exact Hitem |].
    split; [| exact Hd].
    rewrite <- Hd. apply (decision_offered pick (title, options)).
    rewrite Hd. intros ->. discriminate Hne.
  - unfold chosen.
    eapply Nat.le_trans; [apply filter_length_le |].
    now rewrite length_map.
Qed.

Lemma resolved_rows_follow_the_decisions_witness :
  resolve_conflicts pick_first
                    [("Red Shirt", ["Red Shirt"; "Red Shirt"]);
                     ("Red Shirts", ["Red Shirt - Small"; "Red Shirt"])]
                    red_shirts =
  Ok [rows_titled 1 red_shirts "Red Shirt";
      rows_titled 1 red_shirts "Red Shirt - Small"].
Proof.
  apply (resolved_rows_follow_the_decisions
           pick_first
           [("Red Shirt", ["Red Shirt"; "Red Shirt"]);
            ("Red Shirts", ["Red Shirt - Small"; "Red Shirt"])]
           red_shirts 1).
  reflexivity.
Defined.

(** X10: on an inventory without a Title column the conflict resolution
    returns no row set when every decision is "Skip", and raises [KeyError]
    for "Title" as soon as one decision is a candidate. *)
Theorem resolution_without_title_column :
  forall (pick : string -> list string -> nat) (conflicts : dict)
         (inventory_df : DataFrame),
    has_column "Title" inventory_df = false ->
    resolve_conflicts pick conflicts inventory_df =
    match chosen pick conflicts with
    | [] => Ok []
    | _ :: _ => Raise (KeyError "Title")
    end.
Proof.
  assert (Hloop : forall pick conflicts inventory_df acc,
             has_column "Title" inventory_df = false ->
             for_each (resolve_conflict pick inventory_df) conflicts acc =
             match chosen pick conflicts with
             | [] => Ok acc
             | _ :: _ => Raise (KeyError "Title")
             end).
  { intros pick conflicts inventory_df acc Hcol. revert acc.
    induction conflicts as [| item conflicts IH]; intros acc.
    - reflexivity.
    - cbn [for_each]. rewrite resolve_conflict_by_decision.
      unfold chosen. cbn [map filter]. fold (chosen pick conflicts).
      destruct (negb (String.eqb (decision pick item) "Skip")).
      + rewrite (getitem_absent _ _ Hcol). reflexivity.
      + cbn [bind]. apply IH. }
  intros pick conflicts inventory_df Hcol. now apply Hloop.
Qed.

Lemma resolution_without_title_column_witness :
  resolve_conflicts pick_last [("Red Shirt", ["Red Shirt"; "Red Shirt"])]
                    handles_only = Ok [] /\
  resolve_conflicts pick_first [("Red Shirt", ["Red Shirt"; "Red Shirt"])]
                    handles_only = Raise (KeyError "Title").
Proof.
  split.
  - apply (resolution_without_title_column
             pick_last [("Red Shirt", ["Red Shirt"; "Red Shirt"])] handles_only).
    reflexivity.
  - apply (resolution_without_title_column
             pick_first [("Red Shirt", ["Red Shirt"; "Red Shirt"])] handles_only).
    reflexivity.
Defined.

(** ** The product step *)

Lemma filtered_product_created (product_df inventory result_df : DataFrame) :
  filtered_product product_df inventory = Ok (Created result_df) ->
  exists i j,
    get_loc "Handle" (columns product_df) = Some i /\
    get_loc "Handle" (columns inventory) = Some j /\
    result_df =
    {| columns := columns product_df;
       rows := dedup_from []
                 (filter (fun r => existsb (cell_eqb (nth i r NaN))
                                           (map (fun x => nth j x NaN)
                                                (rows inventory)))
                         (rows product_df)) |}.
Proof.
  unfold filtered_product.
  destruct (has_column "Handle" product_df) eqn:Hp; simpl;
    [| discriminate].
  destruct (has_column "Handle" inventory) eqn:Hf; simpl; [| discriminate].
  destruct (getitem_present _ _ Hp) as (i & Hi & _).
  destruct (getitem_present _ _ Hf) as (j & Hj & _).
  rewrite (match_handles_rows _ _ i j Hi Hj). simpl.
  intros H. injection H as <-.
  exists i, j. split; [exact Hi |]. split; [exact Hj |].
  unfold drop_duplicates, getitem_mask, duplicated. simpl.
  now rewrite take_mask_dedup.
Qed.

Lemma dedup_from_distinct (seen rs : list row) :
  NoDup rs -> (forall r, In r rs -> ~ In r seen) -> dedup_from seen rs = rs.
Proof.
  revert seen.
  induction rs as [| r rs IH]; intros seen Hnd Hseen; [reflexivity |].
  inversion Hnd as [| ? ? Hr Hrs]; subst. simpl.
  destruct (existsb (row_eqb r) seen) eqn:E.
  - apply seen_In in E. exfalso. apply (Hseen r); [now left | exact E].
  - f_equal. apply IH; [exact Hrs |].
    intros x Hx [<- | Hin]; [contradiction |].
    apply (Hseen x); [now right | exact Hin].
Qed.

Lemma filter_kept {A : Type} (f : A -> bool) (l : list A) :
  (forall x, In x l -> f x = true) -> filter f l = l.
Proof.
  induction l as [| x l IH]; intros H; [reflexivity |].
  simpl. rewrite (H x) by now left.
  f_equal. apply IH. intros y Hy. apply H. now right.
Qed.

(** X11: [match_handles] raises [KeyError] for "Handle" exactly when the
    product table or the inventory table has no Handle column; the product
    step tests both columns before it calls [match_handles] and never
    raises. *)
Theorem product_step_never_raises :
  forall (product_df inventory : DataFrame),
    (exists outcome, filtered_product product_df inventory = Ok outcome) /\
    (has_column "Handle" product_df && has_column "Handle" inventory = false ->
     match_handles product_df inventory = Raise (KeyError "Handle")) /\
    (has_column "Handle" product_df && has_column "Handle" inventory = true ->
     exists df, match_handles product_df inventory = Ok df).
Proof.
  intros product_df inventory.
  assert (Hboth : has_column "Handle" product_df &&
                  has_column "Handle" inventory = true ->
                  exists df, match_handles product_df inventory = Ok df).
  { intros H. apply andb_true_iff in H as [Hp Hf].
    destruct (getitem_present _ _ Hp) as (i & Hi & _).
    destruct (getitem_present _ _ Hf) as (j & Hj & _).
    eexists. apply (match_handles_rows _ _ i j Hi Hj). }
  split; [| split; [| exact Hboth]].
  - unfold filtered_product.
    destruct (has_column "Handle" product_df &&
              has_column "Handle" inventory) eqn:E.
    + destruct (Hboth eq_refl) as (df & ->). eexists. reflexivity.
    + eexists. reflexivity.
  - intros H. unfold match_handles.
    destruct (has_column "Handle" product_df) eqn:Hp.
    + simpl in H. destruct (getitem_present _ _ Hp) as (i & _ & ->).
      simpl. now rewrite (getitem_absent _ _ H).
    + now rewrite (getitem_absent _ _ Hp).
Qed.

Lemma product_step_never_raises_witness :
  match_handles products titles_only = Raise (KeyError "Handle") /\
  exists df, match_handles products red_shirts = Ok df.
Proof.
  split.
  - apply (product_step_never_raises products titles_only). reflexivity.
  - apply (product_step_never_raises products red_shirts). reflexivity.
Defined.

(** X12: the product step is idempotent: run again on the filtered product
    file it created, with the same filtered inventory, it creates the same
    file. *)
Theorem product_step_idempotent :
  forall (product_df inventory result_df : DataFrame),
    filtered_product product_df inventory = Ok (Created result_df) ->
    filtered_product result_df inventory = Ok (Created result_df).
Proof.
  intros product_df inventory result_df Hrun.
  destruct (filtered_product_created _ _ _ Hrun) as (i & j & Hi & Hj & ->).
  set (handles := map (fun x => nth j x NaN) (rows inventory)).
  set (kept := dedup_from []
                 (filter (fun r => existsb (cell_eqb (nth i r NaN)) handles)
                         (rows product_df))).
  assert (Hp : has_column "Handle" product_df = true).
  { unfold has_column. apply existsb_exists. exists "Handle".
    split; [eapply get_loc_In; exact Hi | reflexivity]. }
  assert (Hf : has_column "Handle" inventory = true).
  { unfold has_column. apply existsb_exists. exists "Handle".
    split; [eapply get_loc_In; exact Hj | reflexivity]. }
  unfold filtered_product.
  replace (has_column "Handle"
             {| columns := columns product_df; rows := kept |})
    with true by (symmetry; exact Hp).
  rewrite Hf. simpl.
  rewrite (match_handles_rows _ _ i j) by assumption. simpl.
  do 2 f_equal.
  unfold drop_duplicates, getitem_mask, duplicated. simpl.
  rewrite take_mask_dedup. f_equal.
  fold handles.
  rewrite filter_kept.
  - apply dedup_from_distinct; [apply dedup_from_NoDup | tauto].
  - intros r Hr. unfold kept in Hr.
    apply dedup_from_In in Hr as [Hr _].
    apply filter_In in Hr. tauto.
Qed.

Lemma product_step_idempotent_witness :
  filtered_product
    {| columns := ["Handle"; "Title"; "Vendor"];
       rows := [[Str "red-shirt"; Str "Red Shirt"; Str "Acme"]] |}
    red_shirts =
  Ok (Created
        {| columns := ["Handle"; "Title"; "Vendor"];
           rows := [[Str "red-shirt"; Str "Red Shirt"; Str "Acme"]] |}).
Proof.
  apply (product_step_idempotent products red_shirts).
  vm_compute. reflexivity.
Defined.

(** ** The "Proceed with Matching" block *)

Lemma resolve_conflicts_total pick conflicts inventory_df :
  has_column "Title" inventory_df = true ->
  exists i,
    get_loc "Title" (columns inventory_df) = Some i /\
    resolve_conflicts pick conflicts inventory_df =
    Ok (map (rows_titled i inventory_df) (chosen pick conflicts)).
Proof.
  intros H. destruct (getitem_present _ _ H) as (i & Hi & _).
  exists i. split; [exact Hi |].
  unfold resolve_conflicts. now rewrite (resolve_loop _ _ i _ _ Hi).
Qed.

Lemma filtered_inventory_result pick selected inventory_df filtered :
  well_formed inventory_df ->
  filtered_inventory pick selected inventory_df = Ok filtered ->
  exists matched unmatched conflicts conflict_rows,
    fuzzy_match_titles selected inventory_df default_threshold =
    Ok (matched, unmatched, conflicts) /\
    resolve_conflicts pick conflicts inventory_df = Ok conflict_rows /\
    Forall (selection_of inventory_df) (matched ++ conflict_rows) /\
    filtered =
    {| columns := columns inventory_df;
       rows := dedup_from [] (flat_map rows (matched ++ conflict_rows)) |}.
Proof.
  intros Hwf Hrun. unfold filtered_inventory in Hrun.
  apply bind_Ok_inv in Hrun as ([[matched unmatched] conflicts] & Hmatch & Hrun).
  apply bind_Ok_inv in Hrun as (conflict_rows & Hresolve & Hbuild).
  exists matched, unmatched, conflicts, conflict_rows.
  split; [exact Hmatch |]. split; [exact Hresolve |].
  assert (Hsel : Forall (selection_of inventory_df) (matched ++ conflict_rows)).
  { apply Forall_app. split.
    - eapply fuzzy_match_titles_selections; exact Hmatch.
    - eapply resolve_conflicts_selections; exact Hresolve. }
  split; [exact Hsel |].
  assert (Hall : Forall (fun df => columns df = columns inventory_df /\
                                   well_formed df)
                        (matched ++ conflict_rows)).
  { eapply Forall_impl; [| exact Hsel].
    intros sub Hsub. now apply selection_well_formed. }
  assert (Hne : matched ++ conflict_rows <> []).
  { intros E. unfold build_filtered_inventory in Hbuild.
    rewrite E in Hbuild. discriminate Hbuild. }
  rewrite (build_same_columns _ _ _ Hne Hall) in Hbuild.
  now injection Hbuild as <-.
Qed.

Lemma build_filtered_inventory_nonempty (matched conflict_rows : list DataFrame) :
  matched ++ conflict_rows <> [] ->
  exists filtered, build_filtered_inventory matched conflict_rows = Ok filtered.
Proof.
  intros Hne. destruct (concat_nonempty _ Hne) as (c & Hc).
  exists (drop_duplicates c). unfold build_filtered_inventory.
  now rewrite Hc.
Qed.

(** X14: no matched row is lost.  On a well formed inventory the filtered
    inventory holds exactly the rows of the matched row sets and of the
    row sets of the resolved conflicts: first the rows of the unique
    matches in the order of the selection, then those of the resolved
    conflicts, a row equal to an earlier one left out. *)
Theorem filtered_inventory_keeps_every_match :
  forall (pick : string -> list string -> nat) (selected : list string)
         (inventory_df filtered : DataFrame),
    well_formed inventory_df ->
    filtered_inventory pick selected inventory_df = Ok filtered ->
    exists matched unmatched conflicts conflict_rows,
      fuzzy_match_titles selected inventory_df default_threshold =
      Ok (matched, unmatched, conflicts) /\
      resolve_conflicts pick conflicts inventory_df = Ok conflict_rows /\
      rows filtered =
      dedup_from [] (flat_map rows matched ++ flat_map rows conflict_rows) /\
      forall r, In r (rows filtered) <->
                exists sub, In sub (matched ++ conflict_rows) /\ In r (rows sub).
Proof.
  intros pick selected inventory_df filtered Hwf Hrun.
  destruct (filtered_inventory_result _ _ _ _ Hwf Hrun)
    as (matched & unmatched & conflicts & conflict_rows
        & Hmatch & Hresolve & _ & ->).
  exists matched, unmatched, conflicts, conflict_rows.
  split; [exact Hmatch |]. split; [exact Hresolve |]. simpl.
  split; [now rewrite flat_map_app |].
  intros r. rewrite dedup_from_In, in_flat_map. simpl. tauto.
Qed.

Lemma filtered_inventory_keeps_every_match_witness :
  exists matched unmatched conflicts conflict_rows,
    fuzzy_match_titles ["Red Shirt"; "Red Shirt - Small"] red_shirts
                       default_threshold =
    Ok (matched, unmatched, conflicts) /\
    resolve_conflicts pick_first conflicts red_shirts = Ok conflict_rows /\
    [[Str "red-shirt-small"; Str "Red Shirt - Small"; Str "RSS"];
     [Str "red-shirt"; Str "Red Shirt"; Str "RS-S"];
     [Str "red-shirt"; Str "Red Shirt"; Str "RS-M"]] =
    dedup_from [] (flat_map rows matched ++ flat_map rows conflict_rows).
Proof.
  destruct (filtered_inventory_keeps_every_match
              pick_first ["Red Shirt"; "Red Shirt - Small"] red_shirts
              {| columns := ["Handle"; "Title"; "SKU"];
                 rows := [[Str "red-shirt-small"; Str "Red Shirt - Small";
                           Str "RSS"];
                          [Str "red-shirt"; Str "Red Shirt"; Str "RS-S"];
                          [Str "red-shirt"; Str "Red Shirt"; Str "RS-M"]] |})
    as (matched & unmatched & conflicts & conflict_rows & H1 & H2 & H3 & _).
  - split; repeat constructor; simpl; intuition discriminate.
  - vm_compute. reflexivity.
  - exists matched, unmatched, conflicts, conflict_rows. auto.
Defined.

(** X15: in a run of steps 2 and 3 on a well formed inventory, the product
    step is skipped exactly when the product table or the inventory table
    itself has no Handle column (the filtered inventory has the columns of
    the inventory); and each row of a created product file is a row of the
    product table whose Handle cell is the Handle cell of an inventory row
    kept in the filtered inventory. *)
Theorem proceed_joins_on_inventory_handles :
  forall (pick : string -> list string -> nat) (selected : list string)
         (product_df inventory_df filtered : DataFrame) (outcome : step3),
    well_formed inventory_df ->
    proceed pick selected product_df inventory_df = Ok (filtered, outcome) ->
    columns filtered = columns inventory_df /\
    ((exists warning, outcome = Skipped warning) <->
     has_column "Handle" product_df && has_column "Handle" inventory_df
     = false) /\
    forall result_df,
      outcome = Created result_df ->
      exists i j,
        get_loc "Handle" (columns product_df) = Some i /\
        get_loc "Handle" (columns inventory_df) = Some j /\
        forall r, In r (rows result_df) ->
                  In r (rows product_df) /\
                  exists q, In q (rows inventory_df) /\ In q (rows filtered) /\
                            nth i r NaN = nth j q NaN.
Proof.
  intros pick selected product_df inventory_df filtered outcome Hwf Hrun.
  unfold proceed in Hrun.
  apply bind_Ok_inv in Hrun as (fi & Hfi & Hrun).
  apply bind_Ok_inv in Hrun as (out & Hout & Hrun).
  injection Hrun as <- <-.
  destruct (filtered_inventory_result _ _ _ _ Hwf Hfi)
    as (matched & unmatched & conflicts & conflict_rows
        & _ & _ & Hsel & Hshape).
  assert (Hcols : columns fi = columns inventory_df) by now rewrite Hshape.
  assert (Hhas : has_column "Handle" fi = has_column "Handle" inventory_df).
  { unfold has_column. now rewrite Hcols. }
  split; [exact Hcols |]. split.
  - unfold filtered_product in Hout. rewrite Hhas in Hout.
    destruct (has_column "Handle" product_df &&
              has_column "Handle" inventory_df) eqn:E.
    + apply bind_Ok_inv in Hout as (m & _ & Hout). injection Hout as <-.
      split; [intros (w & Hw); discriminate Hw | discriminate].
    + injection Hout as <-. split; [reflexivity | eexists; reflexivity].
  - intros result_df ->.
    destruct (filtered_product_created _ _ _ Hout) as (i & j & Hi & Hj & ->).
    exists i, j. split; [exact Hi |]. rewrite <- Hcols. split; [exact Hj |].
    intros r Hr. simpl in Hr.
    apply dedup_from_In in Hr as [Hr _].
    apply filter_In in Hr as [Hr Hhandle]. split; [exact Hr |].
    apply isin_In, in_map_iff in Hhandle as (q & Hq & Hin).
    exists q. split; [| split; [exact Hin | now symmetry]].
    rewrite Hshape in Hin. simpl in Hin.
    apply dedup_from_In in Hin as [Hin _].
    apply in_flat_map in Hin as (sub & Hsub & Hin).
    rewrite Forall_forall in Hsel.
    destruct (Hsel sub Hsub) as [_ Hincl]. now apply Hincl.
Qed.

Lemma proceed_joins_on_inventory_handles_witness :
  columns {| columns := ["Handle"; "Title"; "SKU"];
             rows := [[Str "red-shirt"; Str "Red Shirt"; Str "RS-S"];
                      [Str "red-shirt"; Str "Red Shirt"; Str "RS-M"]] |} =
  columns red_shirts.
Proof.
  refine (proj1 (proceed_joins_on_inventory_handles
                   pick_first ["Red Shirt"] products red_shirts _
                   (Created
                      {| columns := ["Handle"; "Title"; "Vendor"];
                         rows := [[Str "red-shirt"; Str "Red Shirt";
                                   Str "Acme"]] |})
                   _ _)).
  - split; repeat constructor; simpl; intuition discriminate.
  - vm_compute. reflexivity.
Defined.

(** ** Title values *)

Lemma seen_cell_In (v : cell) (seen : list cell) :
  existsb (cell_eqb v) seen = true <-> In v seen.
Proof. apply isin_In. Qed.

Lemma unique_from_In (v : cell) (seen values : list cell) :
  In v (unique_from seen values) <-> In v values /\ ~ In v seen.
Proof.
  revert seen.
  induction values as [| x values IH]; simpl; intros seen.
  - tauto.
  - assert (Hdec : x = v \/ x <> v).
    { destruct (cell_eqb x v) eqn:E.
      - left. now apply cell_eqb_eq.
      - right. intros H. apply cell_eqb_eq in H. congruence. }
    destruct (existsb (cell_eqb x) seen) eqn:E.
    + apply seen_cell_In in E. rewrite IH. split.
      * tauto.
      * intros [[-> | H1] H2]; [contradiction | tauto].
    + simpl. rewrite IH. simpl. split.
      * intros [-> | [H1 H2]].
        -- split; [now left |]. intros H. apply seen_cell_In in H. congruence.
        -- tauto.
      * intros [[-> | H1] H2]; [now left |].
        destruct Hdec as [-> | Hne]; [now left |].
        right. split; [exact H1 |]. intros [Heq | Hin]; tauto.
Qed.

Lemma unique_from_NoDup (seen values : list cell) :
  NoDup (unique_from seen values).
Proof.
  revert seen.
  induction values as [| x values IH]; simpl; intros seen.
  - constructor.
  - destruct (existsb (cell_eqb x) seen); [apply IH |].
    constructor; [| apply IH].
    rewrite unique_from_In. simpl. tauto.
Qed.

Lemma dropna_In (v : cell) (col : list cell) :
  In v (dropna col) <-> In v col /\ v <> NaN.
Proof.
  unfold dropna. rewrite filter_In.
  destruct v; simpl; split; intros [H1 H2]; split;
    try exact H1; try discriminate; try reflexivity; try congruence.
Qed.

Lemma title_values_In (v : cell) (col : list cell) :
  In v (unique (dropna col)) <-> In v col /\ v <> NaN.
Proof.
  unfold unique. rewrite unique_from_In, dropna_In. simpl. tauto.
Qed.

(** X16: the selected titles of the "Proceed with Matching" block are the
    values of the Title column of the selected products file that are not
    missing, each once; when the file has no Title column, reading them
    raises [KeyError] for "Title". *)
Theorem selected_titles_are_distinct_values :
  forall (selected_df : DataFrame),
    (has_column "Title" selected_df = false ->
     selected_titles_of selected_df = Raise (KeyError "Title")) /\
    (has_column "Title" selected_df = true ->
     exists title_col titles,
       getitem selected_df "Title" = Ok title_col /\
       selected_titles_of selected_df = Ok titles /\
       NoDup titles /\
       forall v, In v titles <-> In v title_col /\ v <> NaN).
Proof.
  intros selected_df. split; intros Hcol; unfold selected_titles_of.
  - now rewrite (getitem_absent _ _ Hcol).
  - destruct (getitem_present _ _ Hcol) as (i & _ & Hget).
    rewrite Hget. simpl. do 2 eexists.
    split; [reflexivity |]. split; [reflexivity |].
    split; [apply unique_from_NoDup |].
    intros v. apply title_values_In.
Qed.

Lemma selected_titles_are_distinct_values_witness :
  selected_titles_of handles_only = Raise (KeyError "Title") /\
  exists title_col titles,
    getitem red_shirts "Title" = Ok title_col /\
    selected_titles_of red_shirts = Ok titles /\
    NoDup titles /\
    forall v, In v titles <-> In v title_col /\ v <> NaN.
Proof.
  split.
  - apply (selected_titles_are_distinct_values handles_only). reflexivity.
  - apply (selected_titles_are_distinct_values red_shirts). reflexivity.
Defined.

(** ** Special characters *)

Section SpecialCharacterFacts.

Variable unicode_word_or_space : ascii -> bool.

Let flagged := contains_special_characters unicode_word_or_space.

Lemma find_titles_spec (df : DataFrame) (column : string) :
  exists found,
    find_titles_with_special_chars unicode_word_or_space df column = Ok found /\
    NoDup found /\
    (forall v, In v found <->
               v <> NaN /\ flagged v = true /\
               exists col, getitem df column = Ok col /\ In v col) /\
    (has_column column df = false -> found = []).
Proof.
  unfold find_titles_with_special_chars.
  destruct (has_column column df) eqn:Hcol; simpl.
  - destruct (getitem_present _ _ Hcol) as (i & _ & Hget).
    rewrite Hget. simpl. eexists. split; [reflexivity |].
    split; [apply NoDup_filter, unique_from_NoDup |].
    split; [| discriminate].
    intros v. rewrite filter_In, title_values_In. split.
    + intros [[Hin Hna] Hflag]. repeat split; try assumption.
      eexists. split; [reflexivity | exact Hin].
    + intros (Hna & Hflag & col & Hc & Hin).
      injection Hc as <-. tauto.
  - exists []. split; [reflexivity |]. split; [constructor |].
    split; [| reflexivity].
    intros v. split; [contradiction |].
    intros (_ & _ & col & Hc & _).
    rewrite (getitem_absent _ _ Hcol) in Hc. discriminate Hc.
Qed.

(** X17: [find_titles_with_special_chars] never raises, also for a column
    the table does not have, for which it returns nothing; it returns each
    value of the column that is not missing and is flagged by
    [contains_special_characters], once. *)
Theorem flagged_titles_of_a_column :
  forall (df : DataFrame) (column : string),
    exists found,
      find_titles_with_special_chars unicode_word_or_space df column
      = Ok found /\
      NoDup found /\
      (forall v, In v found <->
                 v <> NaN /\
                 contains_special_characters unicode_word_or_space v = true /\
                 exists col, getitem df column = Ok col /\ In v col) /\
      (has_column column df = false -> found = []).
Proof.
  intros df column.
  destruct (find_titles_spec df column) as (found & Hrun & Hnd & Hin & Hnone).
  exists found. split; [exact Hrun |]. split; [exact Hnd |].
  split; [exact Hin | exact Hnone].
Qed.

Lemma plain_decimal (d : Decimal.uint) :
  existsb (special_character unicode_word_or_space)
          (list_ascii_of_string (NilEmpty.string_of_uint d)) = false.
Proof. induction d; simpl; try reflexivity; exact IHd. Qed.

(** X18: a number is never flagged: its text has only digits and, when it
    is negative, a leading hyphen. *)
Theorem numbers_are_never_flagged :
  forall (z : Z),
    contains_special_characters unicode_word_or_space (Num z) = false.
Proof.
  intros z. unfold contains_special_characters, astype_str.
  destruct (Z.to_int z) as [d | d]; unfold NilZero.string_of_int.
  - unfold NilZero.string_of_uint.
    destruct d; try reflexivity; apply (plain_decimal (_ d)).
  - cbn [list_ascii_of_string existsb].
    replace (special_character unicode_word_or_space "-"%char) with false
      by reflexivity.
    cbn [orb]. unfold NilZero.string_of_uint.
    destruct d; try reflexivity; apply (plain_decimal (_ d)).
Qed.

(** X19: a text is flagged exactly when one of two parts it is made of is
    flagged; joining texts that are not flagged never gives a flagged
    text. *)
Theorem flagged_text_has_a_flagged_part :
  forall (a b : string),
    contains_special_characters unicode_word_or_space (Str (a ++ b)) =
    contains_special_characters unicode_word_or_space (Str a) ||
    contains_special_characters unicode_word_or_space (Str b).
Proof.
  intros a b. unfold contains_special_characters, astype_str.
  assert (Happ : list_ascii_of_string (a ++ b) =
                 (list_ascii_of_string a ++ list_ascii_of_string b)%list).
  { induction a as [| c a IH]; simpl; [reflexivity | now rewrite IH]. }
  rewrite Happ. apply existsb_app.
Qed.

(** X20: the report of special characters never raises, also when a table
    has no Title column; it lists the flagged titles of the product file
    before those of the inventory file, and it is empty exactly when no
    Title value of either table is flagged. *)
Theorem special_titles_report :
  forall (product_df inventory_df : DataFrame),
    exists from_product from_inventory,
      find_titles_with_special_chars unicode_word_or_space product_df "Title"
      = Ok from_product /\
      find_titles_with_special_chars unicode_word_or_space inventory_df "Title"
      = Ok from_inventory /\
      special_titles unicode_word_or_space product_df inventory_df =
      Ok (from_product ++ from_inventory) /\
      (from_product ++ from_inventory = [] <->
       forall df col v,
         df = product_df \/ df = inventory_df ->
         getitem df "Title" = Ok col -> In v col -> v <> NaN ->
         contains_special_characters unicode_word_or_space v = false).
Proof.
  intros product_df inventory_df.
  destruct (find_titles_spec product_df "Title")
    as (fp & Hp & _ & Hinp & _).
  destruct (find_titles_spec inventory_df "Title")
    as (fi & Hi & _ & Hini & _).
  exists fp, fi. split; [exact Hp |]. split; [exact Hi |].
  split; [unfold special_titles; rewrite Hp, Hi; reflexivity |].
  split.
  - intros Hnil df col v Hdf Hcol Hv Hna.
    apply app_eq_nil in Hnil as [-> ->].
    apply not_true_is_false. intros Hflag.
    destruct Hdf as [-> | ->].
    + apply (proj2 (Hinp v)). eauto.
    + apply (proj2 (Hini v)). eauto.
  - intros Hclean.
    assert (Hfp : fp = []).
    { destruct fp as [| v l]; [reflexivity |].
      destruct (proj1 (Hinp v) (or_introl eq_refl))
        as (Hna & Hflag & col & Hcol & Hin).
      unfold flagged in Hflag.
      rewrite (Hclean product_df col v (or_introl eq_refl) Hcol Hin Hna)
        in Hflag. discriminate Hflag. }
    assert (Hfi : fi = []).
    { destruct fi as [| v l]; [reflexivity |].
      destruct (proj1 (Hini v) (or_introl eq_refl))
        as (Hna & Hflag & col & Hcol & Hin).
      unfold flagged in Hflag.
      rewrite (Hclean inventory_df col v (or_intror eq_refl) Hcol Hin Hna)
        in Hflag. discriminate Hflag. }
    now rewrite Hfp, Hfi.
Qed.

End SpecialCharacterFacts.

Lemma flagged_titles_of_a_column_witness :
  find_titles_with_special_chars (fun _ => true) handles_only "Title" = Ok [].
Proof.
  destruct (flagged_titles_of_a_column (fun _ => true) handles_only "Title")
    as (found & Hrun & _ & _ & Hnone).
  rewrite (Hnone eq_refl) in Hrun. exact Hrun.
Defined.

Lemma special_titles_report_witness :
  special_titles (fun _ => true) products red_shirts = Ok [].
Proof.
  destruct (special_titles_report (fun _ => true) products red_shirts)
    as (fp & fi & Hp & Hi & Hrun & Hnil).
  rewrite Hrun. f_equal. apply Hnil.
  intros df col v [-> | ->] Hcol Hv _;
    vm_compute in Hcol; injection Hcol as <-;
    simpl in Hv; intuition (subst; reflexivity).
Defined.

(** ** Reading the uploaded files *)

Section LoaderFacts.

Variable read_csv : string -> string -> option DataFrame.

Lemma first_read_spec (file_content : string) (encs : list string) :
  match first_read read_csv file_content encs with
  | Some df =>
      exists before enc after,
        encs = before ++ enc :: after /\
        (forall e, In e before -> read_csv file_content e = None) /\
        read_csv file_content enc = Some df
  | None => forall e, In e encs -> read_csv file_content e = None
  end.
Proof.
  induction encs as [| enc encs IH]; simpl.
  - intros e [].
  - destruct (read_csv file_content enc) as [df |] eqn:E.
    + exists [], enc, encs. split; [reflexivity |].
      split; [intros e [] | exact E].
    + destruct (first_read read_csv file_content encs) as [df |].
      * destruct IH as (before & enc' & after & -> & Hb & He).
        exists (enc :: before), enc', after. split; [reflexivity |].
        split; [| exact He].
        intros e [<- | Hin]; [exact E | now apply Hb].
      * intros e [<- | Hin]; [exact E | now apply IH].
Qed.

(** X21: [read_csv_with_fallback] returns the table read under the first
    of the encodings utf-8-sig, ISO-8859-1 and windows-1252, in this order,
    under which the file can be read, without a warning; when the file can
    be read under none of them it returns [None] and warns once, naming
    the file. *)
Theorem fallback_takes_the_first_encoding :
  forall (uploaded_file : UploadedFile),
    (forall df,
        fst (read_csv_with_fallback read_csv uploaded_file) = Some df ->
        snd (read_csv_with_fallback read_csv uploaded_file) = [] /\
        exists before enc after,
          ["utf-8-sig"; "ISO-8859-1"; "windows-1252"] =
          before ++ enc :: after /\
          (forall e, In e before ->
                     read_csv (content uploaded_file) e = None) /\
          read_csv (content uploaded_file) enc = Some df) /\
    (fst (read_csv_with_fallback read_csv uploaded_file) = None <->
     forall e, In e ["utf-8-sig"; "ISO-8859-1"; "windows-1252"] ->
               read_csv (content uploaded_file) e = None) /\
    (fst (read_csv_with_fallback read_csv uploaded_file) = None ->
     snd (read_csv_with_fallback read_csv uploaded_file) =
     [("Could not read " ++ name uploaded_file
         ++ " with common encodings.")%string]).
Proof.
  intros uploaded_file. unfold read_csv_with_fallback.
  pose proof (first_read_spec (content uploaded_file) encodings) as Hspec.
  destruct (first_read read_csv (content uploaded_file) encodings)
    as [df |] eqn:E; simpl.
  - split; [| split].
    + intros df' Hdf. injection Hdf as <-. split; [reflexivity | exact Hspec].
    + split; [discriminate |].
      intros Hnone. destruct Hspec as (before & enc & after & Henc & _ & Hread).
      assert (Hin : In enc encodings).
      { rewrite Henc. apply in_or_app. right. now left. }
      rewrite (Hnone enc Hin) in Hread. discriminate Hread.
    + discriminate.
  - split; [| split].
    + discriminate.
    + split; [intros _; exact Hspec | reflexivity].
    + reflexivity.
Qed.

Lemma all_read_spec (reads : list (option DataFrame)) :
  match all_read reads with
  | Some dfs => reads = map Some dfs
  | None => In None reads
  end.
Proof.
  induction reads as [| [df |] reads IH]; simpl.
  - reflexivity.
  - destruct (all_read reads) as [dfs |]; simpl.
    + now rewrite IH.
    + now right.
  - now left.
Qed.

Lemma merge_tables_total (first : DataFrame) (others : list DataFrame) :
  exists merged, merge_tables first others = Ok merged.
Proof.
  unfold merge_tables. destruct others as [| o others].
  - now exists first.
  - apply concat_nonempty. discriminate.
Qed.

(** X22: the file upload section never raises and is all or nothing.  Once
    product files, inventory files and a selected products file are
    uploaded, it yields the three tables exactly when every one of the
    files can be read, and the error message when one of them cannot; as
    long as a kind of file is missing it only asks for the files. *)
Theorem upload_is_all_or_nothing :
  forall (product_files inventory_files : list UploadedFile)
         (selected_file : option UploadedFile),
    (exists outcome,
        load_tables read_csv product_files inventory_files selected_file
        = Ok outcome) /\
    (product_files = [] \/ inventory_files = [] \/ selected_file = None ->
     load_tables read_csv product_files inventory_files selected_file =
     Ok (Waiting "Please upload all required files to begin.")) /\
    (forall selected,
        product_files <> [] -> inventory_files <> [] ->
        selected_file = Some selected ->
        let readable f := fst (read_csv_with_fallback read_csv f) <> None in
        ((forall f, In f (product_files ++ inventory_files ++ [selected]) ->
                    readable f) ->
         exists product_df inventory_df selected_df,
           load_tables read_csv product_files inventory_files selected_file =
           Ok (Loaded product_df inventory_df selected_df) /\
           fst (read_csv_with_fallback read_csv selected) = Some selected_df) /\
        ((exists f, In f (product_files ++ inventory_files ++ [selected]) /\
                    ~ readable f) ->
         load_tables read_csv product_files inventory_files selected_file =
         Ok (ReadError "Error reading files. Please check formatting."))).
Proof.
  intros product_files inventory_files selected_file.
  set (read := fun f => fst (read_csv_with_fallback read_csv f)).
  assert (Hlists : forall files : list UploadedFile,
             files <> [] ->
             match all_read (map read files) with
             | Some [] => False
             | Some (_ :: _) => forall f, In f files -> read f <> None
             | None => exists f, In f files /\ read f = None
             end).
  { intros files Hne.
    pose proof (all_read_spec (map read files)) as Hspec.
    destruct (all_read (map read files)) as [[| d dfs] |].
    - destruct files; [congruence | discriminate Hspec].
    - intros f Hf Hnone.
      apply (in_map read) in Hf. rewrite Hspec, Hnone in Hf.
      apply in_map_iff in Hf as (x & Hx & _). discriminate Hx.
    - apply in_map_iff in Hspec as (f & Hf & Hin). now exists f. }
  split; [| split].
  - unfold load_tables.
    destruct product_files as [| pf pfs]; [eexists; reflexivity |].
    destruct inventory_files as [| nf nfs]; [eexists; reflexivity |].
    destruct selected_file as [sf |]; [| eexists; reflexivity].
    fold read.
    change (fst (read_csv_with_fallback read_csv sf)) with (read sf).
    destruct (all_read (map read (pf :: pfs))) as [[| p ps] |];
      try (eexists; reflexivity).
    destruct (all_read (map read (nf :: nfs))) as [[| i others] |];
      try (eexists; reflexivity).
    destruct (read sf) as [s |]; [| eexists; reflexivity].
    destruct (merge_tables_total p ps) as (mp & ->).
    destruct (merge_tables_total i others) as (mi & ->).
    eexists. reflexivity.
  - intros [-> | [-> | ->]]; unfold load_tables.
    + reflexivity.
    + destruct product_files; reflexivity.
    + destruct product_files; [reflexivity |].
      destruct inventory_files; reflexivity.
  - intros selected Hp Hi -> readable.
    pose proof (Hlists product_files Hp) as HP.
    pose proof (Hlists inventory_files Hi) as HI.
    unfold load_tables.
    destruct product_files as [| pf pfs]; [congruence |].
    destruct inventory_files as [| nf nfs]; [congruence |].
    fold read. unfold readable.
    change (fst (read_csv_with_fallback read_csv selected))
      with (read selected).
    change (fun f => fst (read_csv_with_fallback read_csv f)) with read.
    set (pfiles := pf :: pfs) in *. set (nfiles := nf :: nfs) in *.
    split.
    + intros Hall.
      destruct (all_read (map read pfiles)) as [[| p ps] |];
        [contradiction | |].
      2:{ destruct HP as (f & Hf & Hnone).
          exfalso. apply (Hall f); [| exact Hnone].
          apply in_or_app. now left. }
      destruct (all_read (map read nfiles)) as [[| i others] |];
        [contradiction | |].
      2:{ destruct HI as (f & Hf & Hnone).
          exfalso. apply (Hall f); [| exact Hnone].
          apply in_or_app. right. apply in_or_app. now left. }
      destruct (read selected) as [s |] eqn:Es.
      2:{ exfalso. apply (Hall selected); [| exact Es].
          apply in_or_app. right. apply in_or_app. right. now left. }
      destruct (merge_tables_total p ps) as (mp & ->).
      destruct (merge_tables_total i others) as (mi & ->).
      exists mp, mi, s. split; reflexivity.
    + intros (f & Hf & Hbad).
      assert (Hnone : read f = None).
      { destruct (read f) eqn:E; [| reflexivity].
        exfalso. apply Hbad. change (read f <> None). rewrite E. discriminate. }
      apply in_app_or in Hf as [Hf | Hf].
      * destruct (all_read (map read pfiles)) as [[| p ps] |];
          [contradiction | | reflexivity].
        exfalso. now apply (HP f).
      * apply in_app_or in Hf as [Hf | [<- | []]].
        -- destruct (all_read (map read pfiles)) as [[| p ps] |];
             try reflexivity.
           destruct (all_read (map read nfiles)) as [[| i others] |];
             [contradiction | | reflexivity].
           exfalso. now apply (HI f).
        -- rewrite Hnone.
           destruct (all_read (map read pfiles)) as [[| p ps] |];
             try reflexivity.
           destruct (all_read (map read nfiles)) as [[| i others] |];
             reflexivity.
Qed.

End LoaderFacts.

(** X23: merging the tables of one kind never raises; for files that are
    well formed and have the same columns, the merged table has these
    columns and the rows of the files in the order of the upload, and this
    also holds for a single file, which is taken as it is. *)
Theorem merged_tables_keep_upload_order :
  forall (first : DataFrame) (others : list DataFrame),
    (exists merged, merge_tables first others = Ok merged) /\
    (forall cols,
        Forall (fun df => columns df = cols /\ well_formed df)
               (first :: others) ->
        merge_tables first others =
        Ok {| columns := cols; rows := flat_map rows (first :: others) |}) /\
    merge_tables first [] = Ok first.
Proof.
  intros first others.
  split; [apply merge_tables_total |].
  split; [| reflexivity].
  intros cols Hall. unfold merge_tables.
  destruct others as [| o others].
  - inversion Hall as [| ? ? [Hc _] _]; subst.
    simpl. rewrite app_nil_r. now destruct first.
  - apply concat_same_columns; [discriminate | exact Hall].
Qed.

Lemma fallback_takes_the_first_encoding_witness :
  snd (read_csv_with_fallback sample_reader titles_file) = [] /\
  snd (read_csv_with_fallback sample_reader empty_file) =
  ["Could not read empty.csv with common encodings."].
Proof.
  split.
  - apply (proj1 (fallback_takes_the_first_encoding sample_reader titles_file)
                 titles_only).
    reflexivity.
  - apply (proj2 (proj2 (fallback_takes_the_first_encoding
                           sample_reader empty_file))).
    reflexivity.
Defined.

Lemma upload_is_all_or_nothing_witness :
  load_tables sample_reader [titles_file] [] (Some titles_file) =
  Ok (Waiting "Please upload all required files to begin.") /\
  load_tables sample_reader [titles_file] [titles_file; empty_file]
              (Some titles_file) =
  Ok (ReadError "Error reading files. Please check formatting.") /\
  exists product_df inventory_df selected_df,
    load_tables sample_reader [titles_file] [titles_file; titles_file]
                (Some titles_file) =
    Ok (Loaded product_df inventory_df selected_df) /\
    fst (read_csv_with_fallback sample_reader titles_file) = Some selected_df.
Proof.
  split; [| split].
  - apply (upload_is_all_or_nothing sample_reader
             [titles_file] [] (Some titles_file)).
    right. left. reflexivity.
  - apply (proj2 (proj2 (upload_is_all_or_nothing sample_reader
                           [titles_file] [titles_file; empty_file]
                           (Some titles_file)))
                 titles_file);
      try discriminate; try reflexivity.
    exists empty_file. split.
    + simpl. tauto.
    + intros H. apply H. reflexivity.
  - apply (proj2 (proj2 (upload_is_all_or_nothing sample_reader
                           [titles_file] [titles_file; titles_file]
                           (Some titles_file)))
                 titles_file);
      try discriminate; try reflexivity.
    intros f Hf. simpl in Hf.
    assert (Hf' : f = titles_file) by intuition.
    subst f. discriminate.
Defined.

Lemma merged_tables_keep_upload_order_witness :
  merge_tables titles_only [titles_only] =
  Ok {| columns := ["Title"];
        rows := flat_map rows [titles_only; titles_only] |}.
Proof.
  apply (merged_tables_keep_upload_order titles_only [titles_only]).
  repeat constructor; simpl; intuition discriminate.
Defined.

(** ** Calls with any selected value and any threshold *)

Lemma cutoff_in_range_Z (threshold : Z) :
  cutoff_in_range (inject_Z threshold) = true <-> (0 <= threshold <= 100)%Z.
Proof.
  unfold cutoff_in_range. rewrite andb_true_iff, !Qle_bool_iff.
  unfold Qle. simpl. lia.
Qed.

Lemma cutoff_out_of_range_Z (threshold : Z) :
  cutoff_in_range (inject_Z threshold) = false <->
  ~ (0 <= threshold <= 100)%Z.
Proof.
  rewrite <- cutoff_in_range_Z.
  destruct (cutoff_in_range (inject_Z threshold)); split; intros H;
    try reflexivity; try discriminate; try congruence.
Qed.

Lemma fuzzy_match_title_call_text inventory_df titles threshold st s :
  (0 <= threshold <= 100)%Z ->
  fuzzy_match_title_call inventory_df titles threshold st (Text s) =
  fuzzy_match_title inventory_df titles threshold st s.
Proof.
  intros H. apply cutoff_in_range_Z in H.
  unfold fuzzy_match_title_call, extract_call. now rewrite H.
Qed.

Lemma fuzzy_match_title_call_number inventory_df titles threshold st z :
  fuzzy_match_title_call inventory_df titles threshold st (Number z) =
  Raise TypeError.
Proof. reflexivity. Qed.

Lemma fuzzy_match_title_call_out_of_range inventory_df titles threshold st v :
  ~ (0 <= threshold <= 100)%Z ->
  fuzzy_match_title_call inventory_df titles threshold st v = Raise TypeError.
Proof.
  intros H. apply cutoff_out_of_range_Z in H.
  unfold fuzzy_match_title_call, extract_call.
  destruct v; [now rewrite H | reflexivity].
Qed.

Lemma texts_of_texts (selected : list string) :
  texts_of (map Text selected) = selected.
Proof. induction selected as [| s l IH]; simpl; congruence. Qed.

Lemma no_number_texts (selected : list title_value) :
  existsb is_number selected = false ->
  selected = map Text (texts_of selected).
Proof.
  induction selected as [| [s | z] l IH]; simpl; intros H.
  - reflexivity.
  - f_equal. now apply IH.
  - discriminate H.
Qed.

Lemma number_among (selected : list title_value) :
  existsb is_number selected = true <-> exists z, In (Number z) selected.
Proof.
  rewrite existsb_exists. split.
  - intros ([s | z] & Hin & Hn); [discriminate Hn | now exists z].
  - intros (z & Hin). now exists (Number z).
Qed.

(** The loop on valid thresholds: the first number ends it. *)
Lemma call_loop inventory_df titles threshold selected st :
  has_column "Title" inventory_df = true ->
  (0 <= threshold <= 100)%Z ->
  for_each (fuzzy_match_title_call inventory_df titles threshold) selected st =
  if existsb is_number selected then Raise TypeError
  else for_each (fuzzy_match_title inventory_df titles threshold)
                (texts_of selected) st.
Proof.
  intros Hcol Hth. revert st.
  induction selected as [| [s | z] l IH]; intros st.
  - reflexivity.
  - cbn [for_each existsb is_number orb texts_of flat_map app].
    rewrite (fuzzy_match_title_call_text _ _ _ _ _ Hth).
    destruct (fuzzy_match_title_total inventory_df titles threshold st s Hcol)
      as (st' & ->).
    cbn [bind]. apply IH.
  - reflexivity.
Qed.

Lemma fuzzy_match_titles_call_valid selected inventory_df threshold :
  has_column "Title" inventory_df = true ->
  (0 <= threshold <= 100)%Z ->
  fuzzy_match_titles_call selected inventory_df threshold =
  if existsb is_number selected then Raise TypeError
  else fuzzy_match_titles (texts_of selected) inventory_df threshold.
Proof.
  intros Hcol Hth.
  destruct (getitem_present _ _ Hcol) as (i & _ & Hget).
  unfold fuzzy_match_titles_call, fuzzy_match_titles. rewrite Hget.
  cbn [bind]. now apply call_loop.
Qed.

Lemma fuzzy_match_titles_total selected inventory_df threshold :
  has_column "Title" inventory_df = true ->
  exists matched unmatched conflicts,
    fuzzy_match_titles selected inventory_df threshold =
    Ok (matched, unmatched, conflicts).
Proof.
  intros Hcol. destruct (getitem_present _ _ Hcol) as (i & Hi & _).
  rewrite (fuzzy_match_titles_closed_form _ _ _ i Hi).
  do 3 eexists. reflexivity.
Qed.

(** C3: the matcher returns its three outputs for valid inputs, that is
    for selected titles that are texts, a threshold from 0 to 100 and an
    inventory with a Title column.  On an inventory without a Title column
    it raises [KeyError] for "Title" to its caller, whatever the other
    arguments, and matches nothing.  The only other exception is
    [TypeError], raised exactly for the inputs that are not valid: a
    selected value that is a number, or a threshold out of range with
    at least one selected title. *)
Theorem matcher_raises_only_on_invalid_input :
  forall (selected : list title_value) (inventory_df : DataFrame)
         (threshold : Z),
    (has_column "Title" inventory_df = false ->
     fuzzy_match_titles_call selected inventory_df threshold =
     Raise (KeyError "Title")) /\
    (has_column "Title" inventory_df = true ->
     ((0 <= threshold <= 100)%Z ->
      (forall v, In v selected -> exists s, v = Text s) ->
      exists matched unmatched conflicts,
        fuzzy_match_titles_call selected inventory_df threshold =
        Ok (matched, unmatched, conflicts) /\
        fuzzy_match_titles (texts_of selected) inventory_df threshold =
        Ok (matched, unmatched, conflicts)) /\
     (fuzzy_match_titles_call selected inventory_df threshold =
      Raise TypeError <->
      (selected <> [] /\ ~ (0 <= threshold <= 100)%Z) \/
      (exists z, In (Number z) selected)) /\
     (forall e,
         fuzzy_match_titles_call selected inventory_df threshold = Raise e ->
         e = TypeError)).
Proof.
  intros selected inventory_df threshold. split; intros Hcol.
  - unfold fuzzy_match_titles_call.
    now rewrite (getitem_absent _ _ Hcol).
  - assert (Hrange : (0 <= threshold <= 100)%Z \/ ~ (0 <= threshold <= 100)%Z)
      by lia.
    assert (Hout : ~ (0 <= threshold <= 100)%Z -> selected <> [] ->
                   fuzzy_match_titles_call selected inventory_df threshold =
                   Raise TypeError).
    { intros Hth Hne.
      destruct (getitem_present _ _ Hcol) as (i & _ & Hget).
      unfold fuzzy_match_titles_call. rewrite Hget. cbn [bind].
      destruct selected as [| v l]; [congruence |].
      cbn [for_each].
      now rewrite (fuzzy_match_title_call_out_of_range _ _ _ _ _ Hth). }
    assert (Hempty : selected = [] ->
                     fuzzy_match_titles_call selected inventory_df threshold =
                     Ok ([], [], [])).
    { intros ->. destruct (getitem_present _ _ Hcol) as (i & _ & Hget).
      unfold fuzzy_match_titles_call. now rewrite Hget. }
    split; [| split].
    + intros Hth Htexts.
      rewrite (fuzzy_match_titles_call_valid _ _ _ Hcol Hth).
      destruct (existsb is_number selected) eqn:E.
      * apply number_among in E as (z & Hz).
        destruct (Htexts _ Hz) as (s & Hs). discriminate Hs.
      * destruct (fuzzy_match_titles_total (texts_of selected) inventory_df
                    threshold Hcol) as (m & u & c & Hrun).
        exists m, u, c. split; exact Hrun.
    + destruct Hrange as [Hth | Hth].
      * rewrite (fuzzy_match_titles_call_valid _ _ _ Hcol Hth).
        destruct (existsb is_number selected) eqn:E.
        -- split; [| reflexivity]. intros _. right. now apply number_among.
        -- destruct (fuzzy_match_titles_total (texts_of selected) inventory_df
                       threshold Hcol) as (m & u & c & ->).
           split; [discriminate |].
           intros [[_ Hbad] | Hnum]; [contradiction |].
           apply number_among in Hnum. congruence.
      * destruct selected as [| v l].
        -- rewrite (Hempty eq_refl). split; [discriminate |].
           intros [[Hne _] | (z & [])]. congruence.
        -- rewrite (Hout Hth ltac:(discriminate)).
           split; [| reflexivity]. intros _. left.
           split; [discriminate | exact Hth].
    + intros e He. destruct Hrange as [Hth | Hth].
      * rewrite (fuzzy_match_titles_call_valid _ _ _ Hcol Hth) in He.
        destruct (existsb is_number selected); [congruence |].
        destruct (fuzzy_match_titles_total (texts_of selected) inventory_df
                    threshold Hcol) as (m & u & c & Hrun).
        rewrite Hrun in He. discriminate He.
      * destruct selected as [| v l].
        -- rewrite (Hempty eq_refl) in He. discriminate He.
        -- rewrite (Hout Hth ltac:(discriminate)) in He. congruence.
Qed.

Lemma matcher_raises_only_on_invalid_input_witness :
  fuzzy_match_titles_call [Text "Red Shirt"; Text "Blue Hat"] handles_only 95 =
  Raise (KeyError "Title") /\
  (exists matched unmatched conflicts,
      fuzzy_match_titles_call [Text "Red Shirt"; Text "Blue Hat"] red_shirts 95 =
      Ok (matched, unmatched, conflicts) /\
      fuzzy_match_titles ["Red Shirt"; "Blue Hat"] red_shirts 95 =
      Ok (matched, unmatched, conflicts)) /\
  fuzzy_match_titles_call [Text "Red Shirt"] red_shirts 101 = Raise TypeError /\
  fuzzy_match_titles_call [Text "Red Shirt"; Number 12] red_shirts 95 =
  Raise TypeError.
Proof.
  split; [| split; [| split]].
  - apply (matcher_raises_only_on_invalid_input
             [Text "Red Shirt"; Text "Blue Hat"] handles_only 95).
    reflexivity.
  - apply (proj2 (matcher_raises_only_on_invalid_input
                    [Text "Red Shirt"; Text "Blue Hat"] red_shirts 95)
                 eq_refl).
    + lia.
    + intros v [<- | [<- | []]]; eexists; reflexivity.
  - apply (proj2 (matcher_raises_only_on_invalid_input
                    [Text "Red Shirt"] red_shirts 101) eq_refl).
    left. split; [discriminate | lia].
  - apply (proj2 (matcher_raises_only_on_invalid_input
                    [Text "Red Shirt"; Number 12] red_shirts 95) eq_refl).
    right. exists 12%Z. simpl. tauto.
Defined.

Lemma no_number_among_texts (selected : list string) :
  existsb is_number (map Text selected) = false.
Proof. induction selected as [| s l IH]; [reflexivity | exact IH]. Qed.

Lemma fuzzy_match_titles_call_texts selected inventory_df threshold :
  has_column "Title" inventory_df = true ->
  (0 <= threshold <= 100)%Z ->
  fuzzy_match_titles_call (map Text selected) inventory_df threshold =
  fuzzy_match_titles selected inventory_df threshold.
Proof.
  intros Hcol Hth.
  rewrite (fuzzy_match_titles_call_valid _ _ _ Hcol Hth).
  now rewrite no_number_among_texts, texts_of_texts.
Qed.

Lemma call_Ok_column selected inventory_df threshold st :
  fuzzy_match_titles_call selected inventory_df threshold = Ok st ->
  has_column "Title" inventory_df = true.
Proof.
  intros H. destruct (has_column "Title" inventory_df) eqn:E; [reflexivity |].
  unfold fuzzy_match_titles_call in H.
  rewrite (getitem_absent _ _ E) in H. discriminate H.
Qed.

(** X6: on an inventory with a Title column and no rows, every selected
    title is returned unmatched for each threshold from 0 to 100: the
    unmatched titles are the selection itself, and there is no matched row
    set and no conflict. *)
Theorem empty_inventory_matches_nothing :
  forall (selected : list string) (inventory_df : DataFrame) (threshold : Z),
    has_column "Title" inventory_df = true ->
    rows inventory_df = [] ->
    (0 <= threshold <= 100)%Z ->
    fuzzy_match_titles_call (map Text selected) inventory_df threshold =
    Ok ([], selected, []).
Proof.
  intros selected inventory_df threshold Hcol Hrows Hth.
  rewrite (fuzzy_match_titles_call_texts _ _ _ Hcol Hth).
  destruct (getitem_present _ _ Hcol) as (i & Hi & _).
  rewrite (fuzzy_match_titles_closed_form _ _ _ i Hi). cbv zeta.
  assert (Hnone : forall t,
             hit_count threshold (inventory_titles_at i inventory_df) t = 0).
  { intros t. unfold hit_count, scoring, inventory_titles_at.
    now rewrite Hrows. }
  unfold with_one_hit, without_hit, with_several_hits.
  rewrite (filter_none (fun t => _ =? 1)), (filter_all (fun t => _ =? 0)),
    (filter_none (fun t => 2 <=? _));
    try (intros t; now rewrite Hnone).
  reflexivity.
Qed.

Lemma empty_inventory_matches_nothing_witness :
  fuzzy_match_titles_call
    (map Text ["Red Shirt"; "Red Shirt"])
    {| columns := ["Handle"; "Title"]; rows := [] |} 95 =
  Ok ([], ["Red Shirt"; "Red Shirt"], []).
Proof.
  apply empty_inventory_matches_nothing; [reflexivity | reflexivity | lia].
Defined.

(** X7: for the threshold 0 every inventory row is a hit for every title;
    on an inventory with two or more rows no selected title is then
    unmatched or uniquely matched, and each selected title has an entry of
    the conflict map with as many candidates as there are rows, up to
    five. *)
Theorem zero_threshold_makes_every_title_ambiguous :
  forall (selected : list string) (inventory_df : DataFrame)
         (matched : list DataFrame) (unmatched : list string) (conflicts : dict),
    fuzzy_match_titles_call (map Text selected) inventory_df 0 =
    Ok (matched, unmatched, conflicts) ->
    2 <= List.length (rows inventory_df) ->
    matched = [] /\ unmatched = [] /\
    forall t, In t selected ->
              exists cands,
                dict_get t conflicts = Some cands /\
                List.length cands =
                Nat.min 5 (List.length (rows inventory_df)).
Proof.
  intros selected inventory_df matched unmatched conflicts Hcall Hrows.
  pose proof (call_Ok_column _ _ _ _ Hcall) as Hcol.
  assert (Hth : (0 <= 0 <= 100)%Z) by lia.
  rewrite (fuzzy_match_titles_call_texts _ _ _ Hcol Hth) in Hcall.
  destruct (fuzzy_match_titles_outputs _ _ _ _ _ _ Hcall)
    as (i & Hi & Hm & Hu & _).
  cbv zeta in Hm, Hu.
  set (titles := inventory_titles_at i inventory_df) in *.
  assert (Hall : forall t, scoring 0 t titles = titles).
  { intros t. unfold scoring. apply filter_all.
    intros c. apply reaches_below_0. lia. }
  assert (Hlen : List.length titles = List.length (rows inventory_df)).
  { unfold titles, inventory_titles_at. now rewrite !length_map. }
  assert (Hcount : forall t, hit_count 0 titles t =
                             List.length (rows inventory_df)).
  { intros t. unfold hit_count. now rewrite Hall. }
  split; [| split].
  - rewrite Hm. unfold with_one_hit. rewrite filter_none; [reflexivity |].
    intros t. rewrite Hcount. apply Nat.eqb_neq. lia.
  - rewrite Hu. unfold without_hit. apply filter_none.
    intros t. rewrite Hcount. apply Nat.eqb_neq. lia.
  - intros t Ht. exists (candidates_of 0 titles t). split.
    + apply (ambiguous_title_lookup _ _ _ _ _ _ _ _ Hcall Hi Ht).
      fold titles. rewrite Hcount. exact Hrows.
    + unfold candidates_of. rewrite length_map, matches_of_length.
      now rewrite Hall, Hlen.
Qed.

Lemma zero_threshold_makes_every_title_ambiguous_witness :
  exists cands,
    dict_get "Green Scarf"
             [("Green Scarf", ["Blue Hat"; "Blue Hatt"])] = Some cands /\
    List.length cands = Nat.min 5 (List.length (rows blue_hats)).
Proof.
  refine (proj2 (proj2 (zero_threshold_makes_every_title_ambiguous
                          ["Green Scarf"] blue_hats
                          [] [] [("Green Scarf", ["Blue Hat"; "Blue Hatt"])]
                          _ _)) "Green Scarf" _).
  - vm_compute. reflexivity.
  - simpl. lia.
  - simpl. now left.
Defined.

(** ** Step 2 from the selected products file *)

Lemma filtered_inventory_by_matches pick selected inventory_df :
  has_column "Title" inventory_df = true ->
  exists matched unmatched conflicts,
    fuzzy_match_titles selected inventory_df default_threshold =
    Ok (matched, unmatched, conflicts) /\
    (matched = [] /\ chosen pick conflicts = [] ->
     filtered_inventory pick selected inventory_df =
     Raise (ValueError "No objects to concatenate")) /\
    (matched <> [] \/ chosen pick conflicts <> [] ->
     exists filtered,
       filtered_inventory pick selected inventory_df = Ok filtered).
Proof.
  intros Hcol.
  destruct (fuzzy_match_titles_total selected inventory_df default_threshold
              Hcol) as (matched & unmatched & conflicts & Hmatch).
  destruct (resolve_conflicts_total pick conflicts inventory_df Hcol)
    as (i & _ & Hresolve).
  exists matched, unmatched, conflicts. split; [exact Hmatch |].
  unfold filtered_inventory. rewrite Hmatch. cbn [bind].
  rewrite Hresolve. cbn [bind].
  split.
  - intros [-> ->]. reflexivity.
  - intros Hsome. apply build_filtered_inventory_nonempty.
    intros E. apply app_eq_nil in E as [E1 E2].
    apply map_eq_nil in E2. tauto.
Qed.

Lemma number_among_values (values : list cell) :
  existsb is_number (title_values values) = true <->
  exists z, In (Num z) values.
Proof.
  rewrite number_among. unfold title_values. split.
  - intros (z & Hz). apply in_flat_map in Hz as ([| s | z'] & Hin & Hc);
      simpl in Hc; try tauto.
    + destruct Hc as [Hc | []]. discriminate Hc.
    + destruct Hc as [Hc | []]. injection Hc as ->. now exists z.
  - intros (z & Hz). exists z. apply in_flat_map.
    exists (Num z). split; [exact Hz | now left].
Qed.

Lemma filtered_inventory_from_file_valid pick selected_df inventory_df values :
  selected_titles_of selected_df = Ok values ->
  has_column "Title" inventory_df = true ->
  filtered_inventory_from_file pick selected_df inventory_df =
  if existsb is_number (title_values values) then Raise TypeError
  else filtered_inventory pick (texts_of (title_values values)) inventory_df.
Proof.
  intros Hvalues Hcol.
  unfold filtered_inventory_from_file. rewrite Hvalues. cbn [bind].
  assert (Hth : (0 <= default_threshold <= 100)%Z)
    by (unfold default_threshold; lia).
  rewrite (fuzzy_match_titles_call_valid _ _ _ Hcol Hth).
  destruct (existsb is_number (title_values values)); reflexivity.
Qed.

(** X13: step 2, from reading the selected titles to the filtered
    inventory, ends in one of four ways.  It raises [KeyError] for "Title"
    when the selected products file or the inventory has no Title column;
    otherwise it raises [TypeError] when a selected title is a number;
    otherwise it raises [ValueError] when the matcher returns no matched
    row set and no decision is a candidate; and otherwise it returns a
    table. *)
Theorem step_two_outcomes :
  forall (pick : string -> list string -> nat)
         (selected_df inventory_df : DataFrame),
    (has_column "Title" selected_df = false ->
     filtered_inventory_from_file pick selected_df inventory_df =
     Raise (KeyError "Title")) /\
    (has_column "Title" selected_df = true ->
     exists values,
       selected_titles_of selected_df = Ok values /\
       (has_column "Title" inventory_df = false ->
        filtered_inventory_from_file pick selected_df inventory_df =
        Raise (KeyError "Title")) /\
       (has_column "Title" inventory_df = true ->
        ((exists z, In (Num z) values) ->
         filtered_inventory_from_file pick selected_df inventory_df =
         Raise TypeError) /\
        ((forall z, ~ In (Num z) values) ->
         exists matched unmatched conflicts,
           fuzzy_match_titles (texts_of (title_values values)) inventory_df
                              default_threshold =
           Ok (matched, unmatched, conflicts) /\
           (matched = [] /\ chosen pick conflicts = [] ->
            filtered_inventory_from_file pick selected_df inventory_df =
            Raise (ValueError "No objects to concatenate")) /\
           (matched <> [] \/ chosen pick conflicts <> [] ->
            exists filtered,
              filtered_inventory_from_file pick selected_df inventory_df =
              Ok filtered)))).
Proof.
  intros pick selected_df inventory_df. split; intros Hsel.
  - unfold filtered_inventory_from_file, selected_titles_of.
    now rewrite (getitem_absent _ _ Hsel).
  - destruct (getitem_present _ _ Hsel) as (i & _ & Hget).
    assert (Hvalues : selected_titles_of selected_df =
                      Ok (unique (dropna (map (fun r => nth i r NaN)
                                              (rows selected_df))))).
    { unfold selected_titles_of. now rewrite Hget. }
    eexists. split; [exact Hvalues |]. split.
    + intros Hcol. unfold filtered_inventory_from_file.
      rewrite Hvalues. cbn [bind]. unfold fuzzy_match_titles_call.
      now rewrite (getitem_absent _ _ Hcol).
    + intros Hcol.
      rewrite (filtered_inventory_from_file_valid _ _ _ _ Hvalues Hcol).
      split.
      * intros Hnum. apply number_among_values in Hnum. now rewrite Hnum.
      * intros Hnone.
        assert (E : existsb is_number
                      (title_values
                         (unique (dropna (map (fun r => nth i r NaN)
                                              (rows selected_df))))) = false).
        { apply not_true_is_false. intros E.
          apply number_among_values in E as (z & Hz). now apply (Hnone z). }
        rewrite E. now apply filtered_inventory_by_matches.
Qed.

Lemma step_two_outcomes_witness :
  filtered_inventory_from_file pick_first handles_only red_shirts =
  Raise (KeyError "Title") /\
  filtered_inventory_from_file pick_first titles_only handles_only =
  Raise (KeyError "Title") /\
  filtered_inventory_from_file pick_first numbered_selection numbered_parts =
  Raise TypeError /\
  exists filtered,
    filtered_inventory_from_file pick_first titles_only red_shirts =
    Ok filtered.
Proof.
  split; [| split; [| split]].
  - apply (step_two_outcomes pick_first handles_only red_shirts). reflexivity.
  - destruct (proj2 (step_two_outcomes pick_first titles_only handles_only)
                    eq_refl) as (values & _ & Hkey & _).
    apply Hkey. reflexivity.
  - destruct (proj2 (step_two_outcomes
                       pick_first numbered_selection numbered_parts)
                    eq_refl) as (values & Hvalues & _ & Hcol).
    apply (Hcol eq_refl).
    vm_compute in Hvalues. injection Hvalues as <-.
    exists 12%Z. simpl. tauto.
  - destruct (proj2 (step_two_outcomes pick_first titles_only red_shirts)
                    eq_refl) as (values & Hvalues & _ & Hcol).
    vm_compute in Hvalues. injection Hvalues as <-.
    destruct (proj2 (Hcol eq_refl)) as (m & u & c & Hrun & _ & Hsome).
    + intros z [H | []]. discriminate H.
    + vm_compute in Hrun. injection Hrun as <- <- <-.
      apply Hsome. right. discriminate.
Defined.

(** ** The row sets of the filtered inventory *)



(** ** Two runs of the matcher *)

Lemma nth_error_after (h l : heap) (k : nat) :
  nth_error (h ++ l) (List.length h + k) = nth_error l k.
Proof.
  rewrite nth_error_app2 by lia. f_equal. lia.
Qed.

Lemma store_after (h l : heap) (k : nat) (o : object) :
  store (List.length h + k) o (h ++ l) = h ++ store k o l.
Proof.
  induction h as [| x h IH]; simpl.
  - destruct l; reflexivity.
  - now rewrite IH.
Qed.

Lemma fuzzy_match_title_in_step inventory_df titles threshold h st title :
  let n := List.length h in
  fuzzy_match_title_in inventory_df titles threshold (n + 0, n + 1, n + 2)
                       (with_outputs h st) title =
  match fuzzy_match_title_call inventory_df titles threshold st title with
  | Ok st' => Ok (with_outputs h st')
  | Raise e => Raise e
  end.
Proof.
  intros n. destruct st as [[m u] c].
  unfold fuzzy_match_title_in, fuzzy_match_title_call, extract_call.
  destruct title as [s | z]; [| reflexivity].
  destruct (cutoff_in_range (inject_Z threshold)); [| reflexivity].
  cbn [bind]. unfold fuzzy_match_title.
  destruct (process.extract fuzz.ratio s titles (inject_Z threshold)
                            process.default_limit) as [| m1 [| m2 ms]].
  - unfold append_title, with_outputs, n.
    rewrite nth_error_after. cbn [nth_error].
    rewrite store_after. reflexivity.
  - destruct (getitem inventory_df "Title") as [col | e]; [| reflexivity].
    cbn [bind]. unfold append_frame, with_outputs, n.
    rewrite nth_error_after. cbn [nth_error].
    rewrite store_after. reflexivity.
  - unfold set_item, with_outputs, n.
    rewrite nth_error_after. cbn [nth_error].
    rewrite store_after. reflexivity.
Qed.

Lemma fuzzy_match_loop_in inventory_df titles threshold h selected st :
  let n := List.length h in
  for_each (fuzzy_match_title_in inventory_df titles threshold
              (n + 0, n + 1, n + 2))
           selected (with_outputs h st) =
  match for_each (fuzzy_match_title_call inventory_df titles threshold)
                 selected st with
  | Ok st' => Ok (with_outputs h st')
  | Raise e => Raise e
  end.
Proof.
  intros n. revert st.
  induction selected as [| title selected IH]; intros st.
  - reflexivity.
  - cbn [for_each]. unfold n.
    rewrite fuzzy_match_title_in_step.
    destruct (fuzzy_match_title_call inventory_df titles threshold st title)
      as [st' | e]; [| reflexivity].
    cbn [bind]. apply IH.
Qed.

(** A run from a heap returns three new objects after the objects of the
    heap, which it leaves as they are; the new objects hold the outputs of
    the call. *)
Lemma fuzzy_match_titles_in_run selected inventory_df threshold h :
  let n := List.length h in
  fuzzy_match_titles_in selected inventory_df threshold h =
  match fuzzy_match_titles_call selected inventory_df threshold with
  | Ok st => Ok ((n + 0, n + 1, n + 2), with_outputs h st)
  | Raise e => Raise e
  end.
Proof.
  intros n. unfold fuzzy_match_titles_in, fuzzy_match_titles_call, alloc.
  destruct (getitem inventory_df "Title") as [col | e]; [| reflexivity].
  cbn [bind].
  replace (List.length h) with (n + 0) by (unfold n; lia).
  replace (List.length (h ++ [FrameList []])) with (n + 1)
    by (rewrite length_app; reflexivity).
  replace (List.length ((h ++ [FrameList []]) ++ [TitleList []]))
    with (n + 2) by (rewrite !length_app; simpl; unfold n; lia).
  replace (((h ++ [FrameList []]) ++ [TitleList []]) ++ [ChoiceDict []])
    with (with_outputs h ([], [], []))
    by (unfold with_outputs; now rewrite <- !app_assoc).
  unfold n. rewrite fuzzy_match_loop_in.
  destruct (for_each
              (fuzzy_match_title_call inventory_df (map astype_str col)
                                      threshold)
              selected ([], [], [])) as [st | e]; reflexivity.
Qed.

Lemma outputs_new (h : heap) (st : match_state) :
  let n := List.length h in
  outputs (with_outputs h st) (n + 0, n + 1, n + 2) = Some st.
Proof.
  intros n. destruct st as [[m u] c]. unfold outputs, with_outputs, n.
  now rewrite !nth_error_after.
Qed.

Lemma outputs_kept (h : heap) (st st' : match_state) :
  let n := List.length h in
  outputs (with_outputs (with_outputs h st) st') (n + 0, n + 1, n + 2) =
  Some st.
Proof.
  intros n. destruct st as [[m u] c], st' as [[m' u'] c'].
  unfold outputs, with_outputs, n.
  rewrite <- !app_assoc. now rewrite !nth_error_after.
Qed.

(** C8: two runs of the matcher on the same selected titles, the same
    inventory table and the same threshold end alike, from whatever heaps
    they start: either both raise the same exception, or both return, and
    then the matched rows, the unmatched titles and the conflict map that
    the first run returns are those that the second run returns.  Each run
    creates its lists and its dict anew and changes no other object: when
    the second run starts from the heap the first one left, the objects of
    the first run still hold the same values after it. *)
Theorem two_runs_return_equal_outputs :
  forall (selected : list title_value) (inventory_df : DataFrame)
         (threshold : Z) (h h' : heap),
    match fuzzy_match_titles_in selected inventory_df threshold h,
          fuzzy_match_titles_in selected inventory_df threshold h' with
    | Ok (refs1, h1), Ok (refs2, h2) =>
        exists st,
          outputs h1 refs1 = Some st /\
          outputs h2 refs2 = Some st /\
          fuzzy_match_titles_call selected inventory_df threshold = Ok st /\
          (h' = h1 -> outputs h2 refs1 = Some st /\ refs2 <> refs1)
    | Raise e1, Raise e2 =>
        e1 = e2 /\
        fuzzy_match_titles_call selected inventory_df threshold = Raise e1
    | _, _ => False
    end.
Proof.
  intros selected inventory_df threshold h h'.
  rewrite !fuzzy_match_titles_in_run.
  destruct (fuzzy_match_titles_call selected inventory_df threshold)
    as [st | e]; [| split; reflexivity].
  exists st.
  split; [apply outputs_new |].
  split; [apply outputs_new |].
  split; [reflexivity |].
  intros ->. split; [apply outputs_kept |].
  destruct st as [[m u] c]. unfold with_outputs.
  rewrite length_app. simpl. intros E. injection E as E _ _. lia.
Qed.

Lemma two_runs_return_equal_outputs_witness :
  let selected := [Text "Red Shirt"; Text "Green Scarf"] in
  let h1 := [FrameList [];
             TitleList ["Green Scarf"];
             ChoiceDict [("Red Shirt", ["Red Shirt"; "Red Shirt"])]] in
  fuzzy_match_titles_in selected red_shirts 95 [] = Ok ((0, 1, 2), h1) /\
  fuzzy_match_titles_in selected red_shirts 95 h1 = Ok ((3, 4, 5), h1 ++ h1) /\
  outputs h1 (0, 1, 2) = outputs (h1 ++ h1) (3, 4, 5) /\
  outputs (h1 ++ h1) (0, 1, 2) = outputs h1 (0, 1, 2).
Proof.
  intros selected h1.
  assert (E1 : fuzzy_match_titles_in selected red_shirts 95 [] =
               Ok ((0, 1, 2), h1)) by (vm_compute; reflexivity).
  assert (E2 : fuzzy_match_titles_in selected red_shirts 95 h1 =
               Ok ((3, 4, 5), h1 ++ h1)) by (vm_compute; reflexivity).
  split; [exact E1 |]. split; [exact E2 |].
  pose proof (two_runs_return_equal_outputs selected red_shirts 95 [] h1) as H.
  rewrite E1, E2 in H.
  destruct H as (st & H1 & H2 & _ & Hseq).
  destruct (Hseq eq_refl) as [Hkept _].
  split; congruence.
Defined.
